(** * RGB underglow: a shallow embedding of [app/src/rgb_underglow.c]

    The C module keeps its data in file-level variables ([state], [led_data],
    [pixels], [status_pixels], [led_strip]) and talks to the LED strip, the
    power rail, the tick timer and the split link through calls whose results
    it only logs.  The embedding gathers the variables in one record, [world],
    and records the calls, in order, in its field [calls]; every C function
    becomes a computation in a small state monad over [world].

    Covered: the colour scaling, the layer-to-colour mapping, the Solid,
    Breathe, Spectrum and Swirl effects, the fade envelope of the status
    overlay, the compositor with its battery dimming, and the command
    functions.  The Kinesis, Battery and Test effects, the event listener and
    the painting of the status picture are outside this development.

    Integers: [uint8_t] and [uint16_t] values are [Z] with the wrap-around
    written where the C code stores them ([u8], [u16]); [int] arithmetic is
    [Z] arithmetic with [Z.quot] and [Z.rem] for the C operators [/] and [%].
    Where an [int] result depends on an unbounded argument and is used as an
    [int] (the direction of the effect, saturation and brightness steps) it
    is wrapped to 32 bits ([i32]), as the compiled code does; everywhere else
    the operands are 8- or 16-bit values and configuration constants, and the
    result is stored in 8 or 16 bits, which a wrap at 32 bits does not
    change. *)

From Stdlib Require Import ZArith List Bool Lia.
Import ListNotations.
Local Open Scope Z_scope.

(** ** Machine integers and result codes *)

Definition u8 (x : Z) : Z := x mod 256.
Definition u16 (x : Z) : Z := x mod 65536.

(** A 32-bit [int] result, two's complement. *)
Definition i32 (x : Z) : Z := (x + 2147483648) mod 4294967296 - 2147483648.

(** The values the public functions return: [0] and the negated errno
    constants [-ENODEV], [-EINVAL], [-ENOTSUP]. *)
Inductive retcode : Set :=
| OK
| ENODEV
| EINVAL
| ENOTSUP.

Definition HUE_MAX : Z := 360.
Definition SAT_MAX : Z := 100.
Definition BRT_MAX : Z := 100.

(** [enum rgb_underglow_effect]. *)
Definition UNDERGLOW_EFFECT_SOLID : Z := 0.
Definition UNDERGLOW_EFFECT_BREATHE : Z := 1.
Definition UNDERGLOW_EFFECT_SPECTRUM : Z := 2.
Definition UNDERGLOW_EFFECT_SWIRL : Z := 3.
Definition UNDERGLOW_EFFECT_KINESIS : Z := 4.
Definition UNDERGLOW_EFFECT_BATTERY : Z := 5.
Definition UNDERGLOW_EFFECT_TEST : Z := 6.
Definition UNDERGLOW_EFFECT_NUMBER : Z := 7.

(** ** Data *)

(** Modelled from the spec: [struct zmk_led_hsb] is declared in
    [zmk/rgb_underglow.h], which is not among the sources; the fields are the
    ones the module reads and writes ([h], [s], [b]), with [h] a 16-bit and
    [s], [b] 8-bit unsigned values (hue goes up to 360, the others to 100). *)
Record zmk_led_hsb : Set := mk_hsb {
  hsb_h : Z;
  hsb_s : Z;
  hsb_b : Z
}.

(** [struct led_rgb] of the strip driver: three 8-bit channels. *)
Record led_rgb : Set := mk_rgb {
  rgb_r : Z;
  rgb_g : Z;
  rgb_b : Z
}.

(** Modelled from the spec: [struct zmk_periph_led], the display record
    shared by the two halves, is declared in a header that is not among the
    sources; the fields are the ones the module uses ([layer], [indicators],
    [on], [effect]), all 8-bit but the flag. *)
Record zmk_periph_led : Set := mk_periph {
  pl_layer : Z;
  pl_indicators : Z;
  pl_on : bool;
  pl_effect : Z
}.

(** [struct rgb_underglow_state]. *)
Record rgb_underglow_state : Set := mk_state {
  color : zmk_led_hsb;
  animation_speed : Z;
  current_effect : Z;
  animation_step : Z;
  on : bool;
  status_active : bool;
  status_animation_step : Z
}.

(** Calls on the collaborators, as the module issues them. *)
Inductive call : Set :=
| ext_power_enable
| ext_power_disable
| k_timer_start
| k_timer_stop
| submit_underglow_off_work
| zmk_split_bt_update_led (d : zmk_periph_led)
| led_strip_update_rgb (buf : list led_rgb).

(** The file-level variables.  [led_strip] is [true] when the pointer of the
    same name is not [NULL]. *)
Record world : Set := mk_world {
  led_strip : bool;
  state : rgb_underglow_state;
  led_data : zmk_periph_led;
  pixels : list led_rgb;
  status_pixels : list led_rgb;
  calls : list call
}.

(** What is fixed when the firmware is built: Kconfig values, devicetree
    properties and the preprocessor switches of the module.  [hsb_to_rgb]
    (lines 120-167) computes in single-precision floating point; it is kept
    as a parameter here and no result below depends on the colours it
    yields. *)
Record config : Type := mk_config {
  STRIP_NUM_PIXELS : nat;
  CONFIG_ZMK_RGB_UNDERGLOW_BRT_MIN : Z;
  CONFIG_ZMK_RGB_UNDERGLOW_BRT_MAX : Z;
  CONFIG_ZMK_RGB_UNDERGLOW_HUE_STEP : Z;
  CONFIG_ZMK_RGB_UNDERGLOW_SAT_STEP : Z;
  CONFIG_ZMK_RGB_UNDERGLOW_BRT_STEP : Z;
  ZMK_BLE_IS_CENTRAL : bool;
  CONFIG_ZMK_RGB_UNDERGLOW_EXT_POWER : bool;
  UNDERGLOW_INDICATORS_ENABLED : bool;
  hsb_to_rgb : zmk_led_hsb -> led_rgb
}.

(** What a tick reads from the collaborators: the battery percentage
    ([zmk_battery_state_of_charge], a [uint8_t]) and the picture that lines
    551-617 of [zmk_led_generate_status] paint into [status_pixels] from the
    battery, lock, layer and connection sources. *)
Record inputs : Set := mk_inputs {
  battery_soc : Z;
  status_picture : list led_rgb
}.

(** ** Field updates *)

Definition with_color (c : zmk_led_hsb) (st : rgb_underglow_state) :=
  mk_state c (animation_speed st) (current_effect st) (animation_step st)
           (on st) (status_active st) (status_animation_step st).

Definition with_animation_speed (v : Z) (st : rgb_underglow_state) :=
  mk_state (color st) v (current_effect st) (animation_step st)
           (on st) (status_active st) (status_animation_step st).

Definition with_current_effect (v : Z) (st : rgb_underglow_state) :=
  mk_state (color st) (animation_speed st) v (animation_step st)
           (on st) (status_active st) (status_animation_step st).

Definition with_animation_step (v : Z) (st : rgb_underglow_state) :=
  mk_state (color st) (animation_speed st) (current_effect st) v
           (on st) (status_active st) (status_animation_step st).

Definition with_on (v : bool) (st : rgb_underglow_state) :=
  mk_state (color st) (animation_speed st) (current_effect st)
           (animation_step st) v (status_active st) (status_animation_step st).

Definition with_status_active (v : bool) (st : rgb_underglow_state) :=
  mk_state (color st) (animation_speed st) (current_effect st)
           (animation_step st) (on st) v (status_animation_step st).

Definition with_status_animation_step (v : Z) (st : rgb_underglow_state) :=
  mk_state (color st) (animation_speed st) (current_effect st)
           (animation_step st) (on st) (status_active st) v.

Definition with_hsb_h (v : Z) (c : zmk_led_hsb) := mk_hsb v (hsb_s c) (hsb_b c).
Definition with_hsb_s (v : Z) (c : zmk_led_hsb) := mk_hsb (hsb_h c) v (hsb_b c).
Definition with_hsb_b (v : Z) (c : zmk_led_hsb) := mk_hsb (hsb_h c) (hsb_s c) v.

Definition with_pl_on (v : bool) (d : zmk_periph_led) :=
  mk_periph (pl_layer d) (pl_indicators d) v (pl_effect d).

Definition with_pl_effect (v : Z) (d : zmk_periph_led) :=
  mk_periph (pl_layer d) (pl_indicators d) (pl_on d) v.

(** ** The state monad of the module *)

Definition M (A : Type) : Type := world -> A * world.

Definition ret {A : Type} (a : A) : M A := fun w => (a, w).

Definition bind {A B : Type} (m : M A) (k : A -> M B) : M B :=
  fun w => k (fst (m w)) (snd (m w)).

Declare Scope underglow_scope.
Delimit Scope underglow_scope with ug.
Notation "x <- m ;; k" := (bind m (fun x => k))
  (at level 61, m at next level, right associativity) : underglow_scope.
Notation "m ;; k" := (bind m (fun _ => k))
  (at level 61, right associativity) : underglow_scope.
Local Open Scope underglow_scope.

Definition gets {A : Type} (f : world -> A) : M A := fun w => (f w, w).

Definition modify_state (f : rgb_underglow_state -> rgb_underglow_state) : M unit :=
  fun w => (tt, mk_world (led_strip w) (f (state w)) (led_data w)
                         (pixels w) (status_pixels w) (calls w)).

Definition modify_led_data (f : zmk_periph_led -> zmk_periph_led) : M unit :=
  fun w => (tt, mk_world (led_strip w) (state w) (f (led_data w))
                         (pixels w) (status_pixels w) (calls w)).

Definition set_pixels (p : list led_rgb) : M unit :=
  fun w => (tt, mk_world (led_strip w) (state w) (led_data w)
                         p (status_pixels w) (calls w)).

Definition set_status_pixels (p : list led_rgb) : M unit :=
  fun w => (tt, mk_world (led_strip w) (state w) (led_data w)
                         (pixels w) p (calls w)).

Definition emit (c : call) : M unit :=
  fun w => (tt, mk_world (led_strip w) (state w) (led_data w)
                         (pixels w) (status_pixels w) (calls w ++ [c])).

Definition when (b : bool) (m : M unit) : M unit := if b then m else ret tt.

(** ** Colour model (lines 109-118) *)

Section Underglow.

Variable cfg : config.

Local Abbreviation N := (STRIP_NUM_PIXELS cfg).

Definition black : led_rgb := mk_rgb 0 0 0.

Definition hsb_scale_min_max (hsb : zmk_led_hsb) : zmk_led_hsb :=
  with_hsb_b
    (u8 (CONFIG_ZMK_RGB_UNDERGLOW_BRT_MIN cfg +
         Z.quot ((CONFIG_ZMK_RGB_UNDERGLOW_BRT_MAX cfg -
                  CONFIG_ZMK_RGB_UNDERGLOW_BRT_MIN cfg) * hsb_b hsb) BRT_MAX))
    hsb.

Definition hsb_scale_zero_max (hsb : zmk_led_hsb) : zmk_led_hsb :=
  with_hsb_b
    (u8 (Z.quot (hsb_b hsb * CONFIG_ZMK_RGB_UNDERGLOW_BRT_MAX cfg) BRT_MAX))
    hsb.

(** ** The split link (lines 238-243) *)

Definition zmk_rgb_underglow_central_send : M unit :=
  d <- gets led_data ;;
  emit (zmk_split_bt_update_led d).

(** ** Layer to colour pair (lines 260-272) *)

Definition zmk_led_layer_to_colors (layer : Z) : Z * Z :=
  if layer <? 8 then (layer, layer)
  else
    let left := u8 (1 + Z.quot (layer - 8) 6) in
    let right := u8 (1 + Z.rem (layer - 8) 6) in
    if left <=? right then (left, u8 (right + 1)) else (left, right).

(** ** Effects (lines 190-233) *)

(** A loop [for (i = 0; i < STRIP_NUM_PIXELS; i++) buf[i] = f(i)]. *)
Definition fill_strip (f : nat -> led_rgb) : list led_rgb := map f (seq 0 N).

Definition zmk_rgb_underglow_effect_solid : M unit :=
  st <- gets state ;;
  set_pixels (fill_strip (fun _ => hsb_to_rgb cfg (hsb_scale_min_max (color st)))).

(** The colour a Breathe tick gives every pixel before conversion
    (lines 198-201). *)
Definition breathe_hsb (st : rgb_underglow_state) : zmk_led_hsb :=
  hsb_scale_zero_max
    (with_hsb_b (u8 (Z.quot (Z.abs (animation_step st - 1200)) 12)) (color st)).

Definition zmk_rgb_underglow_effect_breathe : M unit :=
  st <- gets state ;;
  set_pixels (fill_strip (fun _ => hsb_to_rgb cfg (breathe_hsb st))) ;;
  modify_state (fun st =>
    with_animation_step (u16 (animation_step st + animation_speed st * 10)) st) ;;
  st <- gets state ;;
  when (2400 <? animation_step st) (modify_state (with_animation_step 0)).

Definition zmk_rgb_underglow_effect_spectrum : M unit :=
  st <- gets state ;;
  set_pixels (fill_strip (fun _ =>
    hsb_to_rgb cfg (hsb_scale_min_max (with_hsb_h (animation_step st) (color st))))) ;;
  modify_state (fun st =>
    with_animation_step (u16 (animation_step st + animation_speed st)) st) ;;
  modify_state (fun st =>
    with_animation_step (u16 (Z.rem (animation_step st) HUE_MAX)) st).

Definition zmk_rgb_underglow_effect_swirl : M unit :=
  st <- gets state ;;
  set_pixels (fill_strip (fun i =>
    hsb_to_rgb cfg (hsb_scale_min_max
      (with_hsb_h
         (u16 (Z.rem (Z.quot HUE_MAX (Z.of_nat N) * Z.of_nat i + animation_step st)
                     HUE_MAX))
         (color st))))) ;;
  modify_state (fun st =>
    with_animation_step (u16 (animation_step st + animation_speed st * 2)) st) ;;
  modify_state (fun st =>
    with_animation_step (u16 (Z.rem (animation_step st) HUE_MAX)) st).

(** ** Status overlay and its fade envelope (lines 550-654) *)

Definition zmk_led_generate_status (inp : inputs) : M Z :=
  if negb (UNDERGLOW_INDICATORS_ENABLED cfg) then ret 0
  else
    set_status_pixels (status_picture inp) ;;
    st <- gets state ;;
    let step := status_animation_step st in
    if step <? Z.quot 500 25 then
      ret (Z.quot (step * 256) (Z.quot 500 25))
    else if step <? Z.quot 8000 25 then
      ret 256
    else if step <? Z.quot 10000 25 then
      ret (256 - Z.quot ((step - Z.quot 8000 25) * 256) (Z.quot 2000 25))
    else
      modify_state (with_status_active false) ;;
      modify_state (with_status_animation_step 0) ;;
      when (negb (on st))
        (emit k_timer_stop ;;
         when (CONFIG_ZMK_RGB_UNDERGLOW_EXT_POWER cfg) (emit ext_power_disable)) ;;
      ret 0.

(** ** Compositor (lines 656-712) *)

(** One channel of the blend branch (lines 688-693): each product is shifted
    on its own, the sum is stored in an 8-bit channel. *)
Definition blend_channel (blend_l blend_r s e : Z) : Z :=
  u8 (Z.shiftr (s * blend_l) 8 + Z.shiftr (e * blend_r) 8).

Definition blend_pixel (blend_l blend_r : Z) (s e : led_rgb) : led_rgb :=
  mk_rgb (blend_channel blend_l blend_r (rgb_r s) (rgb_r e))
         (blend_channel blend_l blend_r (rgb_g s) (rgb_g e))
         (blend_channel blend_l blend_r (rgb_b s) (rgb_b e)).

(** [led_buffer] after lines 675-695. *)
Definition composite (blend : Z) (E S : list led_rgb) : list led_rgb :=
  if blend =? 0 then fill_strip (fun i => nth i E black)
  else if 256 <=? blend then fill_strip (fun i => nth i S black)
  else
    let blend_l := u16 blend in
    let blend_r := u16 (256 - blend) in
    fill_strip (fun i => blend_pixel blend_l blend_r (nth i S black) (nth i E black)).

Definition halve_pixel (p : led_rgb) : led_rgb :=
  mk_rgb (Z.shiftr (rgb_r p) 1) (Z.shiftr (rgb_g p) 1) (Z.shiftr (rgb_b p) 1).

(** Lines 697-706. *)
Definition battery_dim (bat_level : Z) (buf : list led_rgb) : list led_rgb :=
  if bat_level <? 10 then fill_strip (fun _ => black)
  else if bat_level <? 20 then fill_strip (fun i => halve_pixel (nth i buf black))
  else buf.

(** The [STRIP_NUM_PIXELS] pixels handed to [led_strip_update_rgb] by lines
    666-712, for a battery level, a blend weight, and the two buffers. *)
Definition strip_output (bat_level blend : Z) (E S : list led_rgb) : list led_rgb :=
  if (blend =? 0) && (20 <=? bat_level) then firstn N E
  else battery_dim bat_level (composite blend E S).

(** Lines 659-664: the blend weight of this pass. *)
Definition status_blend (inp : inputs) : M Z :=
  st <- gets state ;;
  if status_active st then
    b <- zmk_led_generate_status inp ;;
    modify_state (fun st =>
      with_status_animation_step (u16 (status_animation_step st + 1)) st) ;;
    ret b
  else ret 0.

Definition zmk_led_write_pixels (inp : inputs) : M unit :=
  let bat_level := battery_soc inp in
  blend <- status_blend inp ;;
  E <- gets pixels ;;
  S <- gets status_pixels ;;
  emit (led_strip_update_rgb (strip_output bat_level blend E S)).

(** ** Commands (lines 178-188 and 804-979, 1071-1094) *)

Definition zmk_rgb_underglow_save_state : M retcode := ret OK.

Definition zmk_rgb_underglow_on : M retcode :=
  strip <- gets led_strip ;;
  if negb strip then ret ENODEV
  else
    when (CONFIG_ZMK_RGB_UNDERGLOW_EXT_POWER cfg) (emit ext_power_enable) ;;
    modify_state (with_on true) ;;
    modify_state (with_animation_step 0) ;;
    emit k_timer_start ;;
    when (ZMK_BLE_IS_CENTRAL cfg)
      (modify_led_data (with_pl_on true) ;; zmk_rgb_underglow_central_send) ;;
    ret OK.

Definition zmk_rgb_underglow_off : M retcode :=
  strip <- gets led_strip ;;
  if negb strip then ret ENODEV
  else
    when (CONFIG_ZMK_RGB_UNDERGLOW_EXT_POWER cfg) (emit ext_power_disable) ;;
    emit submit_underglow_off_work ;;
    emit k_timer_stop ;;
    modify_state (with_on false) ;;
    when (ZMK_BLE_IS_CENTRAL cfg)
      (modify_led_data (with_pl_on false) ;; zmk_rgb_underglow_central_send) ;;
    ret OK.

Definition zmk_rgb_underglow_calc_effect (direction : Z) : M Z :=
  st <- gets state ;;
  ret (Z.rem (i32 (current_effect st + UNDERGLOW_EFFECT_NUMBER + direction))
             UNDERGLOW_EFFECT_NUMBER).

Definition zmk_rgb_underglow_select_effect (effect : Z) : M retcode :=
  strip <- gets led_strip ;;
  if negb strip then ret ENODEV
  else if (effect <? 0) || (UNDERGLOW_EFFECT_NUMBER <=? effect) then ret EINVAL
  else
    modify_state (with_current_effect (u8 effect)) ;;
    modify_state (with_animation_step 0) ;;
    when (ZMK_BLE_IS_CENTRAL cfg)
      (modify_led_data (with_pl_effect (u8 effect)) ;;
       zmk_rgb_underglow_central_send) ;;
    ret OK.

Definition zmk_rgb_underglow_cycle_effect (direction : Z) : M retcode :=
  e <- zmk_rgb_underglow_calc_effect direction ;;
  zmk_rgb_underglow_select_effect e.

Definition zmk_rgb_underglow_toggle : M retcode :=
  st <- gets state ;;
  if on st then zmk_rgb_underglow_off else zmk_rgb_underglow_on.

Definition zmk_rgb_underglow_set_hsb (c : zmk_led_hsb) : M retcode :=
  if (HUE_MAX <? hsb_h c) || (SAT_MAX <? hsb_s c) || (BRT_MAX <? hsb_b c)
  then ret ENOTSUP
  else
    modify_state (with_color c) ;;
    ret OK.

Definition zmk_rgb_underglow_calc_hue (direction : Z) : M zmk_led_hsb :=
  st <- gets state ;;
  let c := color st in
  let c := with_hsb_h
             (u16 (hsb_h c + (HUE_MAX + direction * CONFIG_ZMK_RGB_UNDERGLOW_HUE_STEP cfg)))
             c in
  ret (with_hsb_h (u16 (Z.rem (hsb_h c) HUE_MAX)) c).

Definition zmk_rgb_underglow_calc_sat (direction : Z) : M zmk_led_hsb :=
  st <- gets state ;;
  let c := color st in
  let s := i32 (hsb_s c + i32 (direction * CONFIG_ZMK_RGB_UNDERGLOW_SAT_STEP cfg)) in
  let s := if s <? 0 then 0 else if SAT_MAX <? s then SAT_MAX else s in
  ret (with_hsb_s (u8 s) c).

(** Zephyr's [CLAMP(val, low, high)]. *)
Definition CLAMP (val low high : Z) : Z :=
  if val <=? low then low else if val <? high then val else high.

Definition zmk_rgb_underglow_calc_brt (direction : Z) : M zmk_led_hsb :=
  st <- gets state ;;
  let c := color st in
  let b := i32 (hsb_b c + i32 (direction * CONFIG_ZMK_RGB_UNDERGLOW_BRT_STEP cfg)) in
  ret (with_hsb_b (u8 (CLAMP b 0 BRT_MAX)) c).

Definition zmk_rgb_underglow_change_hue (direction : Z) : M retcode :=
  strip <- gets led_strip ;;
  if negb strip then ret ENODEV
  else
    c <- zmk_rgb_underglow_calc_hue direction ;;
    modify_state (with_color c) ;;
    zmk_rgb_underglow_save_state.

Definition zmk_rgb_underglow_change_sat (direction : Z) : M retcode :=
  strip <- gets led_strip ;;
  if negb strip then ret ENODEV
  else
    c <- zmk_rgb_underglow_calc_sat direction ;;
    modify_state (with_color c) ;;
    zmk_rgb_underglow_save_state.

Definition zmk_rgb_underglow_change_brt (direction : Z) : M retcode :=
  strip <- gets led_strip ;;
  if negb strip then ret ENODEV
  else
    c <- zmk_rgb_underglow_calc_brt direction ;;
    modify_state (with_color c) ;;
    zmk_rgb_underglow_save_state.

Definition zmk_rgb_underglow_change_spd (direction : Z) : M retcode :=
  strip <- gets led_strip ;;
  if negb strip then ret ENODEV
  else
    st <- gets state ;;
    if (animation_speed st =? 1) && (direction <? 0) then ret OK
    else
      modify_state (fun st =>
        with_animation_speed (u8 (animation_speed st + direction)) st) ;;
      st <- gets state ;;
      when (5 <? animation_speed st) (modify_state (with_animation_speed 5)) ;;
      zmk_rgb_underglow_save_state.

Definition zmk_rgb_underglow_status : M retcode :=
  strip <- gets led_strip ;;
  if negb strip then ret ENODEV
  else
    modify_state (with_status_active true) ;;
    modify_state (with_status_animation_step 0) ;;
    st <- gets state ;;
    when (negb (on st)) (emit k_timer_start) ;;
    when (CONFIG_ZMK_RGB_UNDERGLOW_EXT_POWER cfg && negb (on st))
      (emit ext_power_enable) ;;
    ret OK.

Definition zmk_rgb_underglow_set_periph (periph : zmk_periph_led) : M retcode :=
  modify_led_data (fun _ => periph) ;;
  st <- gets state ;;
  d <- gets led_data ;;
  (if negb (on st) && pl_on d then
     _ <- zmk_rgb_underglow_on ;; ret tt
   else if on st && negb (pl_on d) then
     _ <- zmk_rgb_underglow_off ;; ret tt
   else ret tt) ;;
  d <- gets led_data ;;
  modify_state (with_current_effect (pl_effect d)) ;;
  ret OK.

End Underglow.

(** ** Running several ticks *)

(** [n] Breathe ticks in a row. *)
Definition breathe_ticks (cfg : config) (n : nat) (w : world) : world :=
  Nat.iter n (fun w => snd (zmk_rgb_underglow_effect_breathe cfg w)) w.

(** One compositor pass per element of [inps], oldest first. *)
Definition write_pixels_ticks (cfg : config) (inps : list inputs) (w : world) : world :=
  fold_left (fun w inp => snd (zmk_led_write_pixels cfg inp w)) inps w.

(** ** Typing of the buffers *)

Definition uint8 (x : Z) : Prop := 0 <= x < 256.

Definition pixel_ok (p : led_rgb) : Prop :=
  uint8 (rgb_r p) /\ uint8 (rgb_g p) /\ uint8 (rgb_b p).

(** The blend the specification describes: both products are added before
    the shift. *)
Definition spec_blend_channel (w s e : Z) : Z :=
  Z.shiftr (s * w + e * (256 - w)) 8.

(** The calls [zmk_rgb_underglow_on] and [zmk_rgb_underglow_off] issue when
    the strip is there and [led_data] holds [d]. *)
Definition on_calls (cfg : config) (d : zmk_periph_led) : list call :=
  (if CONFIG_ZMK_RGB_UNDERGLOW_EXT_POWER cfg then [ext_power_enable] else []) ++
  [k_timer_start] ++
  (if ZMK_BLE_IS_CENTRAL cfg then [zmk_split_bt_update_led (with_pl_on true d)] else []).

Definition off_calls (cfg : config) (d : zmk_periph_led) : list call :=
  (if CONFIG_ZMK_RGB_UNDERGLOW_EXT_POWER cfg then [ext_power_disable] else []) ++
  [submit_underglow_off_work; k_timer_stop] ++
  (if ZMK_BLE_IS_CENTRAL cfg then [zmk_split_bt_update_led (with_pl_on false d)] else []).

(** The fade envelope in closed form: the weight lines 620-635 compute, by
    counter value (20 ticks in, 300 ticks full, 80 ticks out). *)
Definition envelope (k : Z) : Z :=
  if k <? 20 then k * 256 / 20
  else if k <? 320 then 256
  else if k <? 400 then 256 - (k - 320) * 256 / 80
  else 0.

(** [led_data := periph], the first statement of [zmk_rgb_underglow_set_periph]. *)
Definition store_periph (periph : zmk_periph_led) (w : world) : world :=
  snd (modify_led_data (fun _ => periph) w).

(** ** A concrete build and concrete worlds, to run the model on *)

(** A three-pixel peripheral half with the status overlay compiled in; the
    colour conversion is a grey ramp standing in for [hsb_to_rgb]. *)
Definition example_config : config :=
  mk_config 3 0 100 10 10 10 false true true
            (fun c => mk_rgb (hsb_b c) (hsb_b c) (hsb_b c)).

Definition example_state : rgb_underglow_state :=
  mk_state (mk_hsb 120 50 50) 1 UNDERGLOW_EFFECT_BREATHE 0 true false 0.

Definition white : led_rgb := mk_rgb 255 255 255.

Definition example_world : world :=
  mk_world true example_state (mk_periph 0 0 true UNDERGLOW_EFFECT_BREATHE)
           [white; white; white] [white; white; white] [].

(** The same world before [led_strip] is set. *)
Definition unready_world : world :=
  mk_world false example_state (mk_periph 0 0 true UNDERGLOW_EFFECT_BREATHE)
           [white; white; white] [white; white; white] [].

(** The overlay is showing and its counter stands at [k]. *)
Definition status_world (k : Z) : world :=
  mk_world true (with_status_animation_step k (with_status_active true example_state))
           (mk_periph 0 0 true UNDERGLOW_EFFECT_BREATHE)
           [white; white; white] [white; white; white] [].

Definition example_inputs : inputs := mk_inputs 100 [white; white; white].

(** ** Further parts of the module *)

Section Palette.

Variable cfg : config.

(** The macro [LED_RGB] (lines 169-176) scales the three bytes of a 24-bit
    colour by a floating-point factor; it is kept as a parameter. *)
Variable LED_RGB : Z -> led_rgb.

(** Lines 475-480. *)
Definition BATTERY_LEVELS : list Z := [80; 50; 20].

Definition BATTERY_COLORS : list led_rgb :=
  [LED_RGB 0x00FF00; LED_RGB 0xFFFF00; LED_RGB 0xFF8C00; LED_RGB 0xFF0000].

(** The loop of lines 485-487,
    [for (; color < NUM_BATTERY_LEVELS && soc < BATTERY_LEVELS[color]; color++)],
    run over the thresholds still ahead. *)
Fixpoint battery_color_scan (soc : Z) (levels : list Z) (color : nat) : nat :=
  match levels with
  | [] => color
  | l :: levels' =>
      if soc <? l then battery_color_scan soc levels' (S color) else color
  end.

(** Lines 482-493. *)
Definition zmk_rgb_underglow_effect_battery (inp : inputs) : M unit :=
  let soc := battery_soc inp in
  let color := battery_color_scan soc BATTERY_LEVELS 0 in
  let rgb := nth color BATTERY_COLORS black in
  set_pixels (fill_strip cfg (fun _ => rgb)).

End Palette.

(** [struct rgb_underglow_sleep_state] and the function-local static of
    [rgb_underglow_auto_state] (lines 983-992). *)
Record rgb_underglow_sleep_state : Set := mk_sleep {
  is_awake : bool;
  rgb_state_before_sleeping : bool
}.

Definition initial_sleep_state : rgb_underglow_sleep_state := mk_sleep true false.

(** Lines 988-1010; the static is passed in and handed back. *)
Definition rgb_underglow_auto_state (cfg : config) (target_wake_state : bool)
    (sleep_state : rgb_underglow_sleep_state)
  : M (retcode * rgb_underglow_sleep_state) :=
  if Bool.eqb target_wake_state (is_awake sleep_state) then ret (OK, sleep_state)
  else
    let sleep_state := mk_sleep target_wake_state
                                (rgb_state_before_sleeping sleep_state) in
    if is_awake sleep_state then
      if rgb_state_before_sleeping sleep_state then
        r <- zmk_rgb_underglow_on cfg ;; ret (r, sleep_state)
      else
        r <- zmk_rgb_underglow_off cfg ;; ret (r, sleep_state)
    else
      st <- gets state ;;
      let sleep_state := mk_sleep (is_awake sleep_state) (on st) in
      r <- zmk_rgb_underglow_off cfg ;; ret (r, sleep_state).

(** Lines 796-802: the flag written through [on_off], if any. *)
Definition zmk_rgb_underglow_get_state : M (retcode * option bool) :=
  strip <- gets led_strip ;;
  if negb strip then ret (ENODEV, None)
  else
    st <- gets state ;;
    ret (OK, Some (on st)).

(** Lines 829-835, the work item [zmk_rgb_underglow_off] submits. *)
Definition zmk_rgb_underglow_off_handler (cfg : config) : M unit :=
  set_pixels (fill_strip cfg (fun _ => mk_rgb 0 0 0)) ;;
  p <- gets pixels ;;
  emit (led_strip_update_rgb (firstn (STRIP_NUM_PIXELS cfg) p)).

(** [n] Spectrum ticks, and [n] Swirl ticks, in a row. *)
Definition spectrum_ticks (cfg : config) (n : nat) (w : world) : world :=
  Nat.iter n (fun w => snd (zmk_rgb_underglow_effect_spectrum cfg w)) w.

Definition swirl_ticks (cfg : config) (n : nat) (w : world) : world :=
  Nat.iter n (fun w => snd (zmk_rgb_underglow_effect_swirl cfg w)) w.

(** An 8-bit colour field. *)
Definition hsb_ok (c : zmk_led_hsb) : Prop :=
  0 <= hsb_h c < 65536 /\ 0 <= hsb_s c < 256 /\ 0 <= hsb_b c < 256.

(** A stand-in for [LED_RGB] that keeps the bytes as they are (scale 250). *)
Definition example_LED_RGB (hex : Z) : led_rgb :=
  mk_rgb (Z.shiftr (Z.land hex 0xFF0000) 16) (Z.shiftr (Z.land hex 0x00FF00) 8)
         (Z.land hex 0x0000FF).

(** ** The status picture: colours and the battery gauge (lines 510-548) *)

(** [buf[n] = c]; the positions come from the devicetree and lie inside the
    strip, a write past the end of the buffer is not modelled. *)
Fixpoint set_nth (n : nat) (c : led_rgb) (buf : list led_rgb) : list led_rgb :=
  match buf, n with
  | [], _ => []
  | _ :: t, O => c :: t
  | h :: t, S n' => h :: set_nth n' c t
  end.

Section StatusPicture.

Variable cfg : config.

Definition HEXRGB (R G B : Z) : led_rgb :=
  mk_rgb (u8 (Z.quot (CONFIG_ZMK_RGB_UNDERGLOW_BRT_MAX cfg * R) 0xff))
         (u8 (Z.quot (CONFIG_ZMK_RGB_UNDERGLOW_BRT_MAX cfg * G) 0xff))
         (u8 (Z.quot (CONFIG_ZMK_RGB_UNDERGLOW_BRT_MAX cfg * B) 0xff)).

Definition red : led_rgb := HEXRGB 0xff 0x00 0x00.
Definition yellow : led_rgb := HEXRGB 0xff 0xff 0x00.
Definition green : led_rgb := HEXRGB 0x00 0xff 0x00.

(** The loop of lines 536-541 from index [i] on, over the addresses still
    ahead.  With a single address the C code divides by zero; the model is
    meant for two addresses or more (and for none, where the loop does not
    run). *)
Fixpoint battery_level_loop (bat_level : Z) (bat_colour : led_rgb)
    (addresses_len : Z) (i : Z) (addresses : list Z) (buf : list led_rgb)
  : list led_rgb :=
  match addresses with
  | [] => buf
  | a :: rest =>
      let min_level := Z.quot (i * 100) (addresses_len - 1) in
      let buf := if min_level <=? bat_level
                 then set_nth (Z.to_nat a) bat_colour buf else buf in
      battery_level_loop bat_level bat_colour addresses_len (i + 1) rest buf
  end.

Definition zmk_led_battery_level (bat_level : Z) (addresses : list Z) : M unit :=
  let bat_colour :=
    if 40 <? bat_level then green
    else if 20 <? bat_level then yellow
    else red in
  sp <- gets status_pixels ;;
  set_status_pixels
    (battery_level_loop bat_level bat_colour (Z.of_nat (length addresses)) 0
       addresses sp).

Definition zmk_led_fill (color : led_rgb) (addresses : list Z) : M unit :=
  sp <- gets status_pixels ;;
  set_status_pixels
    (fold_left (fun buf a => set_nth (Z.to_nat a) color buf) addresses sp).

End StatusPicture.

(** ** The blink generator of the Kinesis effect (lines 274-282) *)

(** [last_ble_state], a two-element array indexed by 0 and 1. *)
Definition ble_flag (idx : nat) (last_ble_state : bool * bool) : bool :=
  match idx with O => fst last_ble_state | _ => snd last_ble_state end.

Definition set_ble_flag (idx : nat) (v : bool) (last_ble_state : bool * bool)
  : bool * bool :=
  match idx with
  | O => (v, snd last_ble_state)
  | _ => (fst last_ble_state, v)
  end.

(** The array is passed in and handed back beside the result. *)
Definition zmk_kinesis_blink_step (idx : nat) (limit : Z) (last_ble_state : bool * bool)
  : M (bool * (bool * bool)) :=
  modify_state (fun st => with_animation_step (u16 (animation_step st + 1)) st) ;;
  st <- gets state ;;
  if limit <? animation_step st then
    let last_ble_state :=
      set_ble_flag idx (negb (ble_flag idx last_ble_state)) last_ble_state in
    modify_state (with_animation_step 0) ;;
    ret (negb (ble_flag idx last_ble_state), last_ble_state)
  else
    ret (negb (ble_flag idx last_ble_state), last_ble_state).

(** [n] blink steps in a row: the array and the world afterwards. *)
Fixpoint blink_steps (idx : nat) (limit : Z) (n : nat)
    (last_ble_state : bool * bool) (w : world) : (bool * bool) * world :=
  match n with
  | O => (last_ble_state, w)
  | S n' =>
      let r := zmk_kinesis_blink_step idx limit last_ble_state w in
      blink_steps idx limit n' (snd (fst r)) (snd r)
  end.

(** ** Sequences of commands *)

(** The public command functions with their arguments, to speak about
    sequences of calls. *)
Inductive command : Set :=
| cmd_on
| cmd_off
| cmd_toggle
| cmd_select_effect (effect : Z)
| cmd_cycle_effect (direction : Z)
| cmd_set_hsb (c : zmk_led_hsb)
| cmd_change_hue (direction : Z)
| cmd_change_sat (direction : Z)
| cmd_change_brt (direction : Z)
| cmd_change_spd (direction : Z)
| cmd_status.

Definition run_command (cfg : config) (c : command) : M retcode :=
  match c with
  | cmd_on => zmk_rgb_underglow_on cfg
  | cmd_off => zmk_rgb_underglow_off cfg
  | cmd_toggle => zmk_rgb_underglow_toggle cfg
  | cmd_select_effect effect => zmk_rgb_underglow_select_effect cfg effect
  | cmd_cycle_effect direction => zmk_rgb_underglow_cycle_effect cfg direction
  | cmd_set_hsb c => zmk_rgb_underglow_set_hsb c
  | cmd_change_hue direction => zmk_rgb_underglow_change_hue cfg direction
  | cmd_change_sat direction => zmk_rgb_underglow_change_sat cfg direction
  | cmd_change_brt direction => zmk_rgb_underglow_change_brt cfg direction
  | cmd_change_spd direction => zmk_rgb_underglow_change_spd direction
  | cmd_status => zmk_rgb_underglow_status cfg
  end.

(** The commands of [cs] one after the other, results dropped. *)
Definition run_commands (cfg : config) (cs : list command) (w : world) : world :=
  fold_left (fun w c => snd (run_command cfg c w)) cs w.

Definition is_set_hsb (c : command) : bool :=
  match c with cmd_set_hsb _ => true | _ => false end.

(** The bounds the commands keep on the stored configuration. *)
Definition state_in_range (st : rgb_underglow_state) : Prop :=
  hsb_h (color st) <= 360 /\ hsb_s (color st) <= 100 /\ hsb_b (color st) <= 100 /\
  animation_speed st <= 5 /\ 0 <= current_effect st <= 6.

(** * Properties *)

(** ** Proof support *)

Ltac by_eval := first [reflexivity | lia | (vm_compute; easy)].

Ltac run_m :=
  unfold bind, ret, gets, modify_state, modify_led_data, set_pixels,
    set_status_pixels, emit, when; cbn [fst snd].

Ltac zb :=
  repeat match goal with
  | H : (_ <? _) = true |- _ => apply Z.ltb_lt in H
  | H : (_ <? _) = false |- _ => apply Z.ltb_ge in H
  | H : (_ <=? _) = true |- _ => apply Z.leb_le in H
  | H : (_ <=? _) = false |- _ => apply Z.leb_gt in H
  | H : (_ =? _) = true |- _ => apply Z.eqb_eq in H
  | H : (_ =? _) = false |- _ => apply Z.eqb_neq in H
  end.

Lemma u8_small (x : Z) : 0 <= x < 256 -> u8 x = x.
Proof. intros; unfold u8; apply Z.mod_small; assumption. Qed.

Lemma u16_small (x : Z) : 0 <= x < 65536 -> u16 x = x.
Proof. intros; unfold u16; apply Z.mod_small; assumption. Qed.

Lemma i32_small (x : Z) : -2147483648 <= x <= 2147483647 -> i32 x = x.
Proof. intros H. unfold i32. rewrite Z.mod_small by lia. lia. Qed.

Lemma i32_add_idemp (a b : Z) : i32 (a + i32 b) = i32 (a + b).
Proof.
  unfold i32.
  replace (a + ((b + 2147483648) mod 4294967296 - 2147483648) + 2147483648)
    with (a + (b + 2147483648) mod 4294967296) by ring.
  rewrite Zplus_mod_idemp_r. do 2 f_equal. ring.
Qed.

Lemma quot_div (a b : Z) : 0 <= a -> 0 < b -> Z.quot a b = a / b.
Proof. intros; apply Z.quot_div_nonneg; assumption. Qed.

Lemma rem_mod (a b : Z) : 0 <= a -> 0 < b -> Z.rem a b = a mod b.
Proof. intros; apply Z.rem_mod_nonneg; assumption. Qed.

(** ** Layer colours *)

Lemma layer_to_colors_low (layer : Z) :
  layer < 8 -> zmk_led_layer_to_colors layer = (layer, layer).
Proof.
  intros H; unfold zmk_led_layer_to_colors.
  destruct (Z.ltb_spec layer 8); [reflexivity | lia].
Qed.

Lemma layer_to_colors_high (layer : Z) :
  8 <= layer < 256 ->
  let left := 1 + (layer - 8) / 6 in
  let right := 1 + (layer - 8) mod 6 in
  zmk_led_layer_to_colors layer =
    (left, if left <=? right then right + 1 else right).
Proof.
  intros H left right; unfold zmk_led_layer_to_colors.
  destruct (Z.ltb_spec layer 8); [lia |].
  rewrite quot_div, rem_mod by lia.
  assert (Hl : 0 <= (layer - 8) / 6 < 42).
  { split; [apply Z.div_pos; lia | apply Z.div_lt_upper_bound; lia]. }
  assert (Hr : 0 <= (layer - 8) mod 6 < 6) by (apply Z.mod_pos_bound; lia).
  rewrite !u8_small by lia.
  fold left right.
  destruct (left <=? right); reflexivity.
Qed.

(** C8: layers 0-7 give [left = right = layer]; from layer 8 on the right
    index differs from the left one, and is moved one further exactly when
    the left index does not exceed it, in particular when the two coincide;
    layers 14 and 20 give the distinct pairs (2,1) and (3,1). *)
Theorem layer_to_colors_no_collision (layer : Z) :
  0 <= layer < 256 ->
  (layer < 8 -> zmk_led_layer_to_colors layer = (layer, layer)) /\
  (8 <= layer ->
     fst (zmk_led_layer_to_colors layer) <> snd (zmk_led_layer_to_colors layer) /\
     fst (zmk_led_layer_to_colors layer) = 1 + (layer - 8) / 6 /\
     (1 + (layer - 8) / 6 = 1 + (layer - 8) mod 6 ->
        snd (zmk_led_layer_to_colors layer) = 1 + (layer - 8) mod 6 + 1)) /\
  zmk_led_layer_to_colors 14 = (2, 1) /\
  zmk_led_layer_to_colors 20 = (3, 1) /\
  zmk_led_layer_to_colors 14 <> zmk_led_layer_to_colors 20.
Proof.
  intros Hr. split; [apply layer_to_colors_low |].
  split;
    [| split; [reflexivity | split; [reflexivity | intro E; vm_compute in E; discriminate E]]].
  intros H8. rewrite layer_to_colors_high by lia. cbn [fst snd].
  destruct (Z.leb_spec (1 + (layer - 8) / 6) (1 + (layer - 8) mod 6)); repeat split; lia.
Qed.

Lemma layer_to_colors_no_collision_witness :
  0 <= 14 < 256 /\
  fst (zmk_led_layer_to_colors 14) <> snd (zmk_led_layer_to_colors 14).
Proof.
  split; [lia |].
  apply (layer_to_colors_no_collision 14); lia.
Defined.

(** ** The colour setter *)

Lemma set_hsb_rejects (c : zmk_led_hsb) (w : world) :
  360 < hsb_h c \/ 100 < hsb_s c \/ 100 < hsb_b c ->
  zmk_rgb_underglow_set_hsb c w = (ENOTSUP, w).
Proof.
  intros H; unfold zmk_rgb_underglow_set_hsb, HUE_MAX, SAT_MAX, BRT_MAX.
  destruct (Z.ltb_spec 360 (hsb_h c)); [reflexivity |].
  destruct (Z.ltb_spec 100 (hsb_s c)); [reflexivity |].
  destruct (Z.ltb_spec 100 (hsb_b c)); [reflexivity | lia].
Qed.

Lemma set_hsb_accepts (c : zmk_led_hsb) (w : world) :
  hsb_h c <= 360 -> hsb_s c <= 100 -> hsb_b c <= 100 ->
  zmk_rgb_underglow_set_hsb c w =
    (OK, mk_world (led_strip w) (with_color c (state w)) (led_data w)
                  (pixels w) (status_pixels w) (calls w)).
Proof.
  intros Hh Hs Hb; unfold zmk_rgb_underglow_set_hsb, HUE_MAX, SAT_MAX, BRT_MAX.
  destruct (Z.ltb_spec 360 (hsb_h c)); [lia |].
  destruct (Z.ltb_spec 100 (hsb_s c)); [lia |].
  destruct (Z.ltb_spec 100 (hsb_b c)); [lia | reflexivity].
Qed.

(** C1: the guard of [zmk_rgb_underglow_set_hsb] compares the hue with
    [HUE_MAX] = 360 by [>], so the input with H = 360 (and S, B in range) is
    not rejected: the call returns 0 and the stored hue becomes 360, outside
    [0,360). *)
Theorem set_hsb_accepts_hue_360 (w : world) :
  fst (zmk_rgb_underglow_set_hsb (mk_hsb 360 100 100) w) = OK /\
  color (state (snd (zmk_rgb_underglow_set_hsb (mk_hsb 360 100 100) w))) =
    mk_hsb 360 100 100 /\
  ~ (0 <= hsb_h (color (state (snd (zmk_rgb_underglow_set_hsb (mk_hsb 360 100 100) w))))
     < 360).
Proof.
  rewrite set_hsb_accepts by (cbn; lia). cbn. repeat split; try reflexivity. lia.
Qed.

(** ** Selecting an effect *)

Lemma select_effect_rejects (cfg : config) (w : world) (effect : Z) :
  led_strip w = true ->
  effect < 0 \/ 7 <= effect ->
  zmk_rgb_underglow_select_effect cfg effect w = (EINVAL, w).
Proof.
  intros Hs He; unfold zmk_rgb_underglow_select_effect, UNDERGLOW_EFFECT_NUMBER.
  run_m. rewrite Hs; cbn.
  destruct (Z.ltb_spec effect 0); [reflexivity |].
  destruct (Z.leb_spec 7 effect); [reflexivity | lia].
Qed.

Lemma select_effect_accepts (cfg : config) (w : world) (effect : Z) :
  led_strip w = true ->
  0 <= effect <= 6 ->
  zmk_rgb_underglow_select_effect cfg effect w =
    (OK, mk_world true
           (with_animation_step 0 (with_current_effect effect (state w)))
           (if ZMK_BLE_IS_CENTRAL cfg then with_pl_effect effect (led_data w)
            else led_data w)
           (pixels w) (status_pixels w)
           (calls w ++
            if ZMK_BLE_IS_CENTRAL cfg
            then [zmk_split_bt_update_led (with_pl_effect effect (led_data w))]
            else [])).
Proof.
  intros Hs He; unfold zmk_rgb_underglow_select_effect, UNDERGLOW_EFFECT_NUMBER,
    zmk_rgb_underglow_central_send.
  run_m. rewrite Hs; cbn.
  destruct (Z.ltb_spec effect 0); [lia |].
  destruct (Z.leb_spec 7 effect); [lia |]. cbn.
  rewrite u8_small by lia.
  destruct (ZMK_BLE_IS_CENTRAL cfg); cbn; rewrite ?Hs, ?app_nil_r; reflexivity.
Qed.

(** C6: with the strip device present, [zmk_rgb_underglow_select_effect]
    answers [-EINVAL] and leaves every variable as it was for each index
    outside 0..6 (so for -1 and for 7), and for each index in 0..6 it returns
    0 with [current_effect] set to the index and [animation_step] set to 0. *)
Theorem select_effect_range_check (cfg : config) (w : world) (effect : Z) :
  led_strip w = true ->
  zmk_rgb_underglow_select_effect cfg (-1) w = (EINVAL, w) /\
  zmk_rgb_underglow_select_effect cfg 7 w = (EINVAL, w) /\
  (effect < 0 \/ 7 <= effect ->
     zmk_rgb_underglow_select_effect cfg effect w = (EINVAL, w)) /\
  (0 <= effect <= 6 ->
     fst (zmk_rgb_underglow_select_effect cfg effect w) = OK /\
     current_effect (state (snd (zmk_rgb_underglow_select_effect cfg effect w))) = effect /\
     animation_step (state (snd (zmk_rgb_underglow_select_effect cfg effect w))) = 0).
Proof.
  intros Hs.
  split; [apply select_effect_rejects; [assumption | lia] |].
  split; [apply select_effect_rejects; [assumption | lia] |].
  split; [apply select_effect_rejects; assumption |].
  intros He. rewrite select_effect_accepts by assumption.
  cbn. repeat split.
Qed.

Lemma select_effect_range_check_witness :
  led_strip example_world = true /\
  zmk_rgb_underglow_select_effect example_config 7 example_world =
    (EINVAL, example_world) /\
  current_effect
    (state (snd (zmk_rgb_underglow_select_effect example_config 3 example_world))) = 3.
Proof.
  split; [reflexivity |].
  split; [apply (select_effect_range_check example_config example_world 3); reflexivity |].
  apply (select_effect_range_check example_config example_world 3); [reflexivity | lia].
Defined.

(** ** Commands while the strip device is missing *)

(** Every command but the colour setter starts with the test of [led_strip]
    and returns [-ENODEV] before it touches anything. *)
Lemma commands_fail_fast_without_strip (cfg : config) (w : world) (n : Z) :
  led_strip w = false ->
  zmk_rgb_underglow_on cfg w = (ENODEV, w) /\
  zmk_rgb_underglow_off cfg w = (ENODEV, w) /\
  zmk_rgb_underglow_toggle cfg w = (ENODEV, w) /\
  zmk_rgb_underglow_select_effect cfg n w = (ENODEV, w) /\
  zmk_rgb_underglow_cycle_effect cfg n w = (ENODEV, w) /\
  zmk_rgb_underglow_change_hue cfg n w = (ENODEV, w) /\
  zmk_rgb_underglow_change_sat cfg n w = (ENODEV, w) /\
  zmk_rgb_underglow_change_brt cfg n w = (ENODEV, w) /\
  zmk_rgb_underglow_change_spd n w = (ENODEV, w) /\
  zmk_rgb_underglow_status cfg w = (ENODEV, w).
Proof.
  intros Hs.
  assert (Hon : zmk_rgb_underglow_on cfg w = (ENODEV, w))
    by (unfold zmk_rgb_underglow_on; run_m; rewrite Hs; reflexivity).
  assert (Hoff : zmk_rgb_underglow_off cfg w = (ENODEV, w))
    by (unfold zmk_rgb_underglow_off; run_m; rewrite Hs; reflexivity).
  repeat split; try assumption.
  - unfold zmk_rgb_underglow_toggle; run_m. destruct (on (state w)); assumption.
  - unfold zmk_rgb_underglow_select_effect; run_m; rewrite Hs; reflexivity.
  - unfold zmk_rgb_underglow_cycle_effect, zmk_rgb_underglow_calc_effect,
      zmk_rgb_underglow_select_effect; run_m; rewrite Hs; reflexivity.
  - unfold zmk_rgb_underglow_change_hue; run_m; rewrite Hs; reflexivity.
  - unfold zmk_rgb_underglow_change_sat; run_m; rewrite Hs; reflexivity.
  - unfold zmk_rgb_underglow_change_brt; run_m; rewrite Hs; reflexivity.
  - unfold zmk_rgb_underglow_change_spd; run_m; rewrite Hs; reflexivity.
  - unfold zmk_rgb_underglow_status; run_m; rewrite Hs; reflexivity.
Qed.

(** C9: [zmk_rgb_underglow_set_hsb] has no test of [led_strip]: with the
    strip device missing it still returns 0 and overwrites the stored colour,
    where the specification asks for a device-not-ready result and an
    untouched state. *)
Theorem set_hsb_ignores_missing_strip
    (st : rgb_underglow_state) (d : zmk_periph_led)
    (px sp : list led_rgb) (cs : list call) :
  zmk_rgb_underglow_set_hsb (mk_hsb 0 0 0) (mk_world false st d px sp cs) =
    (OK, mk_world false (with_color (mk_hsb 0 0 0) st) d px sp cs) /\
  fst (zmk_rgb_underglow_set_hsb (mk_hsb 0 0 0) unready_world) <> ENODEV /\
  snd (zmk_rgb_underglow_set_hsb (mk_hsb 0 0 0) unready_world) <> unready_world.
Proof.
  split; [reflexivity |].
  split; intro E; vm_compute in E; discriminate E.
Qed.

(** ** The record received from the other half *)

Lemma on_with_strip (cfg : config) (w : world) :
  led_strip w = true ->
  zmk_rgb_underglow_on cfg w =
    (OK, mk_world true
           (with_animation_step 0 (with_on true (state w)))
           (if ZMK_BLE_IS_CENTRAL cfg then with_pl_on true (led_data w)
            else led_data w)
           (pixels w) (status_pixels w)
           (calls w ++ on_calls cfg (led_data w))).
Proof.
  intros Hs; unfold zmk_rgb_underglow_on, zmk_rgb_underglow_central_send, on_calls.
  run_m. rewrite Hs; cbn.
  destruct (CONFIG_ZMK_RGB_UNDERGLOW_EXT_POWER cfg), (ZMK_BLE_IS_CENTRAL cfg);
    cbn; rewrite <- ?app_assoc, ?Hs; reflexivity.
Qed.

Lemma off_with_strip (cfg : config) (w : world) :
  led_strip w = true ->
  zmk_rgb_underglow_off cfg w =
    (OK, mk_world true
           (with_on false (state w))
           (if ZMK_BLE_IS_CENTRAL cfg then with_pl_on false (led_data w)
            else led_data w)
           (pixels w) (status_pixels w)
           (calls w ++ off_calls cfg (led_data w))).
Proof.
  intros Hs; unfold zmk_rgb_underglow_off, zmk_rgb_underglow_central_send, off_calls.
  run_m. rewrite Hs; cbn.
  destruct (CONFIG_ZMK_RGB_UNDERGLOW_EXT_POWER cfg), (ZMK_BLE_IS_CENTRAL cfg);
    cbn; rewrite <- ?app_assoc, ?Hs; reflexivity.
Qed.

Lemma set_periph_eq (cfg : config) (w : world) (periph : zmk_periph_led) :
  led_strip w = true ->
  zmk_rgb_underglow_set_periph cfg periph w =
    (OK,
     snd (modify_state (with_current_effect (pl_effect periph))
            (if negb (on (state w)) && pl_on periph
             then snd (zmk_rgb_underglow_on cfg (store_periph periph w))
             else if on (state w) && negb (pl_on periph)
             then snd (zmk_rgb_underglow_off cfg (store_periph periph w))
             else store_periph periph w))).
Proof.
  intros Hs.
  assert (Hs' : led_strip (store_periph periph w) = true) by exact Hs.
  unfold zmk_rgb_underglow_set_periph.
  unfold bind at 1 2 3 4 5 6. cbn [fst snd gets].
  fold (store_periph periph w).
  change (on (state (store_periph periph w))) with (on (state w)).
  change (pl_on (led_data (store_periph periph w))) with (pl_on periph).
  destruct (negb (on (state w)) && pl_on periph).
  - run_m. rewrite on_with_strip by exact Hs'. cbn.
    destruct (ZMK_BLE_IS_CENTRAL cfg); reflexivity.
  - destruct (on (state w) && negb (pl_on periph)).
    + run_m. rewrite off_with_strip by exact Hs'. cbn.
      destruct (ZMK_BLE_IS_CENTRAL cfg); reflexivity.
    + reflexivity.
Qed.

(** C10: with the strip device present, [zmk_rgb_underglow_set_periph]
    returns 0, stores the record's [effect] in [current_effect] whatever its
    value (where [zmk_rgb_underglow_select_effect] refuses 7 and above), and
    leaves [state.on] equal to the record's flag: when the two flags agree no
    collaborator is called, when [state.on] is false and the record is on the
    world is the one [zmk_rgb_underglow_on] yields, and when [state.on] is
    true and the record is off the one [zmk_rgb_underglow_off] yields. *)
Theorem set_periph_follows_record (cfg : config) (w : world) (periph : zmk_periph_led) :
  led_strip w = true ->
  let w' := snd (zmk_rgb_underglow_set_periph cfg periph w) in
  fst (zmk_rgb_underglow_set_periph cfg periph w) = OK /\
  current_effect (state w') = pl_effect periph /\
  on (state w') = pl_on periph /\
  (7 <= pl_effect periph ->
     zmk_rgb_underglow_select_effect cfg (pl_effect periph) w = (EINVAL, w)) /\
  (on (state w) = pl_on periph ->
     calls w' = calls w /\
     state w' = with_current_effect (pl_effect periph) (state w)) /\
  (on (state w) = false -> pl_on periph = true ->
     calls w' = calls w ++ on_calls cfg periph /\
     w' = snd (modify_state (with_current_effect (pl_effect periph))
                 (snd (zmk_rgb_underglow_on cfg (store_periph periph w))))) /\
  (on (state w) = true -> pl_on periph = false ->
     calls w' = calls w ++ off_calls cfg periph /\
     w' = snd (modify_state (with_current_effect (pl_effect periph))
                 (snd (zmk_rgb_underglow_off cfg (store_periph periph w))))).
Proof.
  intros Hs w'.
  assert (Hs' : led_strip (store_periph periph w) = true) by exact Hs.
  subst w'. rewrite set_periph_eq by exact Hs. cbn [fst snd].
  split; [reflexivity |].
  assert (Hsel : 7 <= pl_effect periph ->
            zmk_rgb_underglow_select_effect cfg (pl_effect periph) w = (EINVAL, w))
    by (intros; apply select_effect_rejects; [assumption | lia]).
  destruct (on (state w)) eqn:Eon, (pl_on periph) eqn:Ep; cbn [negb andb];
    rewrite ?on_with_strip, ?off_with_strip by exact Hs'; cbn;
    repeat split; try reflexivity; try discriminate; try assumption.
Qed.

Lemma set_periph_follows_record_witness :
  led_strip example_world = true /\
  current_effect
    (state (snd (zmk_rgb_underglow_set_periph example_config
                   (mk_periph 3 0 false 200) example_world))) = 200 /\
  on (state (snd (zmk_rgb_underglow_set_periph example_config
                    (mk_periph 3 0 false 200) example_world))) = false.
Proof.
  split; [reflexivity |].
  split;
    apply (set_periph_follows_record example_config example_world
             (mk_periph 3 0 false 200)); reflexivity.
Defined.

(** ** Breathe *)

Lemma breathe_tick_eq (cfg : config) (w : world) :
  snd (zmk_rgb_underglow_effect_breathe cfg w) =
    mk_world (led_strip w)
      (with_animation_step
         (if 2400 <? u16 (animation_step (state w) + animation_speed (state w) * 10)
          then 0
          else u16 (animation_step (state w) + animation_speed (state w) * 10))
         (state w))
      (led_data w)
      (fill_strip cfg (fun _ => hsb_to_rgb cfg (breathe_hsb cfg (state w))))
      (status_pixels w) (calls w).
Proof.
  unfold zmk_rgb_underglow_effect_breathe. run_m. cbn.
  destruct (2400 <? u16 (animation_step (state w) + animation_speed (state w) * 10));
    reflexivity.
Qed.

Lemma breathe_brightness_in_range (step : Z) :
  0 <= step <= 2400 ->
  u8 (Z.quot (Z.abs (step - 1200)) 12) = Z.abs (step - 1200) / 12 /\
  0 <= Z.abs (step - 1200) / 12 <= 100.
Proof.
  intros H.
  assert (Ha : 0 <= Z.abs (step - 1200) <= 1200) by lia.
  assert (Hd : 0 <= Z.abs (step - 1200) / 12 <= 100).
  { split; [apply Z.div_pos; lia | apply Z.div_le_upper_bound; lia]. }
  rewrite quot_div by lia. rewrite u8_small by lia. split; [reflexivity | exact Hd].
Qed.

Lemma breathe_ticks_S (cfg : config) (n : nat) (w : world) :
  breathe_ticks cfg (S n) w =
    snd (zmk_rgb_underglow_effect_breathe cfg (breathe_ticks cfg n w)).
Proof. reflexivity. Qed.

(** From step 0 at speed 1 the counter climbs by 10 a tick up to 2400. *)
Lemma breathe_ticks_ramp (cfg : config) (w : world) (n : nat) :
  animation_step (state w) = 0 ->
  animation_speed (state w) = 1 ->
  (n <= 240)%nat ->
  animation_step (state (breathe_ticks cfg n w)) = 10 * Z.of_nat n /\
  animation_speed (state (breathe_ticks cfg n w)) = 1.
Proof.
  intros H0 H1. induction n as [| n IH]; intros Hn.
  - cbn. rewrite H0, H1. split; reflexivity.
  - destruct IH as [IHs IHv]; [lia |].
    rewrite breathe_ticks_S, breathe_tick_eq. cbn [state animation_step animation_speed
      with_animation_step].
    rewrite IHs, IHv. rewrite u16_small by lia.
    destruct (Z.ltb_spec 2400 (10 * Z.of_nat n + 1 * 10)); [lia |].
    split; [lia | reflexivity].
Qed.

(** C3, as the code has it: on a Breathe tick with the counter in 0..2400
    every pixel is the conversion of the zero-max scaling of the colour with
    brightness |animation_step - 1200| / 12 (a value in 0..100); the counter
    then grows by speed * 10 and is set to 0 only when the sum is above 2400,
    so 2400 itself is kept.  From 0 at speed 1 the counter is 2400 after 240
    ticks and 0 again after 241. *)
Theorem breathe_tick_and_period (cfg : config) (w : world) :
  0 <= animation_step (state w) <= 2400 ->
  0 <= animation_speed (state w) < 256 ->
  let st := state w in
  let w' := snd (zmk_rgb_underglow_effect_breathe cfg w) in
  pixels w' =
    fill_strip cfg (fun _ =>
      hsb_to_rgb cfg
        (hsb_scale_zero_max cfg
           (with_hsb_b (Z.abs (animation_step st - 1200) / 12) (color st)))) /\
  0 <= Z.abs (animation_step st - 1200) / 12 <= 100 /\
  animation_step (state w') =
    (if 2400 <? animation_step st + animation_speed st * 10 then 0
     else animation_step st + animation_speed st * 10) /\
  0 <= animation_step (state w') <= 2400 /\
  (animation_step st = 0 -> animation_speed st = 1 ->
     animation_step (state (breathe_ticks cfg 240 w)) = 2400 /\
     animation_step (state (breathe_ticks cfg 241 w)) = 0).
Proof.
  intros Hstep Hspd st w'. subst st w'.
  destruct (breathe_brightness_in_range _ Hstep) as [Hb Hr].
  rewrite breathe_tick_eq. cbn [pixels state animation_step with_animation_step].
  split; [unfold breathe_hsb; rewrite Hb; reflexivity |].
  split; [exact Hr |].
  rewrite u16_small by lia.
  split; [reflexivity |].
  split.
  { destruct (Z.ltb_spec 2400
                (animation_step (state w) + animation_speed (state w) * 10)); lia. }
  intros H0 H1.
  destruct (breathe_ticks_ramp cfg w 240 H0 H1) as [Hs240 Hv240]; [lia |].
  split; [rewrite Hs240; reflexivity |].
  rewrite breathe_ticks_S, breathe_tick_eq.
  cbn [state animation_step with_animation_step].
  rewrite Hs240, Hv240. reflexivity.
Qed.

Lemma breathe_tick_and_period_witness :
  0 <= animation_step (state example_world) <= 2400 /\
  0 <= animation_speed (state example_world) < 256 /\
  animation_step (state (breathe_ticks example_config 240 example_world)) = 2400 /\
  animation_step (state (breathe_ticks example_config 241 example_world)) = 0.
Proof.
  split; [cbn; lia |]. split; [cbn; lia |].
  apply (breathe_tick_and_period example_config example_world);
    [cbn; lia | cbn; lia | reflexivity | reflexivity].
Defined.

(** C3 as stated fails: from step 0 at speed 1, 240 Breathe ticks leave the
    counter at 2400, not at 0. *)
Lemma breathe_240_ticks_counterexample :
  animation_step (state example_world) = 0 /\
  animation_speed (state example_world) = 1 /\
  animation_step (state (breathe_ticks example_config 240 example_world)) = 2400 /\
  animation_step (state (breathe_ticks example_config 240 example_world)) <> 0.
Proof.
  repeat split; try reflexivity. vm_compute. discriminate.
Qed.

(** ** Compositor *)

Lemma fill_strip_length (cfg : config) (f : nat -> led_rgb) :
  length (fill_strip cfg f) = STRIP_NUM_PIXELS cfg.
Proof. unfold fill_strip. rewrite length_map, length_seq. reflexivity. Qed.

Lemma fill_strip_nth (cfg : config) (f : nat -> led_rgb) (i : nat) (d : led_rgb) :
  (i < STRIP_NUM_PIXELS cfg)%nat -> nth i (fill_strip cfg f) d = f i.
Proof.
  intros Hi. unfold fill_strip.
  rewrite (nth_indep _ d (f 0%nat)) by (rewrite length_map, length_seq; exact Hi).
  rewrite map_nth. rewrite seq_nth by exact Hi. reflexivity.
Qed.

Lemma map_nth_seq (l : list led_rgb) (d : led_rgb) :
  map (fun i => nth i l d) (seq 0 (length l)) = l.
Proof.
  induction l as [| a l IH]; [reflexivity |].
  cbn [length seq map nth]. f_equal.
  rewrite <- seq_shift, map_map. exact IH.
Qed.

Lemma fill_strip_copy (cfg : config) (l : list led_rgb) :
  length l = STRIP_NUM_PIXELS cfg -> fill_strip cfg (fun i => nth i l black) = l.
Proof. intros H. unfold fill_strip. rewrite <- H. apply map_nth_seq. Qed.

Lemma fill_strip_const (cfg : config) (p : led_rgb) :
  fill_strip cfg (fun _ => p) = repeat p (STRIP_NUM_PIXELS cfg).
Proof.
  unfold fill_strip. generalize 0%nat.
  induction (STRIP_NUM_PIXELS cfg) as [| n IH]; intros k; [reflexivity |].
  cbn. f_equal. apply IH.
Qed.

Lemma composite_length (cfg : config) (blend : Z) (E S : list led_rgb) :
  length (composite cfg blend E S) = STRIP_NUM_PIXELS cfg.
Proof.
  unfold composite.
  destruct (blend =? 0); [apply fill_strip_length |].
  destruct (256 <=? blend); apply fill_strip_length.
Qed.

Lemma composite_0 (cfg : config) (E S : list led_rgb) :
  length E = STRIP_NUM_PIXELS cfg -> composite cfg 0 E S = E.
Proof. intros H. unfold composite. cbn. apply fill_strip_copy, H. Qed.

Lemma composite_256 (cfg : config) (E S : list led_rgb) :
  length S = STRIP_NUM_PIXELS cfg -> composite cfg 256 E S = S.
Proof. intros H. unfold composite. cbn. apply fill_strip_copy, H. Qed.

Lemma generate_status_pixels (cfg : config) (inp : inputs) (w : world) :
  pixels (snd (zmk_led_generate_status cfg inp w)) = pixels w.
Proof.
  unfold zmk_led_generate_status.
  destruct (UNDERGLOW_INDICATORS_ENABLED cfg); cbn [negb]; [| reflexivity].
  run_m. cbn [state pixels].
  repeat match goal with |- context [if ?c then _ else _] => destruct c end;
    reflexivity.
Qed.

Lemma status_blend_pixels (cfg : config) (inp : inputs) (w : world) :
  pixels (snd (status_blend cfg inp w)) = pixels w.
Proof.
  unfold status_blend. run_m.
  destruct (status_active (state w)); [| reflexivity].
  cbn [fst snd pixels]. apply generate_status_pixels.
Qed.

(** What [zmk_led_write_pixels] hands to the strip is [strip_output] of the
    battery level, of the blend weight of the pass, and of the two buffers. *)
Lemma write_pixels_calls (cfg : config) (inp : inputs) (w : world) :
  calls (snd (zmk_led_write_pixels cfg inp w)) =
    calls (snd (status_blend cfg inp w)) ++
    [led_strip_update_rgb
       (strip_output cfg (battery_soc inp) (fst (status_blend cfg inp w))
          (pixels w) (status_pixels (snd (status_blend cfg inp w))))].
Proof.
  unfold zmk_led_write_pixels. run_m. cbn [calls].
  rewrite status_blend_pixels. reflexivity.
Qed.

Lemma fill_strip_map (cfg : config) (f : led_rgb -> led_rgb) (l : list led_rgb) :
  length l = STRIP_NUM_PIXELS cfg ->
  fill_strip cfg (fun i => f (nth i l black)) = map f l.
Proof.
  intros H. unfold fill_strip. rewrite <- H.
  rewrite <- (map_map (fun i => nth i l black) f). rewrite map_nth_seq. reflexivity.
Qed.

Lemma halve_pixel_div (p : led_rgb) :
  halve_pixel p = mk_rgb (rgb_r p / 2) (rgb_g p / 2) (rgb_b p / 2).
Proof. unfold halve_pixel. rewrite !Z.shiftr_div_pow2 by lia. reflexivity. Qed.

(** Lines 666-712 in closed form: the composite, dimmed by the battery. *)
Lemma strip_output_cases (cfg : config) (bat blend : Z) (E S : list led_rgb) :
  length E = STRIP_NUM_PIXELS cfg ->
  (bat < 10 -> strip_output cfg bat blend E S = repeat black (STRIP_NUM_PIXELS cfg)) /\
  (10 <= bat < 20 ->
     strip_output cfg bat blend E S =
       map (fun p => mk_rgb (rgb_r p / 2) (rgb_g p / 2) (rgb_b p / 2))
           (composite cfg blend E S)) /\
  (20 <= bat -> strip_output cfg bat blend E S = composite cfg blend E S).
Proof.
  intros HE. unfold strip_output, battery_dim.
  split; [| split].
  - intros Hb.
    destruct (Z.leb_spec 20 bat); [lia |]. rewrite andb_false_r.
    destruct (Z.ltb_spec bat 10); [apply fill_strip_const | lia].
  - intros Hb.
    destruct (Z.leb_spec 20 bat); [lia |]. rewrite andb_false_r.
    destruct (Z.ltb_spec bat 10); [lia |].
    destruct (Z.ltb_spec bat 20); [| lia].
    rewrite (fill_strip_map cfg halve_pixel) by apply composite_length.
    apply map_ext. intros p. apply halve_pixel_div.
  - intros Hb.
    destruct (Z.leb_spec 20 bat); [| lia]. rewrite andb_true_r.
    destruct (Z.eqb_spec blend 0) as [-> |].
    + rewrite composite_0 by exact HE. rewrite <- HE. apply firstn_all.
    + destruct (Z.ltb_spec bat 10); [lia |].
      destruct (Z.ltb_spec bat 20); [lia | reflexivity].
Qed.

Lemma status_blend_inactive (cfg : config) (inp : inputs) (w : world) :
  status_active (state w) = false -> status_blend cfg inp w = (0, w).
Proof. intros Ha. unfold status_blend. run_m. rewrite Ha. reflexivity. Qed.

(** C2: the buffer [zmk_led_write_pixels] writes to the strip is the
    composited buffer after battery dimming.  For every battery level, blend
    weight and pair of buffers, lines 666-712 yield all channels 0 when the
    battery is below 10, every channel of the composite halved when it is in
    10..19 and the composite itself from 20 on; and a pass of
    [zmk_led_write_pixels], whatever the overlay does, ends by writing just
    that - black, the halved composite or the composite of its own blend
    weight and buffers - to the strip; with the overlay inactive the
    composite is the effect buffer. *)
Theorem battery_dimming_on_final_output
    (cfg : config) (bat blend : Z) (E S : list led_rgb) (inp : inputs) (w : world) :
  length E = STRIP_NUM_PIXELS cfg ->
  length (pixels w) = STRIP_NUM_PIXELS cfg ->
  let halve := fun p => mk_rgb (rgb_r p / 2) (rgb_g p / 2) (rgb_b p / 2) in
  let out := strip_output cfg bat blend E S in
  let comp := composite cfg blend E S in
  let w' := snd (zmk_led_write_pixels cfg inp w) in
  let sb := snd (status_blend cfg inp w) in
  let pass_comp :=
    composite cfg (fst (status_blend cfg inp w)) (pixels w) (status_pixels sb) in
  (length out = STRIP_NUM_PIXELS cfg /\
   (bat < 10 -> out = repeat black (STRIP_NUM_PIXELS cfg)) /\
   (10 <= bat < 20 -> out = map halve comp) /\
   (20 <= bat -> out = comp)) /\
  ((battery_soc inp < 10 ->
      calls w' = calls sb ++
                 [led_strip_update_rgb (repeat black (STRIP_NUM_PIXELS cfg))]) /\
   (10 <= battery_soc inp < 20 ->
      calls w' = calls sb ++ [led_strip_update_rgb (map halve pass_comp)]) /\
   (20 <= battery_soc inp ->
      calls w' = calls sb ++ [led_strip_update_rgb pass_comp])) /\
  (status_active (state w) = false ->
     (battery_soc inp < 10 ->
        calls w' = calls w ++
                   [led_strip_update_rgb (repeat black (STRIP_NUM_PIXELS cfg))]) /\
     (10 <= battery_soc inp < 20 ->
        calls w' = calls w ++ [led_strip_update_rgb (map halve (pixels w))]) /\
     (20 <= battery_soc inp ->
        calls w' = calls w ++ [led_strip_update_rgb (pixels w)])).
Proof.
  intros HE Hpx halve out comp w' sb pass_comp.
  subst halve out comp w' sb pass_comp.
  destruct (strip_output_cases cfg bat blend E S HE) as (A1 & A2 & A3).
  split.
  { split.
    - destruct (Z.lt_ge_cases bat 10) as [H | H]; [rewrite A1 by lia; apply repeat_length |].
      destruct (Z.lt_ge_cases bat 20) as [H' | H'];
        [rewrite A2 by lia; rewrite length_map | rewrite A3 by lia];
        apply composite_length.
    - repeat split; assumption. }
  assert (Hpass : forall blend' S',
            (battery_soc inp < 10 ->
               strip_output cfg (battery_soc inp) blend' (pixels w) S' =
               repeat black (STRIP_NUM_PIXELS cfg)) /\
            (10 <= battery_soc inp < 20 ->
               strip_output cfg (battery_soc inp) blend' (pixels w) S' =
               map (fun p => mk_rgb (rgb_r p / 2) (rgb_g p / 2) (rgb_b p / 2))
                   (composite cfg blend' (pixels w) S')) /\
            (20 <= battery_soc inp ->
               strip_output cfg (battery_soc inp) blend' (pixels w) S' =
               composite cfg blend' (pixels w) S'))
    by (intros; apply strip_output_cases; exact Hpx).
  split.
  { rewrite write_pixels_calls.
    destruct (Hpass (fst (status_blend cfg inp w))
                    (status_pixels (snd (status_blend cfg inp w)))) as (B1 & B2 & B3).
    split; [intros H; rewrite B1 by exact H; reflexivity |].
    split; intros H; [rewrite B2 by exact H | rewrite B3 by exact H]; reflexivity. }
  intros Ha. rewrite write_pixels_calls.
  rewrite (status_blend_inactive cfg inp w Ha). cbn [fst snd].
  destruct (Hpass 0 (status_pixels w)) as (B1 & B2 & B3).
  rewrite composite_0 in B2, B3 by exact Hpx.
  split; [intros H; rewrite B1 by exact H; reflexivity |].
  split; intros H; [rewrite B2 by exact H | rewrite B3 by exact H]; reflexivity.
Qed.

(** A pass at battery 15 with the overlay counter at 10: weight 128 over two
    white buffers gives 254, halved to 127. *)
Lemma battery_dimming_on_final_output_witness :
  length [white; white; white] = STRIP_NUM_PIXELS example_config /\
  length (pixels (status_world 10)) = STRIP_NUM_PIXELS example_config /\
  calls (snd (zmk_led_write_pixels example_config (mk_inputs 15 [white; white; white])
                (status_world 10))) =
    [led_strip_update_rgb [mk_rgb 127 127 127; mk_rgb 127 127 127; mk_rgb 127 127 127]] /\
  strip_output example_config 5 128 [white; white; white] [black; black; black] =
    repeat black (STRIP_NUM_PIXELS example_config).
Proof.
  split; [reflexivity |]. split; [reflexivity |].
  destruct (battery_dimming_on_final_output example_config 5 128
              [white; white; white] [black; black; black]
              (mk_inputs 15 [white; white; white]) (status_world 10)
              eq_refl eq_refl) as ((_ & Hblack & _) & (_ & Hhalf & _) & _).
  split; [apply Hhalf; cbn; lia | apply Hblack; lia].
Defined.

Lemma blend_channel_exact (w s e : Z) :
  0 < w < 256 -> uint8 s -> uint8 e ->
  blend_channel (u16 w) (u16 (256 - w)) s e =
    Z.shiftr (s * w) 8 + Z.shiftr (e * (256 - w)) 8 /\
  spec_blend_channel w s e - 1 <= blend_channel (u16 w) (u16 (256 - w)) s e
    <= spec_blend_channel w s e.
Proof.
  unfold uint8. intros Hw Hs He.
  unfold blend_channel, spec_blend_channel.
  rewrite !u16_small by lia.
  rewrite !Z.shiftr_div_pow2 by lia. change (2 ^ 8) with 256.
  assert (Hx : 0 <= s * w) by nia.
  assert (Hy : 0 <= e * (256 - w)) by nia.
  assert (Hxy : s * w + e * (256 - w) <= 65280) by nia.
  generalize dependent (s * w). generalize dependent (e * (256 - w)).
  intros y Hy x Hx Hxy.
  pose proof (Z.div_mod x 256 ltac:(lia)) as Dx.
  pose proof (Z.mod_pos_bound x 256 ltac:(lia)) as Bx.
  pose proof (Z.div_mod y 256 ltac:(lia)) as Dy.
  pose proof (Z.mod_pos_bound y 256 ltac:(lia)) as By.
  pose proof (Z.div_mod (x + y) 256 ltac:(lia)) as Dxy.
  pose proof (Z.mod_pos_bound (x + y) 256 ltac:(lia)) as Bxy.
  rewrite u8_small by lia.
  split; [reflexivity | lia].
Qed.

(** C4, as the code has it: for a blend weight strictly between 0 and 256,
    8-bit channels and a battery level of at least 20, each channel written
    to the strip is (S * w >> 8) + (E * (256 - w) >> 8): each product is
    shifted before the sum, which leaves the value equal to, or one below,
    (S * w + E * (256 - w)) >> 8. *)
Theorem blend_shifts_each_product
    (cfg : config) (bat w : Z) (E S : list led_rgb) (i : nat) :
  0 < w < 256 ->
  20 <= bat ->
  (i < STRIP_NUM_PIXELS cfg)%nat ->
  pixel_ok (nth i E black) ->
  pixel_ok (nth i S black) ->
  let out := nth i (strip_output cfg bat w E S) black in
  let s := nth i S black in
  let e := nth i E black in
  rgb_r out = Z.shiftr (rgb_r s * w) 8 + Z.shiftr (rgb_r e * (256 - w)) 8 /\
  rgb_g out = Z.shiftr (rgb_g s * w) 8 + Z.shiftr (rgb_g e * (256 - w)) 8 /\
  rgb_b out = Z.shiftr (rgb_b s * w) 8 + Z.shiftr (rgb_b e * (256 - w)) 8 /\
  spec_blend_channel w (rgb_r s) (rgb_r e) - 1 <= rgb_r out
    <= spec_blend_channel w (rgb_r s) (rgb_r e) /\
  spec_blend_channel w (rgb_g s) (rgb_g e) - 1 <= rgb_g out
    <= spec_blend_channel w (rgb_g s) (rgb_g e) /\
  spec_blend_channel w (rgb_b s) (rgb_b e) - 1 <= rgb_b out
    <= spec_blend_channel w (rgb_b s) (rgb_b e).
Proof.
  intros Hw Hb Hi (Er & Eg & Eb) (Sr & Sg & Sb) out s e. subst out s e.
  unfold strip_output, battery_dim, composite.
  destruct (Z.eqb_spec w 0); [lia |]. cbn [andb].
  destruct (Z.ltb_spec bat 10); [lia |].
  destruct (Z.ltb_spec bat 20); [lia |].
  destruct (Z.leb_spec 256 w); [lia |].
  rewrite fill_strip_nth by exact Hi. cbn [blend_pixel rgb_r rgb_g rgb_b].
  destruct (blend_channel_exact w _ _ Hw Sr Er) as [Cr Br].
  destruct (blend_channel_exact w _ _ Hw Sg Eg) as [Cg Bg].
  destruct (blend_channel_exact w _ _ Hw Sb Eb) as [Cb Bb].
  rewrite Cr in Br |- *. rewrite Cg in Bg |- *. rewrite Cb in Bb |- *.
  repeat split; try reflexivity; try apply Br; try apply Bg; try apply Bb.
Qed.

Lemma blend_shifts_each_product_witness :
  0 < 128 < 256 /\
  rgb_r (nth 0 (strip_output example_config 100 128
                  [white; white; white] [white; white; white]) black) =
    Z.shiftr (255 * 128) 8 + Z.shiftr (255 * (256 - 128)) 8.
Proof.
  split; [lia |].
  apply (blend_shifts_each_product example_config 100 128
           [white; white; white] [white; white; white] 0);
    [lia | lia | cbn; lia | | ]; cbv [pixel_ok uint8 nth white rgb_r rgb_g rgb_b]; lia.
Defined.

(** C4 as stated fails: with both buffers white (255) and weight 128 the
    channel written is 127 + 127 = 254, while (255 * 128 + 255 * 128) >> 8
    is 255; weight 128 is the one of the pass that finds the overlay counter
    at 10. *)
Lemma blend_formula_counterexample :
  rgb_r (nth 0 (strip_output example_config 100 128
                  [white; white; white] [white; white; white]) black) = 254 /\
  Z.shiftr (rgb_r white * 128 + rgb_r white * (256 - 128)) 8 = 255 /\
  fst (status_blend example_config example_inputs (status_world 10)) = 128 /\
  calls (snd (zmk_led_write_pixels example_config example_inputs (status_world 10))) =
    [led_strip_update_rgb [mk_rgb 254 254 254; mk_rgb 254 254 254; mk_rgb 254 254 254]].
Proof. repeat split; reflexivity. Qed.

(** ** The fade envelope of the status overlay *)

Lemma envelope_range (k : Z) : 0 <= k -> 0 <= envelope k <= 256.
Proof.
  intros Hk. unfold envelope.
  destruct (Z.ltb_spec k 20).
  { pose proof (Z.div_mod (k * 256) 20 ltac:(lia)).
    pose proof (Z.mod_pos_bound (k * 256) 20 ltac:(lia)). lia. }
  destruct (Z.ltb_spec k 320); [lia |].
  destruct (Z.ltb_spec k 400); [| lia].
  pose proof (Z.div_mod ((k - 320) * 256) 80 ltac:(lia)).
  pose proof (Z.mod_pos_bound ((k - 320) * 256) 80 ltac:(lia)). lia.
Qed.

Lemma generate_status_running (cfg : config) (inp : inputs) (w : world) :
  UNDERGLOW_INDICATORS_ENABLED cfg = true ->
  0 <= status_animation_step (state w) < 400 ->
  zmk_led_generate_status cfg inp w =
    (envelope (status_animation_step (state w)),
     snd (set_status_pixels (status_picture inp) w)).
Proof.
  intros Hen Hk. unfold zmk_led_generate_status, envelope.
  rewrite Hen; cbn [negb]. run_m. cbn [state].
  change (Z.quot 500 25) with 20. change (Z.quot 8000 25) with 320.
  change (Z.quot 10000 25) with 400. change (Z.quot 2000 25) with 80.
  destruct (Z.ltb_spec (status_animation_step (state w)) 20).
  { rewrite quot_div by lia. reflexivity. }
  destruct (Z.ltb_spec (status_animation_step (state w)) 320); [reflexivity |].
  destruct (Z.ltb_spec (status_animation_step (state w)) 400); [| lia].
  rewrite quot_div by lia. reflexivity.
Qed.

Lemma generate_status_done (cfg : config) (inp : inputs) (w : world) :
  UNDERGLOW_INDICATORS_ENABLED cfg = true ->
  400 <= status_animation_step (state w) ->
  fst (zmk_led_generate_status cfg inp w) = 0 /\
  state (snd (zmk_led_generate_status cfg inp w)) =
    with_status_animation_step 0 (with_status_active false (state w)) /\
  calls (snd (zmk_led_generate_status cfg inp w)) =
    calls w ++
    (if on (state w)
     then []
     else k_timer_stop ::
          if CONFIG_ZMK_RGB_UNDERGLOW_EXT_POWER cfg then [ext_power_disable] else []).
Proof.
  intros Hen Hk. unfold zmk_led_generate_status.
  rewrite Hen; cbn [negb]. run_m. cbn [state].
  change (Z.quot 500 25) with 20. change (Z.quot 8000 25) with 320.
  change (Z.quot 10000 25) with 400.
  destruct (Z.ltb_spec (status_animation_step (state w)) 20); [lia |].
  destruct (Z.ltb_spec (status_animation_step (state w)) 320); [lia |].
  destruct (Z.ltb_spec (status_animation_step (state w)) 400); [lia |].
  cbn [fst snd state calls].
  destruct (on (state w)); cbn [negb fst snd state calls];
    [rewrite app_nil_r; repeat split |].
  destruct (CONFIG_ZMK_RGB_UNDERGLOW_EXT_POWER cfg); cbn [fst snd state calls];
    rewrite <- ?app_assoc; repeat split.
Qed.

Lemma write_pixels_state (cfg : config) (inp : inputs) (w : world) :
  state (snd (zmk_led_write_pixels cfg inp w)) =
    state (snd (status_blend cfg inp w)).
Proof. reflexivity. Qed.

Lemma status_blend_active (cfg : config) (inp : inputs) (w : world) :
  status_active (state w) = true ->
  fst (status_blend cfg inp w) = fst (zmk_led_generate_status cfg inp w) /\
  state (snd (status_blend cfg inp w)) =
    with_status_animation_step
      (u16 (status_animation_step (state (snd (zmk_led_generate_status cfg inp w))) + 1))
      (state (snd (zmk_led_generate_status cfg inp w))).
Proof.
  intros Ha. unfold status_blend. run_m. rewrite Ha. split; reflexivity.
Qed.

Lemma write_pixels_ticks_snoc (cfg : config) (inps : list inputs) (inp : inputs) (w : world) :
  write_pixels_ticks cfg (inps ++ [inp]) w =
    snd (zmk_led_write_pixels cfg inp (write_pixels_ticks cfg inps w)).
Proof. unfold write_pixels_ticks. rewrite fold_left_app. reflexivity. Qed.

(** A running overlay: one more tick, one more on the counter. *)
Lemma status_tick_running (cfg : config) (inp : inputs) (w : world) :
  UNDERGLOW_INDICATORS_ENABLED cfg = true ->
  status_active (state w) = true ->
  0 <= status_animation_step (state w) < 400 ->
  status_active (state (snd (zmk_led_write_pixels cfg inp w))) = true /\
  status_animation_step (state (snd (zmk_led_write_pixels cfg inp w))) =
    status_animation_step (state w) + 1.
Proof.
  intros Hen Ha Hk. rewrite write_pixels_state.
  destruct (status_blend_active cfg inp w Ha) as [_ ->].
  rewrite generate_status_running by assumption. cbn.
  rewrite u16_small by lia. split; [exact Ha | reflexivity].
Qed.

(** The tick that finds the counter at 400 or more switches the overlay off;
    the counter, set to 0 by [zmk_led_generate_status], then takes the
    increment of line 663. *)
Lemma status_tick_done (cfg : config) (inp : inputs) (w : world) :
  UNDERGLOW_INDICATORS_ENABLED cfg = true ->
  status_active (state w) = true ->
  400 <= status_animation_step (state w) ->
  status_active (state (snd (zmk_led_write_pixels cfg inp w))) = false /\
  status_animation_step (state (snd (zmk_led_write_pixels cfg inp w))) = 1.
Proof.
  intros Hen Ha Hk. rewrite write_pixels_state.
  destruct (status_blend_active cfg inp w Ha) as [_ ->].
  destruct (generate_status_done cfg inp w Hen Hk) as (_ & -> & _).
  split; reflexivity.
Qed.

Lemma status_ticks_ramp (cfg : config) (inps : list inputs) (w : world) :
  UNDERGLOW_INDICATORS_ENABLED cfg = true ->
  status_active (state w) = true ->
  status_animation_step (state w) = 0 ->
  (length inps <= 400)%nat ->
  status_active (state (write_pixels_ticks cfg inps w)) = true /\
  status_animation_step (state (write_pixels_ticks cfg inps w)) =
    Z.of_nat (length inps).
Proof.
  intros Hen Ha H0. induction inps as [| inp inps IH] using rev_ind; intros Hl.
  - cbn. split; assumption.
  - rewrite length_app in Hl |- *. cbn [length] in Hl |- *.
    destruct IH as [IHa IHs]; [lia |].
    rewrite write_pixels_ticks_snoc.
    destruct (status_tick_running cfg inp (write_pixels_ticks cfg inps w) Hen IHa)
      as [Ra Rs]; [lia |].
    split; [exact Ra | rewrite Rs, IHs; lia].
Qed.

(** C7: with the overlay compiled in and active, [zmk_led_generate_status]
    returns a blend weight in [0,256]: counter * 256 / 20 during the first 20
    ticks, 256 up to tick 320, 256 - (counter - 320) * 256 / 80 up to tick
    400, and the compositor pass moves the counter on by one; with the
    counter at 400 or more [zmk_led_generate_status] returns 0, clears
    [status_active] and sets the counter to 0, and the overlay is off after
    the pass.  Started at 0, the overlay is still active after 400 passes
    and off after the next one. *)
Theorem fade_envelope (cfg : config) (inp : inputs) (w : world) :
  UNDERGLOW_INDICATORS_ENABLED cfg = true ->
  status_active (state w) = true ->
  0 <= status_animation_step (state w) < 65536 ->
  let k := status_animation_step (state w) in
  let blend := fst (zmk_led_generate_status cfg inp w) in
  let g := snd (zmk_led_generate_status cfg inp w) in
  let w' := snd (zmk_led_write_pixels cfg inp w) in
  fst (status_blend cfg inp w) = blend /\
  0 <= blend <= 256 /\
  (k < 20 -> blend = k * 256 / 20) /\
  (20 <= k < 320 -> blend = 256) /\
  (320 <= k < 400 -> blend = 256 - (k - 320) * 256 / 80) /\
  (k < 400 ->
     status_active (state w') = true /\ status_animation_step (state w') = k + 1) /\
  (400 <= k ->
     blend = 0 /\
     status_active (state g) = false /\ status_animation_step (state g) = 0 /\
     status_active (state w') = false) /\
  (k = 0 -> forall inps inp',
     length inps = 400%nat ->
     status_active (state (write_pixels_ticks cfg inps w)) = true /\
     status_animation_step (state (write_pixels_ticks cfg inps w)) = 400 /\
     status_active (state (write_pixels_ticks cfg (inps ++ [inp']) w)) = false).
Proof.
  intros Hen Ha Hk k blend g w'. subst k blend g w'.
  split; [apply status_blend_active, Ha |].
  assert (Hramp : status_animation_step (state w) = 0 ->
            forall inps inp', length inps = 400%nat ->
              status_active (state (write_pixels_ticks cfg inps w)) = true /\
              status_animation_step (state (write_pixels_ticks cfg inps w)) = 400 /\
              status_active (state (write_pixels_ticks cfg (inps ++ [inp']) w)) = false).
  { intros H0 inps inp' Hl.
    destruct (status_ticks_ramp cfg inps w Hen Ha H0) as [Ra Rs]; [lia |].
    rewrite Hl in Rs.
    split; [exact Ra |]. split; [exact Rs |].
    rewrite write_pixels_ticks_snoc.
    apply status_tick_done; [exact Hen | exact Ra | rewrite Rs; lia]. }
  destruct (Z.lt_ge_cases (status_animation_step (state w)) 400) as [Hlt | Hge].
  - rewrite generate_status_running by (assumption || lia). cbn [fst].
    split; [apply envelope_range; lia |].
    unfold envelope.
    destruct (Z.ltb_spec (status_animation_step (state w)) 20);
      destruct (Z.ltb_spec (status_animation_step (state w)) 320);
      destruct (Z.ltb_spec (status_animation_step (state w)) 400);
      try lia.
    + split; [reflexivity |]. split; [lia |]. split; [lia |].
      split; [intros; apply status_tick_running; (assumption || lia) |].
      split; [lia | exact Hramp].
    + split; [lia |]. split; [reflexivity |]. split; [lia |].
      split; [intros; apply status_tick_running; (assumption || lia) |].
      split; [lia | exact Hramp].
    + split; [lia |]. split; [lia |]. split; [reflexivity |].
      split; [intros; apply status_tick_running; (assumption || lia) |].
      split; [lia | exact Hramp].
  - destruct (generate_status_done cfg inp w Hen Hge) as (Hb & Hst & _).
    rewrite Hb, Hst.
    split; [lia |]. split; [lia |]. split; [lia |]. split; [lia |].
    split; [lia |].
    split; [| exact Hramp].
    intros _. split; [reflexivity |]. split; [reflexivity |]. split; [reflexivity |].
    apply status_tick_done; assumption.
Qed.

Lemma fade_envelope_witness :
  UNDERGLOW_INDICATORS_ENABLED example_config = true /\
  status_active (state (status_world 10)) = true /\
  0 <= status_animation_step (state (status_world 10)) < 65536 /\
  fst (zmk_led_generate_status example_config example_inputs (status_world 10)) =
    10 * 256 / 20 /\
  status_animation_step
    (state (snd (zmk_led_write_pixels example_config example_inputs (status_world 10)))) =
    10 + 1.
Proof.
  split; [reflexivity |]. split; [reflexivity |]. split; [cbn; lia |].
  split.
  - apply (fade_envelope example_config example_inputs (status_world 10));
      [reflexivity | reflexivity | cbn; lia | cbn; lia].
  - apply (fade_envelope example_config example_inputs (status_world 10));
      [reflexivity | reflexivity | cbn; lia | cbn; lia].
Defined.

(** ** The ends of the blend *)

(** C5: with both buffers of strip length, the composite for weight 0 is the
    effect buffer and for weight 256 the status buffer, pixel for pixel, and
    with the battery at 20 or more these are the pixels lines 666-712 hand to
    the strip.  So it is in a pass of [zmk_led_write_pixels] with the battery
    at 20 or more: when the weight of the pass is 0 (in particular with the
    overlay inactive) the effect buffer is written as it is, and when it is
    256 (in particular on the plateau of the overlay, counter 20..319) the
    status buffer is written as it is. *)
Theorem blend_endpoints
    (cfg : config) (bat : Z) (E S : list led_rgb) (inp : inputs) (w : world) :
  length E = STRIP_NUM_PIXELS cfg ->
  length S = STRIP_NUM_PIXELS cfg ->
  let w' := snd (zmk_led_write_pixels cfg inp w) in
  let sb := snd (status_blend cfg inp w) in
  (composite cfg 0 E S = E /\
   composite cfg 256 E S = S /\
   (20 <= bat ->
      strip_output cfg bat 0 E S = E /\ strip_output cfg bat 256 E S = S)) /\
  (length (pixels w) = STRIP_NUM_PIXELS cfg ->
   20 <= battery_soc inp ->
   (fst (status_blend cfg inp w) = 0 ->
      calls w' = calls sb ++ [led_strip_update_rgb (pixels w)]) /\
   (status_active (state w) = false ->
      calls w' = calls w ++ [led_strip_update_rgb (pixels w)])) /\
  (length (pixels w) = STRIP_NUM_PIXELS cfg ->
   20 <= battery_soc inp ->
   (fst (status_blend cfg inp w) = 256 ->
      length (status_pixels sb) = STRIP_NUM_PIXELS cfg ->
      calls w' = calls sb ++ [led_strip_update_rgb (status_pixels sb)]) /\
   (UNDERGLOW_INDICATORS_ENABLED cfg = true ->
    status_active (state w) = true ->
    20 <= status_animation_step (state w) < 320 ->
    length (status_picture inp) = STRIP_NUM_PIXELS cfg ->
      calls w' = calls w ++ [led_strip_update_rgb (status_picture inp)])).
Proof.
  intros HE HS w' sb. subst w' sb.
  split.
  { split; [apply composite_0, HE |].
    split; [apply composite_256, HS |].
    intros Hb. unfold strip_output, battery_dim.
    destruct (Z.leb_spec 20 bat); [| lia].
    destruct (Z.ltb_spec bat 10); [lia |].
    destruct (Z.ltb_spec bat 20); [lia |].
    cbn [Z.eqb andb]. split.
    - rewrite <- HE. apply firstn_all.
    - apply composite_256, HS. }
  split.
  - intros Hpx Hb.
    assert (H0 : forall S', strip_output cfg (battery_soc inp) 0 (pixels w) S' = pixels w).
    { intros S'. destruct (strip_output_cases cfg (battery_soc inp) 0 (pixels w) S' Hpx)
        as (_ & _ & ->); [apply composite_0, Hpx | exact Hb]. }
    split.
    + intros Hw. rewrite write_pixels_calls, Hw, H0. reflexivity.
    + intros Ha. rewrite write_pixels_calls.
      rewrite (status_blend_inactive cfg inp w Ha). cbn [fst snd].
      rewrite H0. reflexivity.
  - intros Hpx Hb.
    assert (H256 : forall S', length S' = STRIP_NUM_PIXELS cfg ->
              strip_output cfg (battery_soc inp) 256 (pixels w) S' = S').
    { intros S' HS'.
      destruct (strip_output_cases cfg (battery_soc inp) 256 (pixels w) S' Hpx)
        as (_ & _ & ->); [apply composite_256, HS' | exact Hb]. }
    split.
    + intros Hw Hl. rewrite write_pixels_calls, Hw, H256 by exact Hl. reflexivity.
    + intros Hen Ha Hk Hl. rewrite write_pixels_calls.
      assert (Hsb : status_blend cfg inp w =
                (256, snd (modify_state (fun st =>
                        with_status_animation_step (u16 (status_animation_step st + 1)) st)
                        (snd (set_status_pixels (status_picture inp) w))))).
      { unfold status_blend. run_m. rewrite Ha.
        rewrite generate_status_running by (assumption || lia).
        unfold envelope.
        destruct (Z.ltb_spec (status_animation_step (state w)) 20); [lia |].
        destruct (Z.ltb_spec (status_animation_step (state w)) 320); [| lia].
        reflexivity. }
      rewrite Hsb. cbn [fst snd modify_state set_status_pixels calls status_pixels].
      rewrite H256 by exact Hl. reflexivity.
Qed.

(** A pass on the plateau of the overlay writes the status picture, a pass
    with the overlay inactive the effect buffer. *)
Lemma blend_endpoints_witness :
  length [white; black; white] = STRIP_NUM_PIXELS example_config /\
  length [black; white; black] = STRIP_NUM_PIXELS example_config /\
  composite example_config 0 [white; black; white] [black; white; black] =
    [white; black; white] /\
  composite example_config 256 [white; black; white] [black; white; black] =
    [black; white; black] /\
  calls (snd (zmk_led_write_pixels example_config (mk_inputs 100 [black; white; black])
                (status_world 100))) =
    [led_strip_update_rgb [black; white; black]] /\
  calls (snd (zmk_led_write_pixels example_config (mk_inputs 100 [black; white; black])
                example_world)) =
    [led_strip_update_rgb [white; white; white]].
Proof.
  split; [reflexivity |]. split; [reflexivity |].
  destruct (blend_endpoints example_config 100
              [white; black; white] [black; white; black]
              (mk_inputs 100 [black; white; black]) (status_world 100)
              eq_refl eq_refl) as ((C0 & C256 & _) & _ & P256).
  destruct (blend_endpoints example_config 100
              [white; black; white] [black; white; black]
              (mk_inputs 100 [black; white; black]) example_world
              eq_refl eq_refl) as (_ & P0 & _).
  split; [exact C0 |]. split; [exact C256 |].
  split.
  - apply P256; first [reflexivity | (cbn; lia)].
  - apply P0; first [reflexivity | (cbn; lia)].
Defined.

(** * Further properties of the module *)

(** ** Brightness scaling *)

Lemma div_le_compat (a b c : Z) : 0 < c -> a <= b -> a / c <= b / c.
Proof. intros; apply Z.div_le_mono; assumption. Qed.

(** X2: with 0 <= BRT_MIN <= BRT_MAX <= 100, [hsb_scale_min_max] sends a
    brightness in 0..100 into BRT_MIN..BRT_MAX, 0 to BRT_MIN and 100 to
    BRT_MAX, keeps the order of brightnesses, and leaves hue and saturation
    alone. *)
Theorem hsb_scale_min_max_range (cfg : config) (c c' : zmk_led_hsb) :
  0 <= CONFIG_ZMK_RGB_UNDERGLOW_BRT_MIN cfg ->
  CONFIG_ZMK_RGB_UNDERGLOW_BRT_MIN cfg <= CONFIG_ZMK_RGB_UNDERGLOW_BRT_MAX cfg ->
  CONFIG_ZMK_RGB_UNDERGLOW_BRT_MAX cfg <= 100 ->
  0 <= hsb_b c <= hsb_b c' -> hsb_b c' <= 100 ->
  CONFIG_ZMK_RGB_UNDERGLOW_BRT_MIN cfg <= hsb_b (hsb_scale_min_max cfg c)
    <= CONFIG_ZMK_RGB_UNDERGLOW_BRT_MAX cfg /\
  hsb_b (hsb_scale_min_max cfg c) <= hsb_b (hsb_scale_min_max cfg c') /\
  (hsb_b c = 0 ->
     hsb_b (hsb_scale_min_max cfg c) = CONFIG_ZMK_RGB_UNDERGLOW_BRT_MIN cfg) /\
  (hsb_b c = 100 ->
     hsb_b (hsb_scale_min_max cfg c) = CONFIG_ZMK_RGB_UNDERGLOW_BRT_MAX cfg) /\
  hsb_h (hsb_scale_min_max cfg c) = hsb_h c /\
  hsb_s (hsb_scale_min_max cfg c) = hsb_s c.
Proof.
  intros Hmin Hmm Hmax Hb Hb'.
  unfold hsb_scale_min_max, BRT_MAX. cbn [hsb_b hsb_h hsb_s with_hsb_b].
  set (lo := CONFIG_ZMK_RGB_UNDERGLOW_BRT_MIN cfg) in *.
  set (hi := CONFIG_ZMK_RGB_UNDERGLOW_BRT_MAX cfg) in *.
  assert (Hq : forall x, 0 <= x <= 100 ->
             Z.quot ((hi - lo) * x) 100 = (hi - lo) * x / 100 /\
             0 <= (hi - lo) * x / 100 <= hi - lo).
  { intros x Hx. rewrite quot_div by nia. split; [reflexivity |].
    split; [apply Z.div_pos; nia |].
    apply Z.div_le_upper_bound; nia. }
  destruct (Hq (hsb_b c)) as [E1 B1]; [lia |].
  destruct (Hq (hsb_b c')) as [E2 B2]; [lia |].
  rewrite E1, E2. rewrite !u8_small by lia.
  split; [lia |].
  split; [apply Z.add_le_mono_l, div_le_compat; nia |].
  split; [intros ->; rewrite Z.mul_0_r; cbn; lia |].
  split; [intros ->; rewrite Z.div_mul by lia; lia |].
  split; reflexivity.
Qed.

Lemma hsb_scale_min_max_range_witness :
  0 <= CONFIG_ZMK_RGB_UNDERGLOW_BRT_MIN example_config /\
  hsb_b (hsb_scale_min_max example_config (mk_hsb 120 50 40)) <=
    hsb_b (hsb_scale_min_max example_config (mk_hsb 120 50 70)).
Proof.
  split; [cbn; lia |].
  apply (hsb_scale_min_max_range example_config (mk_hsb 120 50 40) (mk_hsb 120 50 70));
    cbn; lia.
Defined.

(** X3: with 0 <= BRT_MAX <= 100, [hsb_scale_zero_max] sends a brightness in
    0..100 into 0..BRT_MAX, 0 to 0 and 100 to BRT_MAX, keeps the order of
    brightnesses, and leaves hue and saturation alone. *)
Theorem hsb_scale_zero_max_range (cfg : config) (c c' : zmk_led_hsb) :
  0 <= CONFIG_ZMK_RGB_UNDERGLOW_BRT_MAX cfg <= 100 ->
  0 <= hsb_b c <= hsb_b c' -> hsb_b c' <= 100 ->
  0 <= hsb_b (hsb_scale_zero_max cfg c) <= CONFIG_ZMK_RGB_UNDERGLOW_BRT_MAX cfg /\
  hsb_b (hsb_scale_zero_max cfg c) <= hsb_b (hsb_scale_zero_max cfg c') /\
  (hsb_b c = 0 -> hsb_b (hsb_scale_zero_max cfg c) = 0) /\
  (hsb_b c = 100 ->
     hsb_b (hsb_scale_zero_max cfg c) = CONFIG_ZMK_RGB_UNDERGLOW_BRT_MAX cfg) /\
  hsb_h (hsb_scale_zero_max cfg c) = hsb_h c /\
  hsb_s (hsb_scale_zero_max cfg c) = hsb_s c.
Proof.
  intros Hmax Hb Hb'.
  unfold hsb_scale_zero_max, BRT_MAX. cbn [hsb_b hsb_h hsb_s with_hsb_b].
  set (hi := CONFIG_ZMK_RGB_UNDERGLOW_BRT_MAX cfg) in *.
  assert (Hq : forall x, 0 <= x <= 100 ->
             Z.quot (x * hi) 100 = x * hi / 100 /\ 0 <= x * hi / 100 <= hi).
  { intros x Hx. rewrite quot_div by nia. split; [reflexivity |].
    split; [apply Z.div_pos; nia |].
    apply Z.div_le_upper_bound; nia. }
  destruct (Hq (hsb_b c)) as [E1 B1]; [lia |].
  destruct (Hq (hsb_b c')) as [E2 B2]; [lia |].
  rewrite E1, E2. rewrite !u8_small by lia.
  split; [lia |].
  split; [apply div_le_compat; nia |].
  split; [intros ->; reflexivity |].
  split; [intros ->; rewrite Z.mul_comm, Z.div_mul by lia; reflexivity |].
  split; reflexivity.
Qed.

Lemma hsb_scale_zero_max_range_witness :
  0 <= CONFIG_ZMK_RGB_UNDERGLOW_BRT_MAX example_config <= 100 /\
  hsb_b (hsb_scale_zero_max example_config (mk_hsb 120 50 40)) <=
    hsb_b (hsb_scale_zero_max example_config (mk_hsb 120 50 70)).
Proof.
  split; [cbn; lia |].
  apply (hsb_scale_zero_max_range example_config (mk_hsb 120 50 40) (mk_hsb 120 50 70));
    cbn; lia.
Defined.

(** ** Colour and speed steps *)

(** The world with another stored colour, everything else as it was. *)
Lemma change_hue_eq (cfg : config) (w : world) (direction : Z) :
  led_strip w = true ->
  zmk_rgb_underglow_change_hue cfg direction w =
    (OK, snd (modify_state
                (with_color (fst (zmk_rgb_underglow_calc_hue cfg direction w))) w)).
Proof.
  intros Hs. unfold zmk_rgb_underglow_change_hue, zmk_rgb_underglow_save_state,
    zmk_rgb_underglow_calc_hue.
  run_m. rewrite Hs. cbn [negb]. rewrite ?Hs. reflexivity.
Qed.

(** X4: with the strip present, [zmk_rgb_underglow_change_hue] returns 0 and
    stores a hue in [0,360) whatever the direction and the hue stored before;
    when the stored hue plus 360 plus direction * HUE_STEP fits in 16 bits
    and is not negative, the new hue is the old one plus direction * HUE_STEP
    modulo 360.  Saturation, brightness and the rest of the state are
    untouched and no collaborator is called. *)
Theorem change_hue_wraps (cfg : config) (w : world) (direction : Z) :
  led_strip w = true ->
  let c := color (state w) in
  let w' := snd (zmk_rgb_underglow_change_hue cfg direction w) in
  let step := direction * CONFIG_ZMK_RGB_UNDERGLOW_HUE_STEP cfg in
  fst (zmk_rgb_underglow_change_hue cfg direction w) = OK /\
  0 <= hsb_h (color (state w')) < 360 /\
  (0 <= hsb_h c + 360 + step < 65536 ->
     hsb_h (color (state w')) = (hsb_h c + step) mod 360) /\
  state w' = with_color (with_hsb_h (hsb_h (color (state w'))) c) (state w) /\
  calls w' = calls w.
Proof.
  intros Hs c w' step. subst c w' step.
  rewrite change_hue_eq by exact Hs.
  unfold zmk_rgb_underglow_calc_hue, HUE_MAX. run_m.
  cbn [state color with_color hsb_h with_hsb_h calls].
  set (h := hsb_h (color (state w))).
  set (d := direction * CONFIG_ZMK_RGB_UNDERGLOW_HUE_STEP cfg).
  assert (Hu : 0 <= u16 (h + (360 + d)) < 65536)
    by (unfold u16; apply Z.mod_pos_bound; lia).
  assert (Hr : 0 <= Z.rem (u16 (h + (360 + d))) 360 < 360).
  { rewrite rem_mod by lia. apply Z.mod_pos_bound; lia. }
  rewrite (u16_small (Z.rem _ _)) by lia.
  split; [reflexivity |]. split; [exact Hr |].
  split; [| split; reflexivity].
  intros Hfit. rewrite u16_small by lia. rewrite rem_mod by lia.
  replace (h + (360 + d)) with (h + d + 1 * 360) by ring.
  apply Z.mod_add. lia.
Qed.

Lemma change_hue_wraps_witness :
  led_strip example_world = true /\
  hsb_h (color (state (snd (zmk_rgb_underglow_change_hue example_config (-13)
                              example_world)))) = (120 + -13 * 10) mod 360.
Proof.
  split; [reflexivity |].
  apply (change_hue_wraps example_config example_world (-13)); [reflexivity | cbn; lia].
Defined.

(** X5: with the strip present, and direction * SAT_STEP and its sum with
    the old saturation within the 32-bit [int] range,
    [zmk_rgb_underglow_change_sat] returns 0 and stores the old saturation
    plus direction * SAT_STEP cut to 0..100; hue, brightness and the rest of
    the state are untouched and no collaborator is called. *)
Theorem change_sat_clamps (cfg : config) (w : world) (direction : Z) :
  led_strip w = true ->
  -2147483648 <= direction * CONFIG_ZMK_RGB_UNDERGLOW_SAT_STEP cfg <= 2147483647 ->
  -2147483648 <= hsb_s (color (state w)) +
                 direction * CONFIG_ZMK_RGB_UNDERGLOW_SAT_STEP cfg <= 2147483647 ->
  let c := color (state w) in
  let w' := snd (zmk_rgb_underglow_change_sat cfg direction w) in
  fst (zmk_rgb_underglow_change_sat cfg direction w) = OK /\
  hsb_s (color (state w')) =
    Z.max 0 (Z.min 100 (hsb_s c + direction * CONFIG_ZMK_RGB_UNDERGLOW_SAT_STEP cfg)) /\
  0 <= hsb_s (color (state w')) <= 100 /\
  state w' = with_color (with_hsb_s (hsb_s (color (state w'))) c) (state w) /\
  calls w' = calls w.
Proof.
  intros Hs Hp Hsum c w'. subst c w'.
  unfold zmk_rgb_underglow_change_sat, zmk_rgb_underglow_save_state,
    zmk_rgb_underglow_calc_sat, SAT_MAX.
  run_m. rewrite Hs. cbn [negb fst snd state color with_color hsb_s with_hsb_s calls].
  rewrite (i32_small (direction * _)) by exact Hp.
  rewrite i32_small by exact Hsum.
  set (s := hsb_s (color (state w)) + direction * CONFIG_ZMK_RGB_UNDERGLOW_SAT_STEP cfg).
  assert (E : u8 (if s <? 0 then 0 else if 100 <? s then 100 else s) =
              Z.max 0 (Z.min 100 s)).
  { destruct (Z.ltb_spec s 0); [rewrite u8_small by lia; lia |].
    destruct (Z.ltb_spec 100 s); rewrite u8_small by lia; lia. }
  rewrite E. repeat split; try reflexivity; lia.
Qed.

Lemma change_sat_clamps_witness :
  led_strip example_world = true /\
  hsb_s (color (state (snd (zmk_rgb_underglow_change_sat example_config 7
                              example_world)))) = Z.max 0 (Z.min 100 (50 + 7 * 10)).
Proof.
  split; [reflexivity |].
  apply (change_sat_clamps example_config example_world 7); by_eval.
Defined.

(** X6: with the strip present, and direction * BRT_STEP and its sum with
    the old brightness within the 32-bit [int] range,
    [zmk_rgb_underglow_change_brt] returns 0 and stores the old brightness
    plus direction * BRT_STEP cut to 0..100; hue, saturation and the rest of
    the state are untouched and no collaborator is called. *)
Theorem change_brt_clamps (cfg : config) (w : world) (direction : Z) :
  led_strip w = true ->
  -2147483648 <= direction * CONFIG_ZMK_RGB_UNDERGLOW_BRT_STEP cfg <= 2147483647 ->
  -2147483648 <= hsb_b (color (state w)) +
                 direction * CONFIG_ZMK_RGB_UNDERGLOW_BRT_STEP cfg <= 2147483647 ->
  let c := color (state w) in
  let w' := snd (zmk_rgb_underglow_change_brt cfg direction w) in
  fst (zmk_rgb_underglow_change_brt cfg direction w) = OK /\
  hsb_b (color (state w')) =
    Z.max 0 (Z.min 100 (hsb_b c + direction * CONFIG_ZMK_RGB_UNDERGLOW_BRT_STEP cfg)) /\
  0 <= hsb_b (color (state w')) <= 100 /\
  state w' = with_color (with_hsb_b (hsb_b (color (state w'))) c) (state w) /\
  calls w' = calls w.
Proof.
  intros Hs Hp Hsum c w'. subst c w'.
  unfold zmk_rgb_underglow_change_brt, zmk_rgb_underglow_save_state,
    zmk_rgb_underglow_calc_brt, CLAMP, BRT_MAX.
  run_m. rewrite Hs. cbn [negb fst snd state color with_color hsb_b with_hsb_b calls].
  rewrite (i32_small (direction * _)) by exact Hp.
  rewrite i32_small by exact Hsum.
  set (b := hsb_b (color (state w)) + direction * CONFIG_ZMK_RGB_UNDERGLOW_BRT_STEP cfg).
  assert (E : u8 (if b <=? 0 then 0 else if b <? 100 then b else 100) =
              Z.max 0 (Z.min 100 b)).
  { destruct (Z.leb_spec b 0); [rewrite u8_small by lia; lia |].
    destruct (Z.ltb_spec b 100); rewrite u8_small by lia; lia. }
  rewrite E. repeat split; try reflexivity; lia.
Qed.

Lemma change_brt_clamps_witness :
  led_strip example_world = true /\
  hsb_b (color (state (snd (zmk_rgb_underglow_change_brt example_config (-9)
                              example_world)))) = Z.max 0 (Z.min 100 (50 + -9 * 10)).
Proof.
  split; [reflexivity |].
  apply (change_brt_clamps example_config example_world (-9)); by_eval.
Defined.

(** X7: with the strip present and an 8-bit speed, [zmk_rgb_underglow_change_spd]
    returns 0 and changes nothing but [animation_speed]: a speed of at most 5
    stays at most 5 for every direction; from a speed in 1..5 a step of -1, 0
    or +1 gives the sum cut to 1..5; but a step that cancels a speed of 2 or
    more leaves speed 0, the lower end being guarded only at speed 1. *)
Theorem change_spd_bounds (w : world) (direction : Z) :
  led_strip w = true ->
  0 <= animation_speed (state w) < 256 ->
  let v := animation_speed (state w) in
  let w' := snd (zmk_rgb_underglow_change_spd direction w) in
  fst (zmk_rgb_underglow_change_spd direction w) = OK /\
  0 <= animation_speed (state w') /\
  (v <= 5 -> animation_speed (state w') <= 5) /\
  (1 <= v <= 5 -> -1 <= direction <= 1 ->
     animation_speed (state w') = Z.max 1 (Z.min 5 (v + direction))) /\
  (2 <= v -> direction = - v -> animation_speed (state w') = 0) /\
  state w' = with_animation_speed (animation_speed (state w')) (state w) /\
  calls w' = calls w.
Proof.
  intros Hs Hv v w'. subst v w'.
  unfold zmk_rgb_underglow_change_spd, zmk_rgb_underglow_save_state.
  run_m. rewrite Hs. cbn [negb fst snd].
  destruct (Z.eqb_spec (animation_speed (state w)) 1) as [E1 | N1];
    destruct (Z.ltb_spec direction 0) as [Dn | Dp]; cbn [andb fst snd].
  1: { destruct (state w); cbn in *. repeat split; try reflexivity; lia. }
  all: cbn [state animation_speed with_animation_speed calls].
  all: assert (Hu : 0 <= u8 (animation_speed (state w) + direction) < 256)
         by (unfold u8; apply Z.mod_pos_bound; lia).
  all: destruct (Z.ltb_spec 5 (u8 (animation_speed (state w) + direction)));
    unfold ret;
    cbn [fst snd state animation_speed with_animation_speed calls];
    (split; [reflexivity |]); (split; [lia |]); (split; [lia |]);
    (split;
       [intros H15 Hd;
        assert (U : u8 (animation_speed (state w) + direction) =
                    animation_speed (state w) + direction)
          by (apply u8_small; lia);
        lia |]);
    (split;
       [intros H2 Hd;
        assert (U : u8 (animation_speed (state w) + direction) = 0)
          by (rewrite Hd, Z.add_opp_diag_r; reflexivity);
        lia |]);
    split; reflexivity.
Qed.

Lemma change_spd_bounds_witness :
  led_strip example_world = true /\
  0 <= animation_speed (state example_world) < 256 /\
  animation_speed (state (snd (zmk_rgb_underglow_change_spd (-1) example_world))) =
    Z.max 1 (Z.min 5 (1 + -1)).
Proof.
  split; [reflexivity |]. split; [cbn; lia |].
  apply (change_spd_bounds example_world (-1)); [reflexivity | cbn; lia | cbn; lia | lia].
Defined.

(** Beyond the [int] range the product wraps, as in the compiled code: a
    large positive direction can clear the saturation. *)
Example change_sat_int_wrap :
  hsb_s (color (state (snd (zmk_rgb_underglow_change_sat example_config 214748365
                              example_world)))) = 0.
Proof. vm_compute. reflexivity. Qed.

(** ** Cycling through the effects *)

(** Beyond the [int] range the sum wraps negative and the call is refused. *)
Example cycle_effect_int_wrap :
  zmk_rgb_underglow_cycle_effect example_config 2147483640 example_world =
    (EINVAL, example_world).
Proof. vm_compute. reflexivity. Qed.


Lemma cycle_effect_eq (cfg : config) (w : world) (direction : Z) :
  zmk_rgb_underglow_cycle_effect cfg direction w =
    zmk_rgb_underglow_select_effect cfg
      (Z.rem (i32 (current_effect (state w) + 7 + direction)) 7) w.
Proof. reflexivity. Qed.

Lemma cycle_effect_in_range (cfg : config) (w : world) (direction : Z) :
  led_strip w = true ->
  0 <= current_effect (state w) + 7 + direction <= 2147483647 ->
  fst (zmk_rgb_underglow_cycle_effect cfg direction w) = OK /\
  led_strip (snd (zmk_rgb_underglow_cycle_effect cfg direction w)) = true /\
  current_effect (state (snd (zmk_rgb_underglow_cycle_effect cfg direction w))) =
    (current_effect (state w) + direction) mod 7 /\
  animation_step (state (snd (zmk_rgb_underglow_cycle_effect cfg direction w))) = 0.
Proof.
  intros Hs Hd. rewrite cycle_effect_eq. rewrite i32_small by lia.
  rewrite rem_mod by lia.
  replace (current_effect (state w) + 7 + direction)
    with (current_effect (state w) + direction + 1 * 7) by ring.
  rewrite Z.mod_add by lia.
  pose proof (Z.mod_pos_bound (current_effect (state w) + direction) 7 ltac:(lia)).
  rewrite select_effect_accepts by (assumption || lia).
  cbn. repeat split.
Qed.

(** X8: with the strip present, [zmk_rgb_underglow_cycle_effect] returns 0,
    selects the effect (current + direction) mod 7 and sets [animation_step]
    to 0 whenever current + 7 + direction is not negative and within the
    32-bit [int] range; from an effect in 0..6, a step of 7 or less either
    way followed by the opposite step brings the effect back; when
    current + 7 + direction is negative, within the [int] range and not a
    multiple of 7, the C remainder is negative and the call is refused with
    [-EINVAL], the world left as it was. *)
Theorem cycle_effect_wraps (cfg : config) (w : world) (direction : Z) :
  led_strip w = true ->
  0 <= current_effect (state w) <= 6 ->
  let w' := snd (zmk_rgb_underglow_cycle_effect cfg direction w) in
  (0 <= current_effect (state w) + 7 + direction <= 2147483647 ->
     fst (zmk_rgb_underglow_cycle_effect cfg direction w) = OK /\
     current_effect (state w') = (current_effect (state w) + direction) mod 7 /\
     0 <= current_effect (state w') <= 6 /\
     animation_step (state w') = 0) /\
  (-7 <= direction <= 7 ->
     current_effect
       (state (snd (zmk_rgb_underglow_cycle_effect cfg (- direction) w'))) =
     current_effect (state w)) /\
  (-2147483648 <= current_effect (state w) + 7 + direction < 0 ->
     Z.rem (current_effect (state w) + 7 + direction) 7 <> 0 ->
     zmk_rgb_underglow_cycle_effect cfg direction w = (EINVAL, w)).
Proof.
  intros Hs Hc w'. subst w'.
  split; [| split].
  - intros Hd.
    destruct (cycle_effect_in_range cfg w direction Hs Hd) as (R1 & _ & R2 & R3).
    pose proof (Z.mod_pos_bound (current_effect (state w) + direction) 7 ltac:(lia)).
    repeat split; try assumption; rewrite R2; lia.
  - intros Hd.
    destruct (cycle_effect_in_range cfg w direction Hs ltac:(lia)) as (_ & S1 & R2 & _).
    pose proof (Z.mod_pos_bound (current_effect (state w) + direction) 7 ltac:(lia)).
    destruct (cycle_effect_in_range cfg _ (- direction) S1) as (_ & _ & Q2 & _);
      [rewrite R2; lia |].
    rewrite Q2, R2.
    rewrite <- (Z.mod_small (current_effect (state w)) 7) at 2 by lia.
    rewrite Zplus_mod_idemp_l. f_equal. ring.
  - intros Hneg Hrem. rewrite cycle_effect_eq. rewrite i32_small by lia.
    apply select_effect_rejects; [exact Hs |]. left.
    pose proof (Z.rem_nonpos (current_effect (state w) + 7 + direction) 7
                  ltac:(lia) ltac:(lia)).
    lia.
Qed.

Lemma cycle_effect_wraps_witness :
  led_strip example_world = true /\
  0 <= current_effect (state example_world) <= 6 /\
  current_effect
    (state (snd (zmk_rgb_underglow_cycle_effect example_config (-2) example_world))) =
    (1 + -2) mod 7 /\
  zmk_rgb_underglow_cycle_effect example_config (-9) example_world =
    (EINVAL, example_world).
Proof.
  split; [reflexivity |]. split; [by_eval |].
  split.
  - apply (cycle_effect_wraps example_config example_world (-2)); by_eval.
  - apply (cycle_effect_wraps example_config example_world (-9)); by_eval.
Defined.

(** ** Toggling *)

Lemma toggle_eq (cfg : config) (w : world) :
  zmk_rgb_underglow_toggle cfg w =
    if on (state w) then zmk_rgb_underglow_off cfg w else zmk_rgb_underglow_on cfg w.
Proof.
  unfold zmk_rgb_underglow_toggle. run_m. destruct (on (state w)); reflexivity.
Qed.

(** X9: with the strip present, [zmk_rgb_underglow_toggle] returns 0 and
    inverts [state.on], calling the collaborators as [zmk_rgb_underglow_off]
    does when the strip was on and as [zmk_rgb_underglow_on] does when it was
    off; two toggles in a row restore [state.on] and leave the state as it
    was but for [animation_step], which is 0 afterwards. *)
Theorem toggle_twice (cfg : config) (w : world) :
  led_strip w = true ->
  let w1 := snd (zmk_rgb_underglow_toggle cfg w) in
  let w2 := snd (zmk_rgb_underglow_toggle cfg w1) in
  fst (zmk_rgb_underglow_toggle cfg w) = OK /\
  on (state w1) = negb (on (state w)) /\
  calls w1 = calls w ++ (if on (state w) then off_calls cfg (led_data w)
                         else on_calls cfg (led_data w)) /\
  fst (zmk_rgb_underglow_toggle cfg w1) = OK /\
  state w2 = with_animation_step 0 (state w) /\
  calls w2 = calls w ++
             (if on (state w)
              then off_calls cfg (led_data w) ++ on_calls cfg (led_data w)
              else on_calls cfg (led_data w) ++ off_calls cfg (led_data w)).
Proof.
  intros Hs w1 w2. subst w1 w2.
  rewrite !toggle_eq.
  destruct (on (state w)) eqn:Eon.
  - rewrite off_with_strip by exact Hs. cbn [fst snd state on with_on negb calls].
    rewrite on_with_strip by reflexivity.
    cbn [fst snd state calls led_data].
    split; [reflexivity |]. split; [reflexivity |]. split; [reflexivity |].
    split; [reflexivity |].
    split.
    + destruct (state w); cbn in *; subst; reflexivity.
    + rewrite <- app_assoc. f_equal. f_equal.
      unfold on_calls. destruct (ZMK_BLE_IS_CENTRAL cfg); reflexivity.
  - rewrite on_with_strip by exact Hs.
    cbn [fst snd state on with_on with_animation_step negb calls].
    rewrite off_with_strip by reflexivity.
    cbn [fst snd state calls led_data].
    split; [reflexivity |]. split; [reflexivity |]. split; [reflexivity |].
    split; [reflexivity |].
    split.
    + destruct (state w); cbn in *; subst; reflexivity.
    + rewrite <- app_assoc. f_equal. f_equal.
      unfold off_calls. destruct (ZMK_BLE_IS_CENTRAL cfg); reflexivity.
Qed.

Lemma toggle_twice_witness :
  led_strip example_world = true /\
  state (snd (zmk_rgb_underglow_toggle example_config
                (snd (zmk_rgb_underglow_toggle example_config example_world)))) =
    with_animation_step 0 (state example_world).
Proof.
  split; [reflexivity |].
  apply (toggle_twice example_config example_world); reflexivity.
Defined.

(** ** Spectrum and Swirl *)

Lemma spectrum_tick_eq (cfg : config) (w : world) :
  snd (zmk_rgb_underglow_effect_spectrum cfg w) =
    mk_world (led_strip w)
      (with_animation_step
         (u16 (Z.rem (u16 (animation_step (state w) + animation_speed (state w))) 360))
         (state w))
      (led_data w)
      (fill_strip cfg (fun _ =>
         hsb_to_rgb cfg
           (hsb_scale_min_max cfg (with_hsb_h (animation_step (state w)) (color (state w))))))
      (status_pixels w) (calls w).
Proof. reflexivity. Qed.

Lemma hue_step_mod (step inc : Z) :
  0 <= step < 360 -> 0 <= inc < 65000 ->
  u16 (Z.rem (u16 (step + inc)) 360) = (step + inc) mod 360.
Proof.
  intros Hs Hi. rewrite (u16_small (step + inc)) by lia.
  rewrite rem_mod by lia.
  apply u16_small.
  pose proof (Z.mod_pos_bound (step + inc) 360 ltac:(lia)). lia.
Qed.

Lemma spectrum_ticks_step (cfg : config) (w : world) (n : nat) :
  0 <= animation_step (state w) < 360 ->
  0 <= animation_speed (state w) < 256 ->
  animation_step (state (spectrum_ticks cfg n w)) =
    (animation_step (state w) + Z.of_nat n * animation_speed (state w)) mod 360 /\
  animation_speed (state (spectrum_ticks cfg n w)) = animation_speed (state w).
Proof.
  intros Hs Hv. induction n as [| n [IHs IHv]].
  - cbn [spectrum_ticks Nat.iter Z.of_nat]. rewrite Z.mul_0_l, Z.add_0_r.
    rewrite Z.mod_small by lia. split; reflexivity.
  - change (spectrum_ticks cfg (S n) w)
      with (snd (zmk_rgb_underglow_effect_spectrum cfg (spectrum_ticks cfg n w))).
    rewrite spectrum_tick_eq. cbn [state animation_step animation_speed with_animation_step].
    split; [| exact IHv].
    rewrite IHs, IHv.
    pose proof (Z.mod_pos_bound
                  (animation_step (state w) + Z.of_nat n * animation_speed (state w))
                  360 ltac:(lia)).
    rewrite hue_step_mod by lia.
    rewrite Zplus_mod_idemp_l. f_equal. lia.
Qed.

(** X10: on a Spectrum tick with the counter in [0,360) and an 8-bit speed,
    every pixel is the conversion of the min-max scaling of the colour with
    the counter as hue, and the counter becomes (counter + speed) mod 360,
    again in [0,360); after [n] ticks it is (counter + n * speed) mod 360, so
    at speed 1 it is back where it started after 360 ticks. *)
Theorem spectrum_tick_and_period (cfg : config) (w : world) (n : nat) :
  0 <= animation_step (state w) < 360 ->
  0 <= animation_speed (state w) < 256 ->
  let st := state w in
  let w' := snd (zmk_rgb_underglow_effect_spectrum cfg w) in
  pixels w' =
    fill_strip cfg (fun _ =>
      hsb_to_rgb cfg (hsb_scale_min_max cfg (with_hsb_h (animation_step st) (color st)))) /\
  animation_step (state w') = (animation_step st + animation_speed st) mod 360 /\
  0 <= animation_step (state w') < 360 /\
  animation_step (state (spectrum_ticks cfg n w)) =
    (animation_step st + Z.of_nat n * animation_speed st) mod 360 /\
  (animation_speed st = 1 ->
     animation_step (state (spectrum_ticks cfg 360 w)) = animation_step st).
Proof.
  intros Hs Hv st w'. subst st w'.
  rewrite spectrum_tick_eq. cbn [pixels state animation_step with_animation_step].
  rewrite hue_step_mod by lia.
  split; [reflexivity |]. split; [reflexivity |].
  split; [apply Z.mod_pos_bound; lia |].
  split; [apply spectrum_ticks_step; assumption |].
  intros H1.
  destruct (spectrum_ticks_step cfg w 360 Hs Hv) as [-> _].
  rewrite H1. change (Z.of_nat 360 * 1) with (1 * 360).
  rewrite Z.mod_add by lia. apply Z.mod_small; lia.
Qed.

Lemma spectrum_tick_and_period_witness :
  0 <= animation_step (state example_world) < 360 /\
  0 <= animation_speed (state example_world) < 256 /\
  animation_step (state (spectrum_ticks example_config 360 example_world)) =
    animation_step (state example_world).
Proof.
  split; [by_eval |]. split; [by_eval |].
  apply (spectrum_tick_and_period example_config example_world 0); by_eval.
Defined.

Lemma swirl_tick_eq (cfg : config) (w : world) :
  snd (zmk_rgb_underglow_effect_swirl cfg w) =
    mk_world (led_strip w)
      (with_animation_step
         (u16 (Z.rem (u16 (animation_step (state w) + animation_speed (state w) * 2)) 360))
         (state w))
      (led_data w)
      (fill_strip cfg (fun i =>
         hsb_to_rgb cfg
           (hsb_scale_min_max cfg
              (with_hsb_h
                 (u16 (Z.rem (Z.quot 360 (Z.of_nat (STRIP_NUM_PIXELS cfg)) * Z.of_nat i +
                              animation_step (state w)) 360))
                 (color (state w))))))
      (status_pixels w) (calls w).
Proof. reflexivity. Qed.

Lemma swirl_ticks_step (cfg : config) (w : world) (n : nat) :
  0 <= animation_step (state w) < 360 ->
  0 <= animation_speed (state w) < 256 ->
  animation_step (state (swirl_ticks cfg n w)) =
    (animation_step (state w) + Z.of_nat n * (animation_speed (state w) * 2)) mod 360 /\
  animation_speed (state (swirl_ticks cfg n w)) = animation_speed (state w).
Proof.
  intros Hs Hv. induction n as [| n [IHs IHv]].
  - cbn [swirl_ticks Nat.iter Z.of_nat]. rewrite Z.mul_0_l, Z.add_0_r.
    rewrite Z.mod_small by lia. split; reflexivity.
  - change (swirl_ticks cfg (S n) w)
      with (snd (zmk_rgb_underglow_effect_swirl cfg (swirl_ticks cfg n w))).
    rewrite swirl_tick_eq. cbn [state animation_step animation_speed with_animation_step].
    split; [| exact IHv].
    rewrite IHs, IHv.
    pose proof (Z.mod_pos_bound
                  (animation_step (state w) +
                   Z.of_nat n * (animation_speed (state w) * 2))
                  360 ltac:(lia)).
    rewrite hue_step_mod by lia.
    rewrite Zplus_mod_idemp_l. f_equal. lia.
Qed.

(** X11: on a Swirl tick with the counter in [0,360) and an 8-bit speed,
    pixel [i] is the conversion of the min-max scaling of the colour with hue
    ((360 / N) * i + counter) mod 360, a hue in [0,360), and the counter
    becomes (counter + 2 * speed) mod 360; after [n] ticks it is
    (counter + n * 2 * speed) mod 360, so at speed 1 the pattern is back
    where it started after 180 ticks. *)
Theorem swirl_tick_and_period (cfg : config) (w : world) (n i : nat) :
  0 <= animation_step (state w) < 360 ->
  0 <= animation_speed (state w) < 256 ->
  (i < STRIP_NUM_PIXELS cfg)%nat ->
  let st := state w in
  let w' := snd (zmk_rgb_underglow_effect_swirl cfg w) in
  let hue := (360 / Z.of_nat (STRIP_NUM_PIXELS cfg) * Z.of_nat i + animation_step st)
               mod 360 in
  nth i (pixels w') black =
    hsb_to_rgb cfg (hsb_scale_min_max cfg (with_hsb_h hue (color st))) /\
  0 <= hue < 360 /\
  animation_step (state w') = (animation_step st + animation_speed st * 2) mod 360 /\
  animation_step (state (swirl_ticks cfg n w)) =
    (animation_step st + Z.of_nat n * (animation_speed st * 2)) mod 360 /\
  (animation_speed st = 1 ->
     animation_step (state (swirl_ticks cfg 180 w)) = animation_step st).
Proof.
  intros Hs Hv Hi st w' hue. subst st w' hue.
  rewrite swirl_tick_eq. cbn [pixels state animation_step with_animation_step].
  rewrite fill_strip_nth by exact Hi.
  assert (HN : 0 < Z.of_nat (STRIP_NUM_PIXELS cfg)) by lia.
  assert (Hq : 0 <= 360 / Z.of_nat (STRIP_NUM_PIXELS cfg) <= 360).
  { split; [apply Z.div_pos; lia |].
    apply Z.div_le_upper_bound; [lia | nia]. }
  set (q := 360 / Z.of_nat (STRIP_NUM_PIXELS cfg)) in *.
  assert (Hqi : 0 <= q * Z.of_nat i) by nia.
  pose proof (Z.mod_pos_bound (q * Z.of_nat i + animation_step (state w)) 360
                ltac:(lia)) as Hm.
  rewrite (quot_div 360) by lia. fold q.
  rewrite rem_mod by lia. rewrite (u16_small (_ mod 360)) by lia.
  rewrite hue_step_mod by lia.
  split; [reflexivity |]. split; [exact Hm |]. split; [reflexivity |].
  split; [apply swirl_ticks_step; assumption |].
  intros H1.
  destruct (swirl_ticks_step cfg w 180 Hs Hv) as [-> _].
  rewrite H1. change (Z.of_nat 180 * (1 * 2)) with (1 * 360).
  rewrite Z.mod_add by lia. apply Z.mod_small; lia.
Qed.

Lemma swirl_tick_and_period_witness :
  0 <= animation_step (state example_world) < 360 /\
  0 <= animation_speed (state example_world) < 256 /\
  (1 < STRIP_NUM_PIXELS example_config)%nat /\
  animation_step (state (swirl_ticks example_config 180 example_world)) =
    animation_step (state example_world).
Proof.
  split; [by_eval |]. split; [by_eval |]. split; [cbn; lia |].
  apply (swirl_tick_and_period example_config example_world 0 1);
    first [by_eval | cbn; lia].
Defined.

(** ** What the effects leave alone *)

(** X12: each of Solid, Breathe, Spectrum and Swirl writes exactly
    [STRIP_NUM_PIXELS] pixels and, in the state, at most [animation_step]:
    colour, speed, selected effect, the on flag, the overlay fields, the
    display record, the status buffer and the collaborators are not touched.
    Solid leaves the whole state as it is and gives every pixel the
    conversion of the min-max scaling of the stored colour. *)
Theorem effects_write_pixels_only (cfg : config) (w : world) :
  (forall w',
     In w' [snd (zmk_rgb_underglow_effect_solid cfg w);
            snd (zmk_rgb_underglow_effect_breathe cfg w);
            snd (zmk_rgb_underglow_effect_spectrum cfg w);
            snd (zmk_rgb_underglow_effect_swirl cfg w)] ->
     length (pixels w') = STRIP_NUM_PIXELS cfg /\
     state w' = with_animation_step (animation_step (state w')) (state w) /\
     led_strip w' = led_strip w /\ led_data w' = led_data w /\
     status_pixels w' = status_pixels w /\ calls w' = calls w) /\
  state (snd (zmk_rgb_underglow_effect_solid cfg w)) = state w /\
  pixels (snd (zmk_rgb_underglow_effect_solid cfg w)) =
    repeat (hsb_to_rgb cfg (hsb_scale_min_max cfg (color (state w))))
           (STRIP_NUM_PIXELS cfg).
Proof.
  split; [| split; [reflexivity | apply fill_strip_const]].
  intros w' [<- | [<- | [<- | [<- | []]]]].
  - cbn. rewrite fill_strip_length. destruct (state w); repeat split.
  - rewrite breathe_tick_eq. cbn. rewrite fill_strip_length. repeat split.
  - rewrite spectrum_tick_eq. cbn. rewrite fill_strip_length. repeat split.
  - rewrite swirl_tick_eq. cbn. rewrite fill_strip_length. repeat split.
Qed.

(** ** The overlay from trigger to switch-off *)

Lemma generate_status_keeps (cfg : config) (inp : inputs) (w : world) :
  let w' := snd (zmk_led_generate_status cfg inp w) in
  pixels w' = pixels w /\ led_strip w' = led_strip w /\ led_data w' = led_data w /\
  on (state w') = on (state w) /\ color (state w') = color (state w) /\
  animation_speed (state w') = animation_speed (state w) /\
  current_effect (state w') = current_effect (state w) /\
  animation_step (state w') = animation_step (state w).
Proof.
  unfold zmk_led_generate_status.
  destruct (UNDERGLOW_INDICATORS_ENABLED cfg); cbn [negb]; [| repeat split].
  run_m. cbn [state].
  repeat match goal with |- context [if ?c then _ else _] => destruct c end;
    repeat split.
Qed.

Lemma write_pixels_keeps (cfg : config) (inp : inputs) (w : world) :
  let w' := snd (zmk_led_write_pixels cfg inp w) in
  pixels w' = pixels w /\ led_strip w' = led_strip w /\ led_data w' = led_data w /\
  on (state w') = on (state w) /\ color (state w') = color (state w) /\
  animation_speed (state w') = animation_speed (state w) /\
  current_effect (state w') = current_effect (state w) /\
  animation_step (state w') = animation_step (state w).
Proof.
  unfold zmk_led_write_pixels, status_blend. run_m.
  destruct (status_active (state w)); [| repeat split].
  cbn [fst snd pixels led_strip led_data state on color animation_speed
       current_effect animation_step with_status_animation_step].
  apply generate_status_keeps.
Qed.

Lemma write_pixels_ticks_keeps (cfg : config) (inps : list inputs) (w : world) :
  pixels (write_pixels_ticks cfg inps w) = pixels w /\
  on (state (write_pixels_ticks cfg inps w)) = on (state w).
Proof.
  revert w. induction inps as [| inp inps IH]; intros w; [split; reflexivity |].
  cbn [write_pixels_ticks fold_left].
  destruct (IH (snd (zmk_led_write_pixels cfg inp w))) as [Hp Ho].
  unfold write_pixels_ticks in Hp, Ho. rewrite Hp, Ho.
  destruct (write_pixels_keeps cfg inp w) as (Kp & _ & _ & Ko & _).
  split; assumption.
Qed.

Lemma status_eq (cfg : config) (w : world) :
  led_strip w = true ->
  zmk_rgb_underglow_status cfg w =
    (OK, mk_world true
           (with_status_animation_step 0 (with_status_active true (state w)))
           (led_data w) (pixels w) (status_pixels w)
           (calls w ++
            if on (state w) then []
            else k_timer_start ::
                 if CONFIG_ZMK_RGB_UNDERGLOW_EXT_POWER cfg then [ext_power_enable]
                 else [])).
Proof.
  intros Hs. unfold zmk_rgb_underglow_status. run_m. rewrite Hs.
  cbn [negb fst snd state on with_status_active with_status_animation_step].
  destruct (on (state w)); cbn [negb andb fst snd calls];
    [rewrite andb_false_r, app_nil_r, ?Hs; reflexivity |].
  rewrite andb_true_r.
  destruct (CONFIG_ZMK_RGB_UNDERGLOW_EXT_POWER cfg); cbn [fst snd calls];
    rewrite <- ?app_assoc, ?Hs; reflexivity.
Qed.

(** X13: with the strip present and the overlay compiled in,
    [zmk_rgb_underglow_status] returns 0, activates the overlay with its
    counter at 0 (also when it was already active), and starts the timer and
    the power rail only if the underglow is off.  The overlay is still active
    after 400 compositor passes; pass 401 switches it off, leaves the counter
    at 1, and - only if the underglow is off - stops the timer and the power
    rail before it writes the effect buffer, unblended, to the strip. *)
Theorem status_overlay_lifecycle
    (cfg : config) (w : world) (inps : list inputs) (inp' : inputs) :
  led_strip w = true ->
  UNDERGLOW_INDICATORS_ENABLED cfg = true ->
  length inps = 400%nat ->
  let w0 := snd (zmk_rgb_underglow_status cfg w) in
  let w400 := write_pixels_ticks cfg inps w0 in
  let w401 := snd (zmk_led_write_pixels cfg inp' w400) in
  fst (zmk_rgb_underglow_status cfg w) = OK /\
  status_active (state w0) = true /\ status_animation_step (state w0) = 0 /\
  calls w0 =
    calls w ++
    (if on (state w) then []
     else k_timer_start ::
          if CONFIG_ZMK_RGB_UNDERGLOW_EXT_POWER cfg then [ext_power_enable] else []) /\
  status_active (state w400) = true /\
  status_active (state w401) = false /\
  status_animation_step (state w401) = 1 /\
  on (state w401) = on (state w) /\
  calls w401 =
    calls w400 ++
    (if on (state w) then []
     else k_timer_stop ::
          if CONFIG_ZMK_RGB_UNDERGLOW_EXT_POWER cfg then [ext_power_disable] else []) ++
    [led_strip_update_rgb
       (strip_output cfg (battery_soc inp') 0 (pixels w) (status_picture inp'))].
Proof.
  intros Hs Hen Hl w0 w400 w401. subst w0 w400 w401.
  rewrite status_eq by exact Hs. cbn [fst snd].
  set (w0 := mk_world _ _ _ _ _ _).
  split; [reflexivity |]. split; [reflexivity |]. split; [reflexivity |].
  split; [reflexivity |].
  destruct (status_ticks_ramp cfg inps w0 Hen eq_refl eq_refl) as [Ra Rs]; [lia |].
  destruct (write_pixels_ticks_keeps cfg inps w0) as [Kp Ko].
  set (w400 := write_pixels_ticks cfg inps w0) in *.
  assert (Hge : 400 <= status_animation_step (state w400)) by (rewrite Rs; lia).
  split; [exact Ra |].
  destruct (status_tick_done cfg inp' w400 Hen Ra Hge) as [Da Ds].
  split; [exact Da |]. split; [exact Ds |].
  destruct (write_pixels_keeps cfg inp' w400) as (_ & _ & _ & Ko' & _).
  split; [rewrite Ko', Ko; reflexivity |].
  rewrite write_pixels_calls.
  destruct (generate_status_done cfg inp' w400 Hen Hge) as (Gb & _ & Gc).
  assert (Hsb : status_blend cfg inp' w400 =
                (fst (zmk_led_generate_status cfg inp' w400),
                 snd (modify_state (fun st =>
                        with_status_animation_step (u16 (status_animation_step st + 1)) st)
                        (snd (zmk_led_generate_status cfg inp' w400))))).
  { unfold status_blend. run_m. rewrite Ra. reflexivity. }
  rewrite Hsb. cbn [fst snd modify_state calls status_pixels].
  rewrite Gb, Gc, Kp, Ko. change (on (state w0)) with (on (state w)).
  change (pixels w0) with (pixels w).
  assert (Hsp : status_pixels (snd (zmk_led_generate_status cfg inp' w400)) =
                status_picture inp').
  { unfold zmk_led_generate_status. rewrite Hen. cbn [negb]. run_m. cbn [state].
    repeat match goal with |- context [if ?c then _ else _] => destruct c end;
      reflexivity. }
  rewrite Hsp, <- app_assoc. reflexivity.
Qed.

Lemma status_overlay_lifecycle_witness :
  led_strip example_world = true /\
  UNDERGLOW_INDICATORS_ENABLED example_config = true /\
  length (repeat example_inputs 400) = 400%nat /\
  status_active
    (state (snd (zmk_led_write_pixels example_config example_inputs
                   (write_pixels_ticks example_config (repeat example_inputs 400)
                      (snd (zmk_rgb_underglow_status example_config example_world))))))
    = false.
Proof.
  split; [reflexivity |]. split; [reflexivity |]. split; [reflexivity |].
  apply (status_overlay_lifecycle example_config example_world
           (repeat example_inputs 400) example_inputs); reflexivity.
Defined.

(** ** Shape of the fade envelope *)

Lemma generate_status_weight (cfg : config) (inp : inputs) (w : world) :
  UNDERGLOW_INDICATORS_ENABLED cfg = true ->
  0 <= status_animation_step (state w) ->
  fst (zmk_led_generate_status cfg inp w) = envelope (status_animation_step (state w)).
Proof.
  intros Hen Hk.
  destruct (Z.lt_ge_cases (status_animation_step (state w)) 400) as [Hlt | Hge].
  - rewrite generate_status_running by (assumption || lia). reflexivity.
  - destruct (generate_status_done cfg inp w Hen Hge) as (-> & _).
    unfold envelope.
    destruct (Z.ltb_spec (status_animation_step (state w)) 20); [lia |].
    destruct (Z.ltb_spec (status_animation_step (state w)) 320); [lia |].
    destruct (Z.ltb_spec (status_animation_step (state w)) 400); [lia | reflexivity].
Qed.

Lemma envelope_fade_in (k : Z) : 0 <= k < 20 -> envelope k = k * 256 / 20.
Proof. intros H. unfold envelope. destruct (Z.ltb_spec k 20); [reflexivity | lia]. Qed.

Lemma envelope_fade_out (k : Z) :
  320 <= k < 400 -> envelope k = 256 - (k - 320) * 256 / 80.
Proof.
  intros H. unfold envelope.
  destruct (Z.ltb_spec k 20); [lia |].
  destruct (Z.ltb_spec k 320); [lia |].
  destruct (Z.ltb_spec k 400); [reflexivity | lia].
Qed.

Lemma envelope_plateau (k : Z) : 20 <= k < 320 -> envelope k = 256.
Proof.
  intros H. unfold envelope.
  destruct (Z.ltb_spec k 20); [lia |].
  destruct (Z.ltb_spec k 320); [reflexivity | lia].
Qed.

Lemma envelope_done (k : Z) : 400 <= k -> envelope k = 0.
Proof.
  intros H. unfold envelope.
  destruct (Z.ltb_spec k 20); [lia |].
  destruct (Z.ltb_spec k 320); [lia |].
  destruct (Z.ltb_spec k 400); [lia | reflexivity].
Qed.

Lemma envelope_rises (j k : Z) : 0 <= j <= k -> k < 320 -> envelope j <= envelope k.
Proof.
  intros Hj Hk.
  destruct (Z.lt_ge_cases k 20).
  - rewrite !envelope_fade_in by lia. apply div_le_compat; lia.
  - rewrite (envelope_plateau k) by lia.
    pose proof (envelope_range j ltac:(lia)). lia.
Qed.

Lemma envelope_falls (j k : Z) : 320 <= j <= k -> envelope k <= envelope j.
Proof.
  intros Hj.
  destruct (Z.lt_ge_cases k 400).
  - rewrite !envelope_fade_out by lia.
    assert ((j - 320) * 256 / 80 <= (k - 320) * 256 / 80)
      by (apply div_le_compat; lia).
    lia.
  - rewrite (envelope_done k) by lia.
    pose proof (envelope_range j ltac:(lia)). lia.
Qed.

(** X14: with the overlay compiled in, the weight [zmk_led_generate_status]
    returns never decreases while the counter goes from 0 to 319 and never
    increases from 320 on.  It is 0 at counter 0, at most 243 during the 20
    fade-in ticks (the step to 256 comes at tick 20), and at least 4 during
    the 80 fade-out ticks (the drop to 0 comes at tick 400). *)
Theorem fade_envelope_shape (cfg : config) (inp inp' : inputs) (w w' : world) :
  UNDERGLOW_INDICATORS_ENABLED cfg = true ->
  0 <= status_animation_step (state w) <= status_animation_step (state w') ->
  let j := status_animation_step (state w) in
  let k := status_animation_step (state w') in
  let bj := fst (zmk_led_generate_status cfg inp w) in
  let bk := fst (zmk_led_generate_status cfg inp' w') in
  (k < 320 -> bj <= bk) /\
  (320 <= j -> bk <= bj) /\
  (j = 0 -> bj = 0) /\
  (j < 20 -> bj <= 243) /\
  (320 <= j < 400 -> 4 <= bj).
Proof.
  intros Hen Hjk j k bj bk. subst j k bj bk.
  rewrite !generate_status_weight by (assumption || lia).
  split; [intros; apply envelope_rises; lia |].
  split; [intros; apply envelope_falls; lia |].
  split; [intros ->; reflexivity |].
  split.
  - intros H. rewrite envelope_fade_in by lia.
    assert (status_animation_step (state w) * 256 / 20 < 244)
      by (apply Z.div_lt_upper_bound; lia).
    lia.
  - intros H. rewrite envelope_fade_out by lia.
    assert ((status_animation_step (state w) - 320) * 256 / 80 < 253)
      by (apply Z.div_lt_upper_bound; lia).
    lia.
Qed.

Lemma fade_envelope_shape_witness :
  UNDERGLOW_INDICATORS_ENABLED example_config = true /\
  0 <= status_animation_step (state (status_world 330))
    <= status_animation_step (state (status_world 390)) /\
  fst (zmk_led_generate_status example_config example_inputs (status_world 390)) <=
  fst (zmk_led_generate_status example_config example_inputs (status_world 330)).
Proof.
  split; [reflexivity |]. split; [by_eval |].
  apply (fade_envelope_shape example_config example_inputs example_inputs
           (status_world 330) (status_world 390)); by_eval.
Defined.

(** ** The pixels written are well formed *)

Lemma blend_channel_between (w s e : Z) :
  0 < w < 256 -> uint8 s -> uint8 e ->
  uint8 (blend_channel (u16 w) (u16 (256 - w)) s e) /\
  Z.min s e - 1 <= blend_channel (u16 w) (u16 (256 - w)) s e <= Z.max s e.
Proof.
  intros Hw Hs He.
  destruct (blend_channel_exact w s e Hw Hs He) as [Ex [Lo Hi]].
  unfold uint8 in *. unfold spec_blend_channel in *.
  rewrite !Z.shiftr_div_pow2 in * by lia. change (2 ^ 8) with 256 in *.
  assert (0 <= s * w / 256) by (apply Z.div_pos; nia).
  assert (0 <= e * (256 - w) / 256) by (apply Z.div_pos; nia).
  assert (Hlo : Z.min s e * 256 <= s * w + e * (256 - w)) by nia.
  assert (Hhi : s * w + e * (256 - w) <= Z.max s e * 256) by nia.
  assert (Z.min s e <= (s * w + e * (256 - w)) / 256)
    by (apply Z.div_le_lower_bound; lia).
  assert ((s * w + e * (256 - w)) / 256 <= Z.max s e)
    by (apply Z.div_le_upper_bound; lia).
  lia.
Qed.

Lemma halve_uint8 (x : Z) : uint8 x -> uint8 (Z.shiftr x 1) /\ Z.shiftr x 1 <= x.
Proof.
  unfold uint8. intros H. rewrite Z.shiftr_div_pow2 by lia. change (2 ^ 1) with 2.
  pose proof (Z.div_mod x 2 ltac:(lia)). pose proof (Z.mod_pos_bound x 2 ltac:(lia)).
  lia.
Qed.

(** Lines 666-712, for a blend weight in 0..256 and buffers with 8-bit
    channels: the pixels are 8-bit again, and between the two inputs when
    the battery does not dim them. *)
Lemma strip_output_pixel_ok
    (cfg : config) (bat blend : Z) (E S : list led_rgb) (i : nat) :
  0 <= blend <= 256 ->
  length E = STRIP_NUM_PIXELS cfg ->
  (i < STRIP_NUM_PIXELS cfg)%nat ->
  pixel_ok (nth i E black) ->
  pixel_ok (nth i S black) ->
  let out := nth i (strip_output cfg bat blend E S) black in
  let s := nth i S black in
  let e := nth i E black in
  pixel_ok out /\
  (20 <= bat ->
     Z.min (rgb_r s) (rgb_r e) - 1 <= rgb_r out <= Z.max (rgb_r s) (rgb_r e) /\
     Z.min (rgb_g s) (rgb_g e) - 1 <= rgb_g out <= Z.max (rgb_g s) (rgb_g e) /\
     Z.min (rgb_b s) (rgb_b e) - 1 <= rgb_b out <= Z.max (rgb_b s) (rgb_b e)).
Proof.
  intros Hw HE Hi He Hs out s e. subst out s e.
  assert (Hc : pixel_ok (nth i (composite cfg blend E S) black) /\
    (Z.min (rgb_r (nth i S black)) (rgb_r (nth i E black)) - 1
       <= rgb_r (nth i (composite cfg blend E S) black)
       <= Z.max (rgb_r (nth i S black)) (rgb_r (nth i E black)) /\
     Z.min (rgb_g (nth i S black)) (rgb_g (nth i E black)) - 1
       <= rgb_g (nth i (composite cfg blend E S) black)
       <= Z.max (rgb_g (nth i S black)) (rgb_g (nth i E black)) /\
     Z.min (rgb_b (nth i S black)) (rgb_b (nth i E black)) - 1
       <= rgb_b (nth i (composite cfg blend E S) black)
       <= Z.max (rgb_b (nth i S black)) (rgb_b (nth i E black)))).
  { unfold composite.
    destruct He as (Er & Eg & Eb). destruct Hs as (Sr & Sg & Sb).
    destruct (Z.eqb_spec blend 0).
    { rewrite fill_strip_nth by exact Hi. unfold pixel_ok, uint8 in *. lia. }
    destruct (Z.leb_spec 256 blend).
    { rewrite fill_strip_nth by exact Hi. unfold pixel_ok, uint8 in *. lia. }
    rewrite fill_strip_nth by exact Hi. cbn [blend_pixel rgb_r rgb_g rgb_b].
    assert (Hw' : 0 < blend < 256) by lia.
    destruct (blend_channel_between blend _ _ Hw' Sr Er).
    destruct (blend_channel_between blend _ _ Hw' Sg Eg).
    destruct (blend_channel_between blend _ _ Hw' Sb Eb).
    unfold pixel_ok, uint8, blend_pixel in *. cbn [rgb_r rgb_g rgb_b].
    repeat split; lia. }
  destruct Hc as [Hok Hbt].
  unfold strip_output, battery_dim.
  destruct (Z.eqb_spec blend 0) as [-> | Hn0]; cbn [andb].
  - destruct (Z.leb_spec 20 bat).
    + rewrite composite_0 in Hok, Hbt by exact HE.
      rewrite <- HE, firstn_all. split; [exact Hok | intros _; exact Hbt].
    + destruct (Z.ltb_spec bat 10).
      * rewrite fill_strip_nth by exact Hi. split; [| lia].
        unfold pixel_ok, uint8, black; cbn; lia.
      * destruct (Z.ltb_spec bat 20); [| lia].
        rewrite fill_strip_nth by exact Hi. split; [| lia].
        destruct Hok as (Hr & Hg & Hb). unfold pixel_ok, halve_pixel; cbn.
        repeat split; apply halve_uint8; assumption.
  - destruct (Z.ltb_spec bat 10).
    + rewrite fill_strip_nth by exact Hi. split; [| lia].
      unfold pixel_ok, uint8, black; cbn; lia.
    + destruct (Z.ltb_spec bat 20).
      * rewrite fill_strip_nth by exact Hi. split; [| lia].
        destruct Hok as (Hr & Hg & Hb). unfold pixel_ok, halve_pixel; cbn.
        repeat split; apply halve_uint8; assumption.
      * split; [exact Hok | intros _; exact Hbt].
Qed.

Lemma status_blend_range (cfg : config) (inp : inputs) (w : world) :
  0 <= status_animation_step (state w) ->
  0 <= fst (status_blend cfg inp w) <= 256.
Proof.
  intros Hk. unfold status_blend. run_m.
  destruct (status_active (state w)); [| cbn; lia].
  cbn [fst snd].
  destruct (UNDERGLOW_INDICATORS_ENABLED cfg) eqn:Hen.
  - rewrite generate_status_weight by assumption. apply envelope_range, Hk.
  - unfold zmk_led_generate_status. rewrite Hen. cbn. lia.
Qed.

Lemma status_blend_status_pixels (cfg : config) (inp : inputs) (w : world) :
  status_pixels (snd (status_blend cfg inp w)) =
    if status_active (state w) && UNDERGLOW_INDICATORS_ENABLED cfg
    then status_picture inp else status_pixels w.
Proof.
  unfold status_blend. run_m.
  destruct (status_active (state w)); [| reflexivity].
  cbn [fst snd status_pixels andb]. unfold zmk_led_generate_status.
  destruct (UNDERGLOW_INDICATORS_ENABLED cfg); cbn [negb]; [| reflexivity].
  run_m. cbn [state].
  repeat match goal with |- context [if ?c then _ else _] => destruct c end;
    reflexivity.
Qed.

Lemma strip_output_length (cfg : config) (bat blend : Z) (E S : list led_rgb) :
  length E = STRIP_NUM_PIXELS cfg ->
  length (strip_output cfg bat blend E S) = STRIP_NUM_PIXELS cfg.
Proof.
  intros HE. destruct (strip_output_cases cfg bat blend E S HE) as (A1 & A2 & A3).
  destruct (Z.lt_ge_cases bat 10); [rewrite A1 by lia; apply repeat_length |].
  destruct (Z.lt_ge_cases bat 20);
    [rewrite A2 by lia; rewrite length_map | rewrite A3 by lia];
    apply composite_length.
Qed.

(** X15: in a pass of [zmk_led_write_pixels] over buffers with 8-bit
    channels (the effect buffer, the status buffer and the picture the
    overlay paints), the last call is the write to the strip, of exactly
    [STRIP_NUM_PIXELS] pixels, and every pixel written has 8-bit channels
    again - the sum of the two shifted products never wraps - whatever the
    battery level and the state of the overlay; with the battery at 20 or
    more each channel written lies between the smaller of the two buffers'
    channels minus one and the larger of them. *)
Theorem written_pixels_well_formed
    (cfg : config) (inp : inputs) (w : world) (i : nat) :
  0 <= status_animation_step (state w) ->
  length (pixels w) = STRIP_NUM_PIXELS cfg ->
  (i < STRIP_NUM_PIXELS cfg)%nat ->
  pixel_ok (nth i (pixels w) black) ->
  pixel_ok (nth i (status_pixels w) black) ->
  pixel_ok (nth i (status_picture inp) black) ->
  let w' := snd (zmk_led_write_pixels cfg inp w) in
  let s := nth i (status_pixels w') black in
  let e := nth i (pixels w) black in
  exists pre out,
    calls w' = pre ++ [led_strip_update_rgb out] /\
    length out = STRIP_NUM_PIXELS cfg /\
    pixel_ok (nth i out black) /\
    (20 <= battery_soc inp ->
       Z.min (rgb_r s) (rgb_r e) - 1 <= rgb_r (nth i out black)
         <= Z.max (rgb_r s) (rgb_r e) /\
       Z.min (rgb_g s) (rgb_g e) - 1 <= rgb_g (nth i out black)
         <= Z.max (rgb_g s) (rgb_g e) /\
       Z.min (rgb_b s) (rgb_b e) - 1 <= rgb_b (nth i out black)
         <= Z.max (rgb_b s) (rgb_b e)).
Proof.
  intros Hk Hpx Hi He Hs Hp w' s e. subst w' s e.
  set (blend := fst (status_blend cfg inp w)).
  set (S' := status_pixels (snd (status_blend cfg inp w))).
  assert (HS' : status_pixels (snd (zmk_led_write_pixels cfg inp w)) = S')
    by reflexivity.
  assert (Hok : pixel_ok (nth i S' black)).
  { unfold S'. rewrite status_blend_status_pixels.
    destruct (status_active (state w) && UNDERGLOW_INDICATORS_ENABLED cfg); assumption. }
  exists (calls (snd (status_blend cfg inp w))),
         (strip_output cfg (battery_soc inp) blend (pixels w) S').
  split; [apply write_pixels_calls |].
  split; [apply strip_output_length, Hpx |].
  rewrite HS'.
  apply strip_output_pixel_ok; try assumption.
  apply status_blend_range, Hk.
Qed.

(** A pass at full battery with the overlay counter at 10 (weight 128): where
    both buffers are white the channel written is 254 or 255. *)
Lemma written_pixels_well_formed_witness :
  0 <= status_animation_step (state (status_world 10)) /\
  length (pixels (status_world 10)) = STRIP_NUM_PIXELS example_config /\
  exists pre out,
    calls (snd (zmk_led_write_pixels example_config (mk_inputs 100 [black; white; black])
                  (status_world 10))) = pre ++ [led_strip_update_rgb out] /\
    length out = STRIP_NUM_PIXELS example_config /\
    pixel_ok (nth 1 out black) /\
    254 <= rgb_r (nth 1 out black) <= 255.
Proof.
  split; [by_eval |]. split; [reflexivity |].
  destruct (written_pixels_well_formed example_config
              (mk_inputs 100 [black; white; black]) (status_world 10) 1)
    as (pre & out & Hc & Hl & Hok & Hb);
    try (cbv [pixel_ok uint8 nth white black rgb_r rgb_g rgb_b status_world pixels
              status_pixels status_picture]; lia);
    try by_eval; try (cbn; lia).
  exists pre, out.
  split; [exact Hc |]. split; [exact Hl |]. split; [exact Hok |].
  apply Hb. cbn. lia.
Defined.

(** ** The Battery effect *)

(** X16: the Battery effect gives every pixel one colour, picked by the
    battery percentage alone: the first table entry from 80 up, the second
    for 50..79, the third for 20..49 and the last below 20; the state and
    the collaborators are not touched. *)
Theorem battery_effect_thresholds
    (cfg : config) (LED_RGB : Z -> led_rgb) (inp : inputs) (w : world) (i : nat) :
  (i < STRIP_NUM_PIXELS cfg)%nat ->
  let soc := battery_soc inp in
  let w' := snd (zmk_rgb_underglow_effect_battery cfg LED_RGB inp w) in
  nth i (pixels w') black =
    (if 80 <=? soc then LED_RGB 0x00FF00
     else if 50 <=? soc then LED_RGB 0xFFFF00
     else if 20 <=? soc then LED_RGB 0xFF8C00
     else LED_RGB 0xFF0000) /\
  length (pixels w') = STRIP_NUM_PIXELS cfg /\
  state w' = state w /\ calls w' = calls w /\ status_pixels w' = status_pixels w.
Proof.
  intros Hi soc w'. subst soc w'.
  unfold zmk_rgb_underglow_effect_battery, set_pixels. cbn [fst snd pixels state calls
    status_pixels].
  rewrite fill_strip_nth by exact Hi. rewrite fill_strip_length.
  split; [| repeat split].
  unfold BATTERY_LEVELS, BATTERY_COLORS, battery_color_scan.
  destruct (Z.ltb_spec (battery_soc inp) 80); destruct (Z.leb_spec 80 (battery_soc inp));
    try lia; [| reflexivity].
  destruct (Z.ltb_spec (battery_soc inp) 50); destruct (Z.leb_spec 50 (battery_soc inp));
    try lia; [| reflexivity].
  destruct (Z.ltb_spec (battery_soc inp) 20); destruct (Z.leb_spec 20 (battery_soc inp));
    try lia; reflexivity.
Qed.

Lemma battery_effect_thresholds_witness :
  (1 < STRIP_NUM_PIXELS example_config)%nat /\
  nth 1 (pixels (snd (zmk_rgb_underglow_effect_battery example_config example_LED_RGB
                        (mk_inputs 49 []) example_world))) black =
    example_LED_RGB 0xFF8C00.
Proof.
  split; [cbn; lia |].
  apply (battery_effect_thresholds example_config example_LED_RGB
           (mk_inputs 49 []) example_world 1); cbn; lia.
Defined.

(** ** Layer colours: distinct pairs, and the end of the palette *)

Lemma layer_pair_high (layer : Z) :
  8 <= layer < 256 ->
  fst (zmk_led_layer_to_colors layer) = 1 + (layer - 8) / 6 /\
  1 <= snd (zmk_led_layer_to_colors layer) <= 7 /\
  snd (zmk_led_layer_to_colors layer) <> fst (zmk_led_layer_to_colors layer) /\
  (layer - 8) mod 6 =
    (if snd (zmk_led_layer_to_colors layer) <? fst (zmk_led_layer_to_colors layer)
     then snd (zmk_led_layer_to_colors layer) - 1
     else snd (zmk_led_layer_to_colors layer) - 2).
Proof.
  intros H. rewrite layer_to_colors_high by lia. cbn [fst snd].
  pose proof (Z.mod_pos_bound (layer - 8) 6 ltac:(lia)) as Hm.
  destruct (Z.leb_spec (1 + (layer - 8) / 6) (1 + (layer - 8) mod 6)).
  - destruct (Z.ltb_spec (1 + (layer - 8) mod 6 + 1) (1 + (layer - 8) / 6));
      repeat split; lia.
  - destruct (Z.ltb_spec (1 + (layer - 8) mod 6) (1 + (layer - 8) / 6));
      repeat split; lia.
Qed.

(** X17: over the 8-bit layers [zmk_led_layer_to_colors] never gives two
    layers the same (left, right) pair; for layers 0..49 both indices are
    within the 8-entry [LAYER_COLORS] table, and from layer 50 on the left
    index is 8 or more, past the end of that table. *)
Theorem layer_to_colors_injective (l1 l2 : Z) :
  0 <= l1 < 256 ->
  0 <= l2 < 256 ->
  (zmk_led_layer_to_colors l1 = zmk_led_layer_to_colors l2 -> l1 = l2) /\
  (l1 < 50 ->
     0 <= fst (zmk_led_layer_to_colors l1) < 8 /\
     0 <= snd (zmk_led_layer_to_colors l1) < 8) /\
  (50 <= l1 -> 8 <= fst (zmk_led_layer_to_colors l1)).
Proof.
  intros H1 H2. split; [| split].
  - intros E.
    destruct (Z.lt_ge_cases l1 8) as [A1 | A1]; destruct (Z.lt_ge_cases l2 8) as [A2 | A2].
    + rewrite !layer_to_colors_low in E by lia. congruence.
    + destruct (layer_pair_high l2 ltac:(lia)) as (_ & _ & N2 & _).
      rewrite <- E, layer_to_colors_low in N2 by lia. cbn in N2. congruence.
    + destruct (layer_pair_high l1 ltac:(lia)) as (_ & _ & N1 & _).
      rewrite E, layer_to_colors_low in N1 by lia. cbn in N1. congruence.
    + destruct (layer_pair_high l1 ltac:(lia)) as (F1 & _ & _ & M1).
      destruct (layer_pair_high l2 ltac:(lia)) as (F2 & _ & _ & M2).
      rewrite E in F1, M1. rewrite F2 in F1. rewrite <- M1 in M2.
      pose proof (Z.div_mod (l1 - 8) 6 ltac:(lia)).
      pose proof (Z.div_mod (l2 - 8) 6 ltac:(lia)).
      lia.
  - intros Hl.
    destruct (Z.lt_ge_cases l1 8) as [A1 | A1].
    + rewrite layer_to_colors_low by lia. cbn. lia.
    + destruct (layer_pair_high l1 ltac:(lia)) as (F1 & R1 & _).
      rewrite F1.
      assert (0 <= (l1 - 8) / 6 < 7)
        by (split; [apply Z.div_pos; lia | apply Z.div_lt_upper_bound; lia]).
      lia.
  - intros Hl.
    destruct (layer_pair_high l1 ltac:(lia)) as (F1 & _).
    rewrite F1.
    assert (7 <= (l1 - 8) / 6) by (apply Z.div_le_lower_bound; lia).
    lia.
Qed.

Lemma layer_to_colors_injective_witness :
  0 <= 55 < 256 /\ 0 <= 13 < 256 /\ 8 <= fst (zmk_led_layer_to_colors 55).
Proof.
  split; [lia |]. split; [lia |].
  apply (layer_to_colors_injective 55 13); lia.
Defined.

(** ** Automatic off and back on *)

Lemma auto_state_noop (cfg : config) (target : bool)
    (ss : rgb_underglow_sleep_state) (w : world) :
  target = is_awake ss ->
  rgb_underglow_auto_state cfg target ss w = ((OK, ss), w).
Proof.
  intros ->. unfold rgb_underglow_auto_state. rewrite Bool.eqb_reflx. reflexivity.
Qed.

(** X18: with the strip present and the module awake, a sleep notice turns
    the underglow off and remembers whether it was on; a second sleep notice,
    like a wake notice while awake, returns 0 and changes nothing; the wake
    notice that follows restores the on flag, with the state as it was
    before the sleep notice except that [animation_step] is 0 when the
    underglow comes back on. *)
Theorem auto_state_sleep_wake (cfg : config) (ss : rgb_underglow_sleep_state) (w : world) :
  led_strip w = true ->
  is_awake ss = true ->
  let r1 := rgb_underglow_auto_state cfg false ss w in
  let ss1 := snd (fst r1) in
  let w1 := snd r1 in
  let r2 := rgb_underglow_auto_state cfg true ss1 w1 in
  fst (fst r1) = OK /\
  on (state w1) = false /\
  ss1 = mk_sleep false (on (state w)) /\
  rgb_underglow_auto_state cfg false ss1 w1 = ((OK, ss1), w1) /\
  rgb_underglow_auto_state cfg true ss w = ((OK, ss), w) /\
  fst (fst r2) = OK /\
  snd (fst r2) = mk_sleep true (on (state w)) /\
  state (snd r2) =
    (if on (state w) then with_animation_step 0 (state w) else state w).
Proof.
  intros Hs Ha r1 ss1 w1 r2.
  assert (E1 : r1 = ((OK, mk_sleep false (on (state w))),
                     snd (zmk_rgb_underglow_off cfg w))).
  { subst r1. unfold rgb_underglow_auto_state. rewrite Ha. cbn [Bool.eqb is_awake].
    run_m. rewrite off_with_strip by exact Hs. reflexivity. }
  subst ss1 w1 r2. rewrite E1. cbn [fst snd].
  rewrite off_with_strip by exact Hs. cbn [fst snd state on with_on].
  split; [reflexivity |]. split; [reflexivity |]. split; [reflexivity |].
  split; [apply auto_state_noop; reflexivity |].
  split; [apply auto_state_noop; symmetry; exact Ha |].
  unfold rgb_underglow_auto_state.
  cbn [Bool.eqb is_awake rgb_state_before_sleeping].
  destruct (on (state w)) eqn:Eon; run_m;
    [rewrite on_with_strip by reflexivity | rewrite off_with_strip by reflexivity];
    cbn [fst snd state];
    (split; [reflexivity |]); (split; [reflexivity |]);
    destruct (state w); cbn in *; subst; reflexivity.
Qed.

Lemma auto_state_sleep_wake_witness :
  led_strip example_world = true /\
  is_awake initial_sleep_state = true /\
  on (state (snd (rgb_underglow_auto_state example_config false initial_sleep_state
                    example_world))) = false.
Proof.
  split; [reflexivity |]. split; [reflexivity |].
  apply (auto_state_sleep_wake example_config initial_sleep_state example_world);
    reflexivity.
Defined.

(** ** Switching off *)

(** X19: with the strip present, [zmk_rgb_underglow_off] changes nothing in
    the state but the on flag, and submits the off work item before it stops
    the timer; when that item runs, the effect buffer is all black and
    exactly [STRIP_NUM_PIXELS] black pixels are written to the strip. *)
Theorem off_blanks_strip (cfg : config) (w : world) :
  led_strip w = true ->
  let w1 := snd (zmk_rgb_underglow_off cfg w) in
  let w2 := snd (zmk_rgb_underglow_off_handler cfg w1) in
  fst (zmk_rgb_underglow_off cfg w) = OK /\
  state w1 = with_on false (state w) /\
  pixels w1 = pixels w /\
  (exists pre post,
     calls w1 = calls w ++ pre ++ [submit_underglow_off_work; k_timer_stop] ++ post /\
     ~ In k_timer_start (pre ++ post)) /\
  state w2 = state w1 /\
  pixels w2 = repeat black (STRIP_NUM_PIXELS cfg) /\
  calls w2 = calls w1 ++ [led_strip_update_rgb (repeat black (STRIP_NUM_PIXELS cfg))].
Proof.
  intros Hs w1 w2. subst w1 w2.
  rewrite off_with_strip by exact Hs. cbn [fst snd state pixels calls].
  split; [reflexivity |]. split; [reflexivity |]. split; [reflexivity |].
  split.
  { unfold off_calls. eexists _, _. split; [reflexivity |].
    destruct (CONFIG_ZMK_RGB_UNDERGLOW_EXT_POWER cfg), (ZMK_BLE_IS_CENTRAL cfg);
      cbn; intuition discriminate. }
  unfold zmk_rgb_underglow_off_handler. run_m. cbn [state pixels calls].
  change (mk_rgb 0 0 0) with black. rewrite fill_strip_const.
  rewrite firstn_all2 by (rewrite repeat_length; lia).
  repeat split.
Qed.

Lemma off_blanks_strip_witness :
  led_strip example_world = true /\
  pixels (snd (zmk_rgb_underglow_off_handler example_config
                 (snd (zmk_rgb_underglow_off example_config example_world)))) =
    repeat black (STRIP_NUM_PIXELS example_config).
Proof.
  split; [reflexivity |].
  apply (off_blanks_strip example_config example_world); reflexivity.
Defined.

(** ** The battery gauge of the status picture *)

Lemma set_nth_length (n : nat) (c : led_rgb) (buf : list led_rgb) :
  length (set_nth n c buf) = length buf.
Proof.
  revert n. induction buf as [| h t IH]; intros [| n]; cbn; try reflexivity.
  f_equal. apply IH.
Qed.

Lemma set_nth_same (n : nat) (c d : led_rgb) (buf : list led_rgb) :
  (n < length buf)%nat -> nth n (set_nth n c buf) d = c.
Proof.
  revert n. induction buf as [| h t IH]; intros [| n] H; cbn in *; try lia.
  - reflexivity.
  - apply IH. lia.
Qed.

Lemma set_nth_other (n m : nat) (c d : led_rgb) (buf : list led_rgb) :
  n <> m -> nth m (set_nth n c buf) d = nth m buf d.
Proof.
  revert n m. induction buf as [| h t IH]; intros [| n] [| m] H; cbn; try reflexivity.
  - congruence.
  - apply IH. congruence.
Qed.

Lemma battery_level_loop_length (bat : Z) (c : led_rgb) (len i : Z)
    (addresses : list Z) (buf : list led_rgb) :
  length (battery_level_loop bat c len i addresses buf) = length buf.
Proof.
  revert i buf. induction addresses as [| a rest IH]; intros i buf; [reflexivity |].
  cbn [battery_level_loop]. rewrite IH.
  destruct (_ <=? _); [apply set_nth_length | reflexivity].
Qed.

Lemma battery_level_loop_other (bat : Z) (c d : led_rgb) (len i : Z)
    (addresses : list Z) (buf : list led_rgb) (p : nat) :
  (forall a, In a addresses -> 0 <= a) ->
  ~ In (Z.of_nat p) addresses ->
  nth p (battery_level_loop bat c len i addresses buf) d = nth p buf d.
Proof.
  revert i buf. induction addresses as [| a rest IH]; intros i buf Hpos Hp;
    [reflexivity |].
  cbn [battery_level_loop]. rewrite IH.
  - destruct (_ <=? _); [| reflexivity].
    apply set_nth_other. intros E. apply Hp. left.
    rewrite <- E. rewrite Z2Nat.id; [reflexivity | apply Hpos; left; reflexivity].
  - intros a' Ha'. apply Hpos. right. exact Ha'.
  - intros Hin. apply Hp. right. exact Hin.
Qed.

Lemma battery_level_loop_at (bat : Z) (c d : led_rgb) (len i : Z)
    (addresses : list Z) (buf : list led_rgb) (j : nat) :
  NoDup addresses ->
  (forall a, In a addresses -> 0 <= a < Z.of_nat (length buf)) ->
  (j < length addresses)%nat ->
  nth (Z.to_nat (nth j addresses 0)) (battery_level_loop bat c len i addresses buf) d =
    if Z.quot ((i + Z.of_nat j) * 100) (len - 1) <=? bat then c
    else nth (Z.to_nat (nth j addresses 0)) buf d.
Proof.
  revert i buf j. induction addresses as [| a rest IH]; intros i buf j Hnd Hr Hj;
    [cbn in Hj; lia |].
  inversion Hnd as [| a' rest' Hnotin Hnd']; subst.
  cbn [battery_level_loop].
  destruct j as [| j].
  - cbn [nth]. rewrite Z.add_0_r.
    rewrite battery_level_loop_other.
    + destruct (_ <=? _); [| reflexivity].
      apply set_nth_same.
      pose proof (Hr a (or_introl eq_refl)). lia.
    + intros a' Ha'. apply Hr. right. exact Ha'.
    + rewrite Z2Nat.id by (apply Hr; left; reflexivity). exact Hnotin.
  - cbn [nth]. cbn [length] in Hj.
    assert (Hin : In (nth j rest 0) rest) by (apply nth_In; lia).
    rewrite IH.
    + replace (i + 1 + Z.of_nat j) with (i + Z.of_nat (S j)) by lia.
      destruct (Z.quot ((i + Z.of_nat (S j)) * 100) (len - 1) <=? bat); [reflexivity |].
      destruct (_ <=? _); [| reflexivity].
      apply set_nth_other. intros E.
      apply Hnotin. replace a with (nth j rest 0); [exact Hin |].
      pose proof (Hr a (or_introl eq_refl)) as Ra.
      pose proof (Hr (nth j rest 0) (or_intror Hin)) as Rj.
      rewrite <- (Z2Nat.id a), <- (Z2Nat.id (nth j rest 0)) by lia.
      rewrite E. reflexivity.
    + exact Hnd'.
    + intros a' Ha'. pose proof (Hr a' (or_intror Ha')) as Ra'.
      destruct (_ <=? _); [rewrite set_nth_length |]; exact Ra'.
    + lia.
Qed.

(** X20: for a gauge of two or more distinct positions inside the status
    buffer, [zmk_led_battery_level] paints position [j] exactly when the
    level is at least j * 100 / (len - 1), in green above 40, yellow above
    20 and red otherwise, and leaves it as it was if not; so the first
    position is painted for every level from 0 up and the last one only at
    100 or more.  Pixels that are no gauge position, the buffer length, the
    state, the effect buffer and the collaborators are not touched. *)
Theorem battery_gauge (cfg : config) (bat : Z) (addresses : list Z) (w : world) (j : nat) :
  (2 <= length addresses)%nat ->
  NoDup addresses ->
  (forall a, In a addresses -> 0 <= a < Z.of_nat (length (status_pixels w))) ->
  (j < length addresses)%nat ->
  let w' := snd (zmk_led_battery_level cfg bat addresses w) in
  let colour := if 40 <? bat then green cfg else if 20 <? bat then yellow cfg else red cfg in
  let len := Z.of_nat (length addresses) in
  let pos := fun k => Z.to_nat (nth k addresses 0) in
  nth (pos j) (status_pixels w') black =
    (if Z.of_nat j * 100 / (len - 1) <=? bat then colour
     else nth (pos j) (status_pixels w) black) /\
  (0 <= bat -> nth (pos 0%nat) (status_pixels w') black = colour) /\
  (bat < 100 ->
     nth (pos (length addresses - 1)%nat) (status_pixels w') black =
     nth (pos (length addresses - 1)%nat) (status_pixels w) black) /\
  (100 <= bat -> nth (pos j) (status_pixels w') black = colour) /\
  (forall p, ~ In (Z.of_nat p) addresses ->
     nth p (status_pixels w') black = nth p (status_pixels w) black) /\
  length (status_pixels w') = length (status_pixels w) /\
  state w' = state w /\ pixels w' = pixels w /\ calls w' = calls w.
Proof.
  intros Hlen Hnd Hr Hj w' colour len pos. subst w' len pos.
  unfold zmk_led_battery_level. run_m. cbn [status_pixels state pixels calls].
  fold colour.
  assert (Hl : 0 < Z.of_nat (length addresses) - 1) by lia.
  assert (Hq : forall k, (k < length addresses)%nat ->
            Z.quot ((0 + Z.of_nat k) * 100) (Z.of_nat (length addresses) - 1) =
            Z.of_nat k * 100 / (Z.of_nat (length addresses) - 1)).
  { intros k Hk. rewrite Z.add_0_l. apply quot_div; lia. }
  assert (Hat : forall k, (k < length addresses)%nat ->
            nth (Z.to_nat (nth k addresses 0))
                (battery_level_loop bat colour (Z.of_nat (length addresses)) 0
                   addresses (status_pixels w)) black =
            if Z.of_nat k * 100 / (Z.of_nat (length addresses) - 1) <=? bat then colour
            else nth (Z.to_nat (nth k addresses 0)) (status_pixels w) black).
  { intros k Hk. rewrite battery_level_loop_at by assumption.
    rewrite Hq by exact Hk. reflexivity. }
  split; [apply Hat, Hj |].
  split.
  { intros Hb. rewrite Hat by lia. cbn [Z.of_nat]. rewrite Z.mul_0_l, Z.div_0_l by lia.
    destruct (Z.leb_spec 0 bat); [reflexivity | lia]. }
  split.
  { intros Hb. rewrite Hat by lia.
    replace (Z.of_nat (length addresses - 1)) with (Z.of_nat (length addresses) - 1)
      by lia.
    rewrite (Z.mul_comm _ 100), Z.div_mul by lia.
    destruct (Z.leb_spec 100 bat); [lia | reflexivity]. }
  split.
  { intros Hb. rewrite Hat by exact Hj.
    assert (Z.of_nat j * 100 / (Z.of_nat (length addresses) - 1) <= 100)
      by (apply Z.div_le_upper_bound; nia).
    destruct (Z.leb_spec (Z.of_nat j * 100 / (Z.of_nat (length addresses) - 1)) bat);
      [reflexivity | lia]. }
  split.
  { intros p Hp. apply battery_level_loop_other; [| exact Hp].
    intros a Ha. apply Hr. exact Ha. }
  split; [apply battery_level_loop_length |].
  repeat split.
Qed.

Lemma battery_gauge_witness :
  (2 <= length [0; 2; 1])%nat /\
  nth 1 (status_pixels (snd (zmk_led_battery_level example_config 60 [0; 2; 1]
                               example_world))) black = white /\
  nth 2 (status_pixels (snd (zmk_led_battery_level example_config 60 [0; 2; 1]
                               example_world))) black = green example_config.
Proof.
  split; [cbn; lia |].
  assert (Hnd : NoDup [0; 2; 1]).
  { repeat constructor; cbn; intuition discriminate. }
  assert (Hr : forall a, In a [0; 2; 1] ->
                 0 <= a < Z.of_nat (length (status_pixels example_world))).
  { cbn. intros a [<- | [<- | [<- | []]]]; lia. }
  split.
  - exact (proj1 (battery_gauge example_config 60 [0; 2; 1] example_world 2
                    ltac:(cbn; lia) Hnd Hr ltac:(cbn; lia))).
  - exact (proj1 (battery_gauge example_config 60 [0; 2; 1] example_world 1
                    ltac:(cbn; lia) Hnd Hr ltac:(cbn; lia))).
Defined.

Lemma battery_level_loop_full (bat : Z) (c : led_rgb) (len i : Z)
    (addresses : list Z) (buf : list led_rgb) :
  100 <= bat -> 2 <= len -> 0 <= i -> i + Z.of_nat (length addresses) <= len ->
  battery_level_loop bat c len i addresses buf =
    fold_left (fun buf a => set_nth (Z.to_nat a) c buf) addresses buf.
Proof.
  intros Hb H2. revert i buf.
  induction addresses as [| a rest IH]; intros i buf Hi Hl; [reflexivity |].
  cbn [battery_level_loop fold_left]. cbn [length] in Hl.
  assert (Hlit : Z.quot (i * 100) (len - 1) <= bat).
  { rewrite quot_div by lia.
    assert (i * 100 / (len - 1) <= 100) by (apply Z.div_le_upper_bound; nia). lia. }
  destruct (Z.leb_spec (Z.quot (i * 100) (len - 1)) bat); [| lia].
  apply IH; lia.
Qed.

(** X21: at a level of 100 or more the gauge of two or more positions is
    full: [zmk_led_battery_level] does exactly what [zmk_led_fill] does with
    green on the same positions. *)
Theorem battery_gauge_full (cfg : config) (bat : Z) (addresses : list Z) (w : world) :
  (2 <= length addresses)%nat ->
  100 <= bat ->
  zmk_led_battery_level cfg bat addresses w = zmk_led_fill (green cfg) addresses w.
Proof.
  intros Hlen Hb. unfold zmk_led_battery_level, zmk_led_fill. run_m.
  destruct (Z.ltb_spec 40 bat); [| lia].
  rewrite battery_level_loop_full by lia. reflexivity.
Qed.

Lemma battery_gauge_full_witness :
  (2 <= length [0; 2])%nat /\
  zmk_led_battery_level example_config 100 [0; 2] example_world =
    zmk_led_fill (green example_config) [0; 2] example_world.
Proof.
  split; [cbn; lia |].
  apply (battery_gauge_full example_config 100 [0; 2] example_world); [cbn; lia | lia].
Defined.

(** ** The blink generator *)

Lemma with_animation_step_id (st : rgb_underglow_state) :
  with_animation_step (animation_step st) st = st.
Proof. destruct st; reflexivity. Qed.

Lemma blink_steps_below (idx : nat) (limit : Z) (last : bool * bool) (n : nat) (w : world) :
  0 <= animation_step (state w) ->
  animation_step (state w) + Z.of_nat n <= limit -> limit < 256 ->
  blink_steps idx limit n last w =
    (last, snd (modify_state
                  (with_animation_step (animation_step (state w) + Z.of_nat n)) w)).
Proof.
  revert w. induction n as [| n IH]; intros w H0 Hn Hl.
  - cbn [blink_steps Z.of_nat]. rewrite Z.add_0_r. unfold modify_state. cbn [snd].
    rewrite with_animation_step_id. destruct w; reflexivity.
  - cbn [blink_steps]. unfold zmk_kinesis_blink_step. run_m.
    cbn [state animation_step with_animation_step].
    rewrite u16_small by lia.
    destruct (Z.ltb_spec limit (animation_step (state w) + 1)); [lia |].
    cbn [fst snd]. rewrite IH; cbn [state animation_step with_animation_step]; try lia.
    unfold modify_state. cbn [snd state led_strip led_data pixels status_pixels calls].
    replace (animation_step (state w) + 1 + Z.of_nat n)
      with (animation_step (state w) + Z.of_nat (S n)) by lia.
    reflexivity.
Qed.

Lemma set_ble_flag_twice (idx : nat) (last : bool * bool) :
  let once := set_ble_flag idx (negb (ble_flag idx last)) last in
  set_ble_flag idx (negb (ble_flag idx once)) once = last.
Proof. destruct idx, last as [[] []]; reflexivity. Qed.

(** X22: started with [animation_step] at 0, the blink generator with limit
    [L] answers the same for [L] + 1 calls in a row - the negation of the
    stored flag for the first [L], the counter counting up, then the flag
    itself as call [L] + 1 inverts the stored flag and puts the counter back
    to 0 - and after 2 * ([L] + 1) calls flags and world are as at the start.
    The flag of the other index is never touched. *)
Theorem blink_period (idx : nat) (limit : Z) (last : bool * bool) (w : world) (n : nat) :
  0 <= limit < 256 ->
  animation_step (state w) = 0 ->
  (n <= Z.to_nat limit)%nat ->
  let half := S (Z.to_nat limit) in
  let r := blink_steps idx limit n last w in
  fst r = last /\
  animation_step (state (snd r)) = Z.of_nat n /\
  fst (fst (zmk_kinesis_blink_step idx limit (fst r) (snd r))) =
    (if Z.of_nat n <? limit then negb (ble_flag idx last) else ble_flag idx last) /\
  blink_steps idx limit half last w =
    (set_ble_flag idx (negb (ble_flag idx last)) last, w) /\
  blink_steps idx limit (half + half) last w = (last, w) /\
  ble_flag (1 - idx) (fst (blink_steps idx limit half last w)) = ble_flag (1 - idx) last.
Proof.
  intros Hl H0 Hn half r. subst half r.
  assert (Hbelow : forall k, (k <= Z.to_nat limit)%nat ->
            blink_steps idx limit k last w =
              (last, snd (modify_state (with_animation_step (Z.of_nat k)) w))).
  { intros k Hk. rewrite blink_steps_below by lia. rewrite H0. reflexivity. }
  assert (Hstep : forall k f, (k <= Z.to_nat limit)%nat ->
            zmk_kinesis_blink_step idx limit f
              (snd (modify_state (with_animation_step (Z.of_nat k)) w)) =
            if Z.of_nat k <? limit
            then ((negb (ble_flag idx f), f),
                  snd (modify_state (with_animation_step (Z.of_nat k + 1)) w))
            else ((ble_flag idx f, set_ble_flag idx (negb (ble_flag idx f)) f), w)).
  { intros k f Hk. unfold zmk_kinesis_blink_step. run_m.
    cbn [state animation_step with_animation_step].
    rewrite u16_small by lia.
    destruct (Z.ltb_spec limit (Z.of_nat k + 1));
      destruct (Z.ltb_spec (Z.of_nat k) limit); try lia; cbn [fst snd].
    - f_equal.
      + f_equal. destruct idx, f as [[] []]; reflexivity.
      + cbn [state with_animation_step animation_step]. rewrite <- H0.
        destruct w as [ls st ld px sp cs]; cbn. f_equal.
        destruct st; reflexivity.
    - reflexivity. }
  assert (Hhalf : forall f w0, animation_step (state w0) = 0 ->
            w0 = w ->
            blink_steps idx limit (S (Z.to_nat limit)) f w0 =
              (set_ble_flag idx (negb (ble_flag idx f)) f, w)).
  { intros f w0 _ ->.
    replace (S (Z.to_nat limit)) with (Z.to_nat limit + 1)%nat by lia.
    assert (Happ : forall a b f0 w1,
              blink_steps idx limit (a + b) f0 w1 =
              blink_steps idx limit b (fst (blink_steps idx limit a f0 w1))
                                      (snd (blink_steps idx limit a f0 w1))).
    { induction a as [| a IHa]; intros b f0 w1; [reflexivity |].
      cbn [Nat.add blink_steps]. apply IHa. }
    rewrite Happ. rewrite (blink_steps_below idx limit f (Z.to_nat limit) w) by lia.
    rewrite H0. cbn [fst snd].
    cbn [blink_steps]. rewrite Z.add_0_l.
    rewrite (Hstep (Z.to_nat limit) f) by lia.
    destruct (Z.ltb_spec (Z.of_nat (Z.to_nat limit)) limit); [lia |]. reflexivity. }
  rewrite Hbelow by exact Hn. cbn [fst snd].
  split; [reflexivity |].
  split; [reflexivity |].
  split.
  { rewrite Hstep by exact Hn.
    destruct (Z.of_nat n <? limit); reflexivity. }
  split; [apply Hhalf; [exact H0 | reflexivity] |].
  split.
  { assert (Happ : forall a b f0 w1,
              blink_steps idx limit (a + b) f0 w1 =
              blink_steps idx limit b (fst (blink_steps idx limit a f0 w1))
                                      (snd (blink_steps idx limit a f0 w1))).
    { induction a as [| a IHa]; intros b f0 w1; [reflexivity |].
      cbn [Nat.add blink_steps]. apply IHa. }
    rewrite Happ. rewrite (Hhalf last w H0 eq_refl). cbn [fst snd].
    rewrite (Hhalf _ w H0 eq_refl). f_equal. apply set_ble_flag_twice. }
  rewrite (Hhalf last w H0 eq_refl). cbn [fst].
  destruct idx as [| [| idx]], last as [a b]; reflexivity.
Qed.

Lemma blink_period_witness :
  0 <= 2 < 256 /\
  animation_step (state example_world) = 0 /\
  blink_steps 0 2 3 (false, false) example_world = ((true, false), example_world) /\
  blink_steps 0 2 (3 + 3) (false, false) example_world =
    ((false, false), example_world).
Proof.
  split; [lia |]. split; [reflexivity |].
  split;
    apply (blink_period 0 2 (false, false) example_world 0);
    first [lia | reflexivity | (cbn; lia)].
Defined.

(** ** Counters recover their range *)

(** X23: whatever [animation_step] and [animation_speed] hold - also a
    counter left behind by another effect, which
    [zmk_rgb_underglow_set_periph] does not reset - one Breathe tick leaves
    the counter in 0..2400 and one Spectrum or Swirl tick leaves it in
    [0,360). *)
Theorem effect_counters_recover (cfg : config) (w : world) :
  0 <= animation_step (state (snd (zmk_rgb_underglow_effect_breathe cfg w))) <= 2400 /\
  0 <= animation_step (state (snd (zmk_rgb_underglow_effect_spectrum cfg w))) < 360 /\
  0 <= animation_step (state (snd (zmk_rgb_underglow_effect_swirl cfg w))) < 360.
Proof.
  assert (Hu : forall x, 0 <= u16 x < 65536)
    by (intros x; unfold u16; apply Z.mod_pos_bound; lia).
  assert (Hr : forall x, 0 <= u16 (Z.rem (u16 x) 360) < 360).
  { intros x. pose proof (Hu x). rewrite rem_mod by lia.
    pose proof (Z.mod_pos_bound (u16 x) 360 ltac:(lia)).
    rewrite u16_small by lia. lia. }
  rewrite breathe_tick_eq, spectrum_tick_eq, swirl_tick_eq.
  cbn [state animation_step with_animation_step].
  split; [| split; apply Hr].
  pose proof (Hu (animation_step (state w) + animation_speed (state w) * 10)).
  destruct (Z.ltb_spec 2400
              (u16 (animation_step (state w) + animation_speed (state w) * 10))); lia.
Qed.

(** ** Receiving the same record twice *)

(** X24: with the strip present, applying the same display record a second
    time changes nothing: [zmk_rgb_underglow_set_periph] returns 0 and the
    world, collaborator calls included, is the one the first application
    left. *)
Theorem set_periph_idempotent (cfg : config) (w : world) (periph : zmk_periph_led) :
  led_strip w = true ->
  zmk_rgb_underglow_set_periph cfg periph
    (snd (zmk_rgb_underglow_set_periph cfg periph w)) =
  (OK, snd (zmk_rgb_underglow_set_periph cfg periph w)).
Proof.
  intros Hs.
  assert (Hs' : led_strip (store_periph periph w) = true) by exact Hs.
  rewrite (set_periph_eq cfg w periph Hs). cbn [snd].
  set (w1 := snd (modify_state _ _)).
  assert (H1 : led_strip w1 = true /\ on (state w1) = pl_on periph /\
               led_data w1 = periph /\ current_effect (state w1) = pl_effect periph).
  { subst w1.
    destruct (on (state w)) eqn:Eon, (pl_on periph) eqn:Ep; cbn [negb andb];
      rewrite ?on_with_strip, ?off_with_strip by exact Hs';
      cbn; rewrite ?Eon; repeat split; try exact Hs;
      destruct (ZMK_BLE_IS_CENTRAL cfg), periph; cbn in *; subst; reflexivity. }
  destruct H1 as (L1 & O1 & D1 & C1).
  rewrite (set_periph_eq cfg w1 periph L1). f_equal.
  rewrite O1.
  destruct (pl_on periph); cbn [negb andb];
    unfold store_periph, modify_led_data, modify_state; cbn [snd];
    destruct w1 as [ls st ld px sp cs]; cbn in *; subst;
    destruct st; cbn in *; subst; reflexivity.
Qed.

Lemma set_periph_idempotent_witness :
  led_strip example_world = true /\
  zmk_rgb_underglow_set_periph example_config (mk_periph 3 0 false 200)
    (snd (zmk_rgb_underglow_set_periph example_config (mk_periph 3 0 false 200)
            example_world)) =
  (OK, snd (zmk_rgb_underglow_set_periph example_config (mk_periph 3 0 false 200)
              example_world)).
Proof.
  split; [reflexivity |].
  apply (set_periph_idempotent example_config example_world (mk_periph 3 0 false 200)).
  reflexivity.
Defined.

(** ** Reading the on flag back *)

(** X25: with the strip present, [zmk_rgb_underglow_get_state] returns 0 and
    reports true right after [zmk_rgb_underglow_on], false right after
    [zmk_rgb_underglow_off], and the inverse of the earlier answer after
    [zmk_rgb_underglow_toggle]; it changes nothing itself.  Without the
    strip it returns [-ENODEV] and reports nothing. *)
Theorem get_state_reads_back (cfg : config) (w : world) :
  (led_strip w = true ->
     zmk_rgb_underglow_get_state w = ((OK, Some (on (state w))), w) /\
     fst (zmk_rgb_underglow_get_state (snd (zmk_rgb_underglow_on cfg w))) =
       (OK, Some true) /\
     fst (zmk_rgb_underglow_get_state (snd (zmk_rgb_underglow_off cfg w))) =
       (OK, Some false) /\
     fst (zmk_rgb_underglow_get_state (snd (zmk_rgb_underglow_toggle cfg w))) =
       (OK, Some (negb (on (state w))))) /\
  (led_strip w = false ->
     zmk_rgb_underglow_get_state w = ((ENODEV, None), w)).
Proof.
  split; intros Hs.
  - rewrite toggle_eq, on_with_strip, off_with_strip by exact Hs.
    unfold zmk_rgb_underglow_get_state. run_m. rewrite Hs. cbn.
    destruct (on (state w)); cbn; repeat split.
  - unfold zmk_rgb_underglow_get_state. run_m. rewrite Hs. reflexivity.
Qed.

(** ** Pushing the display record to the other half *)

(** X26: with the strip present, on the central half every
    [zmk_rgb_underglow_on], [zmk_rgb_underglow_off] and accepted
    [zmk_rgb_underglow_select_effect] ends by sending the display record
    with the new on flag, respectively the new effect, to the other half -
    also when the value did not change; on the other half none of them
    sends anything. *)
Theorem commands_push_display_record (cfg : config) (w : world) (effect : Z) :
  led_strip w = true ->
  0 <= effect <= 6 ->
  let sent := fun w' =>
    filter (fun c => match c with zmk_split_bt_update_led _ => true | _ => false end)
           (skipn (length (calls w)) (calls w')) in
  (ZMK_BLE_IS_CENTRAL cfg = true ->
     sent (snd (zmk_rgb_underglow_on cfg w)) =
       [zmk_split_bt_update_led (with_pl_on true (led_data w))] /\
     sent (snd (zmk_rgb_underglow_off cfg w)) =
       [zmk_split_bt_update_led (with_pl_on false (led_data w))] /\
     sent (snd (zmk_rgb_underglow_select_effect cfg effect w)) =
       [zmk_split_bt_update_led (with_pl_effect effect (led_data w))] /\
     led_data (snd (zmk_rgb_underglow_select_effect cfg effect w)) =
       with_pl_effect effect (led_data w)) /\
  (ZMK_BLE_IS_CENTRAL cfg = false ->
     sent (snd (zmk_rgb_underglow_on cfg w)) = [] /\
     sent (snd (zmk_rgb_underglow_off cfg w)) = [] /\
     sent (snd (zmk_rgb_underglow_select_effect cfg effect w)) = [] /\
     led_data (snd (zmk_rgb_underglow_select_effect cfg effect w)) = led_data w).
Proof.
  intros Hs He sent. subst sent. cbv beta.
  assert (Hskip : forall (l m : list call), skipn (length l) (l ++ m) = m).
  { intros l m. induction l as [| a l IH]; [reflexivity | exact IH]. }
  rewrite on_with_strip, off_with_strip by exact Hs.
  rewrite select_effect_accepts by assumption.
  cbn [snd calls led_data]. rewrite !Hskip.
  unfold on_calls, off_calls.
  split; intros Hc; rewrite Hc;
    destruct (CONFIG_ZMK_RGB_UNDERGLOW_EXT_POWER cfg); repeat split.
Qed.

Lemma commands_push_display_record_witness :
  led_strip example_world = true /\
  0 <= 3 <= 6 /\
  ZMK_BLE_IS_CENTRAL example_config = false /\
  led_data (snd (zmk_rgb_underglow_select_effect example_config 3 example_world)) =
    led_data example_world.
Proof.
  split; [reflexivity |]. split; [lia |]. split; [reflexivity |].
  apply (commands_push_display_record example_config example_world 3);
    first [reflexivity | lia].
Defined.

(** ** Sequences of commands *)

Lemma run_command_without_strip (cfg : config) (c : command) (w : world) :
  led_strip w = false ->
  is_set_hsb c = false ->
  run_command cfg c w = (ENODEV, w).
Proof.
  intros Hs Hc.
  destruct c as [| | | e | d | c | d | d | d | d |]; cbn [run_command];
    try discriminate Hc;
    first [apply (commands_fail_fast_without_strip cfg w 0 Hs)
          | apply (commands_fail_fast_without_strip cfg w e Hs)
          | apply (commands_fail_fast_without_strip cfg w d Hs)].
Qed.

(** X1: while the strip device is missing, every command other than the
    colour setter returns [-ENODEV], and no sequence of such commands, of
    whatever length and arguments, changes anything in the world. *)
Theorem not_ready_sequences_change_nothing (cfg : config) (cs : list command) (w : world) :
  led_strip w = false ->
  forallb (fun c => negb (is_set_hsb c)) cs = true ->
  run_commands cfg cs w = w /\
  (forall c, In c cs -> run_command cfg c w = (ENODEV, w)).
Proof.
  intros Hs Hcs.
  pose proof (fun c => run_command_without_strip cfg c w Hs) as Hone.
  split.
  - induction cs as [| c cs IH]; [reflexivity |].
    cbn [forallb] in Hcs. apply andb_prop in Hcs. destruct Hcs as [Hc Hcs].
    apply negb_true_iff in Hc.
    cbn [run_commands fold_left]. rewrite (Hone c Hc). cbn [snd].
    apply IH. exact Hcs.
  - intros c Hin. apply Hone.
    rewrite forallb_forall in Hcs. apply negb_true_iff. apply Hcs. exact Hin.
Qed.

Lemma not_ready_sequences_change_nothing_witness :
  led_strip unready_world = false /\
  run_commands example_config
    [cmd_on; cmd_change_hue 3; cmd_select_effect 2; cmd_status; cmd_toggle]
    unready_world = unready_world.
Proof.
  split; [reflexivity |].
  apply (not_ready_sequences_change_nothing example_config
           [cmd_on; cmd_change_hue 3; cmd_select_effect 2; cmd_status; cmd_toggle]
           unready_world); reflexivity.
Defined.

Lemma calc_hue_range (cfg : config) (w : world) (direction : Z) :
  let c := fst (zmk_rgb_underglow_calc_hue cfg direction w) in
  0 <= hsb_h c < 360 /\ hsb_s c = hsb_s (color (state w)) /\
  hsb_b c = hsb_b (color (state w)).
Proof.
  unfold zmk_rgb_underglow_calc_hue, HUE_MAX. run_m. cbn [hsb_h hsb_s hsb_b with_hsb_h].
  set (x := u16 (_ + _)).
  assert (Hx : 0 <= x < 65536) by (unfold x, u16; apply Z.mod_pos_bound; lia).
  rewrite rem_mod by lia.
  pose proof (Z.mod_pos_bound x 360 ltac:(lia)).
  rewrite u16_small by lia. repeat split; lia.
Qed.

Lemma calc_sat_range (cfg : config) (w : world) (direction : Z) :
  let c := fst (zmk_rgb_underglow_calc_sat cfg direction w) in
  hsb_h c = hsb_h (color (state w)) /\ 0 <= hsb_s c <= 100 /\
  hsb_b c = hsb_b (color (state w)).
Proof.
  unfold zmk_rgb_underglow_calc_sat, SAT_MAX. run_m. cbn [hsb_h hsb_s hsb_b with_hsb_s].
  set (s := i32 _).
  destruct (Z.ltb_spec s 0); [rewrite u8_small by lia; repeat split; lia |].
  destruct (Z.ltb_spec 100 s); rewrite u8_small by lia; repeat split; lia.
Qed.

Lemma calc_brt_range (cfg : config) (w : world) (direction : Z) :
  let c := fst (zmk_rgb_underglow_calc_brt cfg direction w) in
  hsb_h c = hsb_h (color (state w)) /\ hsb_s c = hsb_s (color (state w)) /\
  0 <= hsb_b c <= 100.
Proof.
  unfold zmk_rgb_underglow_calc_brt, CLAMP, BRT_MAX. run_m.
  cbn [hsb_h hsb_s hsb_b with_hsb_b].
  set (b := i32 _).
  destruct (Z.leb_spec b 0); [rewrite u8_small by lia; repeat split; lia |].
  destruct (Z.ltb_spec b 100); rewrite u8_small by lia; repeat split; lia.
Qed.

Lemma change_color_state (cfg : config) (w : world) (direction : Z) :
  led_strip w = true ->
  state (snd (zmk_rgb_underglow_change_hue cfg direction w)) =
    with_color (fst (zmk_rgb_underglow_calc_hue cfg direction w)) (state w) /\
  state (snd (zmk_rgb_underglow_change_sat cfg direction w)) =
    with_color (fst (zmk_rgb_underglow_calc_sat cfg direction w)) (state w) /\
  state (snd (zmk_rgb_underglow_change_brt cfg direction w)) =
    with_color (fst (zmk_rgb_underglow_calc_brt cfg direction w)) (state w).
Proof.
  intros Hs.
  unfold zmk_rgb_underglow_change_hue, zmk_rgb_underglow_change_sat,
    zmk_rgb_underglow_change_brt, zmk_rgb_underglow_save_state,
    zmk_rgb_underglow_calc_hue, zmk_rgb_underglow_calc_sat, zmk_rgb_underglow_calc_brt.
  run_m. rewrite Hs. repeat split.
Qed.

Lemma run_command_in_range (cfg : config) (c : command) (w : world) :
  state_in_range (state w) -> state_in_range (state (snd (run_command cfg c w))).
Proof.
  intros Hr.
  destruct (led_strip w) eqn:Hs.
  - destruct c as [| | | e | d | c | d | d | d | d |]; cbn [run_command].
    + rewrite on_with_strip by exact Hs. exact Hr.
    + rewrite off_with_strip by exact Hs. exact Hr.
    + rewrite toggle_eq. destruct (on (state w));
        [rewrite off_with_strip by exact Hs | rewrite on_with_strip by exact Hs];
        exact Hr.
    + destruct (Z.lt_ge_cases e 0); [rewrite select_effect_rejects by (assumption || lia);
                                     exact Hr |].
      destruct (Z.lt_ge_cases e 7);
        [| rewrite select_effect_rejects by (assumption || lia); exact Hr].
      rewrite select_effect_accepts by (assumption || lia).
      unfold state_in_range in *. cbn. lia.
    + rewrite cycle_effect_eq.
      set (e := Z.rem _ 7).
      destruct (Z.lt_ge_cases e 0); [rewrite select_effect_rejects by (assumption || lia);
                                     exact Hr |].
      destruct (Z.lt_ge_cases e 7);
        [| rewrite select_effect_rejects by (assumption || lia); exact Hr].
      rewrite select_effect_accepts by (assumption || lia).
      unfold state_in_range in *. cbn. lia.
    + destruct (Z.le_gt_cases (hsb_h c) 360);
        [| rewrite set_hsb_rejects by lia; exact Hr].
      destruct (Z.le_gt_cases (hsb_s c) 100);
        [| rewrite set_hsb_rejects by lia; exact Hr].
      destruct (Z.le_gt_cases (hsb_b c) 100);
        [| rewrite set_hsb_rejects by lia; exact Hr].
      rewrite set_hsb_accepts by assumption.
      unfold state_in_range in *. cbn. lia.
    + destruct (change_color_state cfg w d Hs) as (Hst & _ & _).
      destruct (calc_hue_range cfg w d) as (Hh & Hs' & Hb').
      unfold state_in_range in *. rewrite Hst. cbn [color with_color
        animation_speed current_effect]. lia.
    + destruct (change_color_state cfg w d Hs) as (_ & Hst & _).
      destruct (calc_sat_range cfg w d) as (Hh & Hs' & Hb').
      unfold state_in_range in *. rewrite Hst. cbn [color with_color
        animation_speed current_effect]. lia.
    + destruct (change_color_state cfg w d Hs) as (_ & _ & Hst).
      destruct (calc_brt_range cfg w d) as (Hh & Hs' & Hb').
      unfold state_in_range in *. rewrite Hst. cbn [color with_color
        animation_speed current_effect]. lia.
    + unfold zmk_rgb_underglow_change_spd, zmk_rgb_underglow_save_state.
      run_m. rewrite Hs. cbn [negb fst snd].
      destruct ((animation_speed (state w) =? 1) && (d <? 0)); [exact Hr |].
      cbn [fst snd state animation_speed with_animation_speed].
      destruct (Z.ltb_spec 5 (u8 (animation_speed (state w) + d)));
        unfold ret; cbn [fst snd state]; unfold state_in_range in *; cbn; lia.
    + rewrite status_eq by exact Hs. exact Hr.
  - destruct (is_set_hsb c) eqn:Hc.
    + destruct c; try discriminate Hc. cbn [run_command].
      destruct (Z.le_gt_cases (hsb_h c) 360);
        [| rewrite set_hsb_rejects by lia; exact Hr].
      destruct (Z.le_gt_cases (hsb_s c) 100);
        [| rewrite set_hsb_rejects by lia; exact Hr].
      destruct (Z.le_gt_cases (hsb_b c) 100);
        [| rewrite set_hsb_rejects by lia; exact Hr].
      rewrite set_hsb_accepts by assumption.
      unfold state_in_range in *. cbn. lia.
    + rewrite run_command_without_strip by assumption. exact Hr.
Qed.

(** X27: no sequence of commands, whatever the arguments and whether or not
    the strip is present, takes the stored configuration out of its bounds:
    a state with hue at most 360, saturation and brightness at most 100,
    speed at most 5 and the effect index in 0..6 still has them afterwards. *)
Theorem commands_keep_ranges (cfg : config) (cs : list command) (w : world) :
  state_in_range (state w) ->
  state_in_range (state (run_commands cfg cs w)).
Proof.
  revert w. induction cs as [| c cs IH]; intros w Hr; [exact Hr |].
  cbn [run_commands fold_left]. apply IH. apply run_command_in_range. exact Hr.
Qed.

Lemma commands_keep_ranges_witness :
  state_in_range (state example_world) /\
  state_in_range
    (state (run_commands example_config
              [cmd_set_hsb (mk_hsb 360 100 100); cmd_change_spd 9; cmd_cycle_effect (-9);
               cmd_change_brt 40; cmd_toggle]
              example_world)).
Proof.
  assert (H : state_in_range (state example_world))
    by (unfold state_in_range; cbn; repeat split; by_eval).
  split; [exact H |].
  exact (commands_keep_ranges example_config
           [cmd_set_hsb (mk_hsb 360 100 100); cmd_change_spd 9; cmd_cycle_effect (-9);
            cmd_change_brt 40; cmd_toggle]
           example_world H).
Defined.
